(** * Promptly: the two-agent email-to-calendar flow

    A shallow embedding of the request handlers of Agent A (email) and
    Agent B (calendar) and of the services they call, followed by the
    properties of the delegation and batch-creation contract.

    Source files embedded here:
    - [agent-b-calendar/src/controllers/calendarController.ts]
    - [agent-b-calendar/src/services/calendarService.ts]
    - [agent-a-email/src/controllers/emailController.ts]
    - [agent-a-email/src/middleware/validation.middleware.ts]
    - [agent-a-email/src/services/aiService.ts]
    - [agent-a-email/src/services/gmailService.ts]
    - [middleware/errorHandler.ts], [utils/errors.ts]
    - [frontend/src/contexts/AuthContext.tsx],
      [frontend/src/routes/ProtectedRoute.tsx]

    Conventions.  Handlers are [async] functions over collaborators that
    live outside the process (calendar provider, mail provider, language
    model, credential provider, system clock, random numbers).  They are
    embedded in a state-and-exception monad [Eff]: the state is a [World]
    holding the clock, the random source and the log of collaborator
    calls; a thrown JavaScript value is a [Thrown].  The log survives a
    [try]/[catch], as it does in the program.  Calls to [logger] have no
    influence on any result and are left out. *)

From Stdlib Require Import ZArith List String Ascii Bool Lia QArith.
From Stdlib Require Import DecimalString DecimalZ.
Import ListNotations.
Local Open Scope string_scope.
Local Open Scope Z_scope.

Set Implicit Arguments.

(** ** JavaScript values used by the handlers *)

Module Js.

(** [s.includes(sub)] *)
Fixpoint includes (s sub : string) : bool :=
  String.prefix sub s
  || match s with
     | EmptyString => false
     | String _ rest => includes rest sub
     end.

(** [s.replace(pat, by)] with a string pattern: only the first
    occurrence is replaced. *)
Fixpoint drop (n : nat) (s : string) : string :=
  match n, s with
  | O, _ => s
  | S n', String _ rest => drop n' rest
  | S _, EmptyString => EmptyString
  end.

Fixpoint replace (s pat by_ : string) : string :=
  if String.prefix pat s then by_ ++ drop (String.length pat) s
  else match s with
       | EmptyString => EmptyString
       | String c rest => String c (replace rest pat by_)
       end.

(** Truthiness of a string, and [a || b] on an optional string. *)
Definition truthy (s : string) : bool := negb (s =? "")%string.

Definition or_else (o : option string) (d : string) : string :=
  match o with
  | Some s => if truthy s then s else d
  | None => d
  end.

(** An optional string that is truthy, as a condition sees it. *)
Definition first_truthy (o : option string) : option string :=
  match o with
  | Some s => if truthy s then Some s else None
  | None => None
  end.

(** [Array.prototype.includes] on an array of strings. *)
Definition array_includes (l : list string) (x : string) : bool :=
  existsb (String.eqb x) l.

(** [String(n)] for an integral number. *)
Definition of_Z (z : Z) : string := NilZero.string_of_int (Z.to_int z).

(** What a [throw] can carry: an [Error] (with its [name] and
    [message]), an [AppError] ([utils/errors.ts], a subclass of [Error]
    with [status], [code] and optional [details]), or any other value. *)
Inductive Thrown : Type :=
| Error (name message : string)
| AppError (message : string) (status : Z) (code : string)
           (details : option string)
| NonError (shown : string).

Definition instanceof_Error (e : Thrown) : bool :=
  match e with
  | Error _ _ | AppError _ _ _ _ => true
  | NonError _ => false
  end.

Definition message (e : Thrown) : string :=
  match e with
  | Error _ m => m
  | AppError m _ _ _ => m
  | NonError _ => ""
  end.

Definition name (e : Thrown) : string :=
  match e with
  | Error n _ => n
  | AppError _ _ _ _ => "AppError"
  | NonError _ => ""
  end.

(** [new AppError(message, status, code)] *)
Definition mkAppError (m : string) (status : Z) (code : string) : Thrown :=
  AppError m status code None.

Inductive Outcome (A : Type) : Type :=
| Returned (a : A)
| Threw (e : Thrown).
Arguments Threw {A} e.

End Js.
Export Js.

(** ** Dates

    A [Date] holds a time value in milliseconds since the epoch, or NaN
    (an invalid date), here [None].  The bound of 8.64e15 ms on valid
    time values is not modelled: time values are unbounded integers. *)

Module JsDate.

Definition Date := option Z.

Definition msPerDay : Z := 86400000.

(** Civil date of a day number counted from 1970-01-01 (proleptic
    Gregorian calendar). *)
Definition civil_from_days (days : Z) : Z * Z * Z :=
  let z := days + 719468 in
  let era := z / 146097 in
  let doe := z - era * 146097 in
  let yoe := (doe - doe / 1460 + doe / 36524 - doe / 146096) / 365 in
  let doy := doe - (365 * yoe + yoe / 4 - yoe / 100) in
  let mp := (5 * doy + 2) / 153 in
  let d := doy - (153 * mp + 2) / 5 + 1 in
  let m := if mp <? 10 then mp + 3 else mp - 9 in
  let y := yoe + era * 400 + (if m <=? 2 then 1 else 0) in
  (y, m, d).

Definition days_from_civil (y m d : Z) : Z :=
  let y' := if m <=? 2 then y - 1 else y in
  let era := y' / 400 in
  let yoe := y' - era * 400 in
  let mp := if m <=? 2 then m + 9 else m - 3 in
  let doy := (153 * mp + 2) / 5 + d - 1 in
  let doe := yoe * 365 + yoe / 4 - yoe / 100 + doy in
  era * 146097 + doe - 719468.

Definition digit (z : Z) : ascii := ascii_of_nat (48 + Z.to_nat (z mod 10)).

(** [z] written with exactly [n] decimal digits. *)
Fixpoint digits (n : nat) (z : Z) : string :=
  match n with
  | O => EmptyString
  | S n' => digits n' (z / 10) ++ String (digit z) EmptyString
  end.

Definition iso_year (y : Z) : string :=
  if (0 <=? y) && (y <=? 9999) then digits 4 y
  else if y <? 0 then "-" ++ digits 6 (- y)
  else "+" ++ digits 6 y.

(** [new Date(t).toISOString()] for a valid time value [t]. *)
Definition iso (t : Z) : string :=
  let '(y, m, d) := civil_from_days (t / msPerDay) in
  let r := t mod msPerDay in
  iso_year y ++ "-" ++ digits 2 m ++ "-" ++ digits 2 d ++ "T"
    ++ digits 2 (r / 3600000) ++ ":" ++ digits 2 (r / 60000 mod 60) ++ ":"
    ++ digits 2 (r / 1000 mod 60) ++ "." ++ digits 3 (r mod 1000) ++ "Z".

(** [d.toISOString()] throws a [RangeError] on an invalid date. *)
Definition toISOString (d : Date) : Outcome string :=
  match d with
  | Some t => Returned (iso t)
  | None => Threw (Error "RangeError" "Invalid time value")
  end.

(** Reading the simplified ISO format [YYYY-MM-DDTHH:mm:ss.sssZ] back.
    [new Date(string)] accepts more than this format, and what else it
    accepts depends on the engine; the handlers therefore take the
    parser as a parameter, and [parse_iso] is the instance used when a
    run is evaluated. *)
Definition digit_value (c : ascii) : option Z :=
  let n := nat_of_ascii c in
  if ((48 <=? n) && (n <=? 57))%nat then Some (Z.of_nat n - 48) else None.

Fixpoint number_of (s : string) (acc : Z) : option Z :=
  match s with
  | EmptyString => Some acc
  | String c rest =>
      match digit_value c with
      | Some v => number_of rest (10 * acc + v)
      | None => None
      end
  end.

Definition field (s : string) (from len : nat) : option Z :=
  let f := String.substring from len s in
  if (String.length f =? len)%nat then number_of f 0 else None.

Definition sep (s : string) (at_ : nat) (c : string) : bool :=
  (String.substring at_ 1 s =? c)%string.

Definition parse_iso (s : string) : Date :=
  if negb ((String.length s =? 24)%nat
           && sep s 4 "-" && sep s 7 "-" && sep s 10 "T" && sep s 13 ":"
           && sep s 16 ":" && sep s 19 "." && sep s 23 "Z")
  then None
  else
    match field s 0 4, field s 5 2, field s 8 2, field s 11 2,
          field s 14 2, field s 17 2, field s 20 3 with
    | Some y, Some m, Some d, Some hh, Some mm, Some ss, Some ms =>
        if (1 <=? m) && (m <=? 12) && (1 <=? d) && (d <=? 31)
           && (hh <=? 23) && (mm <=? 59) && (ss <=? 59)
        then Some (days_from_civil y m d * msPerDay
                   + hh * 3600000 + mm * 60000 + ss * 1000 + ms)
        else None
    | _, _, _, _, _, _, _ => None
    end.

End JsDate.

(** ** The effect monad *)

Module Effect.

(** The world a handler runs in.  [clock n] is what the [n]-th reading
    of the system clock returns ([Date.now()], [new Date()]) and
    [readings] counts the readings taken; [random] and [draws] do the
    same for [Math.random().toString(36).substr(2, 9)].  [calls] is the
    log of calls made to collaborators, oldest first. *)
Record World (Call : Type) : Type := mkWorld {
  clock : nat -> Z;
  readings : nat;
  random : nat -> string;
  draws : nat;
  calls : list Call
}.

Definition Eff (Call A : Type) : Type :=
  World Call -> Outcome A * World Call.

Section Combinators.
Context {Call : Type}.

Definition ret {A} (a : A) : Eff Call A := fun w => (Returned a, w).

Definition throw {A} (e : Thrown) : Eff Call A := fun w => (Threw e, w).

Definition bind {A B} (m : Eff Call A) (k : A -> Eff Call B) : Eff Call B :=
  fun w =>
    match m w with
    | (Returned a, w') => k a w'
    | (Threw e, w') => (Threw e, w')
    end.

(** [try { m } catch (e) { handler e }] *)
Definition try_catch {A} (m : Eff Call A) (handler : Thrown -> Eff Call A)
  : Eff Call A :=
  fun w =>
    match m w with
    | (Returned a, w') => (Returned a, w')
    | (Threw e, w') => handler e w'
    end.

(** Lifting a pure computation that may throw. *)
Definition lift {A} (o : Outcome A) : Eff Call A := fun w => (o, w).

(** [Date.now()] and [new Date().getTime()] *)
Definition Date_now : Eff Call Z :=
  fun w =>
    (Returned (clock w (readings w)),
     mkWorld (clock w) (S (readings w)) (random w) (draws w) (calls w)).

(** [Math.random().toString(36).substr(2, 9)] *)
Definition Math_random_base36 : Eff Call string :=
  fun w =>
    (Returned (random w (draws w)),
     mkWorld (clock w) (readings w) (random w) (S (draws w)) (calls w)).

(** Recording that a service of this process was entered. *)
Definition record (c : Call) : Eff Call unit :=
  fun w =>
    (Returned tt,
     mkWorld (clock w) (readings w) (random w) (draws w)
       (calls w ++ [c])%list).

(** An awaited call to a collaborator: it is logged, and answered
    from what the collaborator has seen so far. *)
Definition call {A} (c : Call) (answer : list Call -> Outcome A)
  : Eff Call A :=
  fun w =>
    (answer (calls w),
     mkWorld (clock w) (readings w) (random w) (draws w)
       (calls w ++ [c])%list).

(** [l.map(f)], with the effects of [f] in the order of the array. *)
Fixpoint mapM {A B} (f : A -> Eff Call B) (l : list A)
  : Eff Call (list B) :=
  match l with
  | [] => ret []
  | x :: rest =>
      bind (f x) (fun y => bind (mapM f rest) (fun ys => ret (y :: ys)))
  end.

End Combinators.

Declare Scope eff_scope.
Delimit Scope eff_scope with eff.
Notation "x <- m ;; k" := (bind m (fun x => k))
  (at level 61, m at next level, right associativity) : eff_scope.
Notation "m ;;; k" := (bind m (fun _ => k))
  (at level 61, right associativity) : eff_scope.

(** [new Date().toISOString()] *)
Definition now_iso {Call} : Eff Call string :=
  (t <- Date_now ;; lift (JsDate.toISOString (Some t)))%eff.

End Effect.
Export Effect.
Local Open Scope eff_scope.

(** ** The HTTP envelope and the global error handler *)

Module Http.

Record ErrorBody : Type := mkErrorBody {
  eb_message : string;
  eb_code : string;
  eb_details : option string
}.

(** The envelope [{ success, data?, error?, timestamp }] together with
    the status it is sent with. *)
Record Response (Data : Type) : Type := mkResponse {
  status : Z;
  success : bool;
  data : option Data;
  error : option ErrorBody;
  timestamp : string
}.
Arguments mkResponse {Data}.

(** What a controller does with a request: it answers on [res], or it
    hands an error to [next]. *)
Inductive Handled (Data : Type) : Type :=
| Sent (r : Response Data)
| Next (e : Thrown).
Arguments Next {Data} e.

(** [res.status(s).json({ success: true, data, timestamp })] *)
Definition send_json {Call Data} (s : Z) (d : Data)
  : Eff Call (Handled Data) :=
  ts <- now_iso ;;
  ret (Sent (mkResponse s true (Some d) None ts)).

(** [middleware/errorHandler.ts] *)
Definition errorHandler {Call Data} (error : Thrown)
  : Eff Call (Response Data) :=
  match error with
  | AppError m st code details =>
      ts <- now_iso ;;
      ret (mkResponse st false None (Some (mkErrorBody m code details)) ts)
  | _ =>
      if (Js.name error =? "ValidationError")%string then
        ts <- now_iso ;;
        ret (mkResponse 400 false None
               (Some (mkErrorBody "Validation failed" "VALIDATION_ERROR"
                        (Some (Js.message error)))) ts)
      else
        ts <- now_iso ;;
        ret (mkResponse 500 false None
               (Some (mkErrorBody "Internal server error" "INTERNAL_ERROR"
                        None)) ts)
  end.

(** A route: the controller, then the error handler on what it passed
    to [next]. *)
Definition route {Call Data} (controller : Eff Call (Handled Data))
  : Eff Call (Response Data) :=
  h <- controller ;;
  match h with
  | Sent r => ret r
  | Next e => errorHandler e
  end.

(** [(req as any).user], set by the authentication middleware. *)
Record UserInfo : Type := mkUser {
  userId : option string;
  scopes : option (list string)
}.

(** [userInfo?.scopes?.includes(scope)] *)
Definition has_scope (userInfo : option UserInfo) (scope : string) : bool :=
  match userInfo with
  | Some u =>
      match scopes u with
      | Some granted => array_includes granted scope
      | None => false
      end
  | None => false
  end.

(** The scope set attached to the request, empty when there is none. *)
Definition granted_scopes (userInfo : option UserInfo) : list string :=
  match userInfo with
  | Some u => match scopes u with Some granted => granted | None => [] end
  | None => []
  end.

End Http.
Export Http.

(** ** Shared types ([shared/src/types/index.ts]) *)

Module Shared.

Record Reminder : Type := mkReminder {
  method : string;
  minutes : Z
}.

Record Reminders : Type := mkReminders {
  useDefault : bool;
  overrides : option (list Reminder)
}.

Record CreateEventRequest : Type := mkCreateEventRequest {
  title : string;
  description : option string;
  startTime : string;
  endTime : string;
  attendees : option (list string);
  location : option string;
  reminders : option Reminders
}.

Record CalendarEvent : Type := mkCalendarEvent {
  ev_id : option string;   (* [googleEvent.id!]: unchecked at run time *)
  ev_title : string;
  ev_description : option string;
  ev_startTime : string;
  ev_endTime : string;
  ev_attendees : option (list string);
  ev_location : option string;
  ev_htmlLink : option string;
  ev_status : string
}.

Record EmailData : Type := mkEmailData {
  em_id : string;
  em_subject : string;
  em_from : string;
  em_body : string;
  em_threadId : string;
  em_receivedAt : Z;
  em_isRead : bool;
  em_labels : list string
}.

Record ActionItem : Type := mkActionItem {
  a_id : string;
  a_title : string;
  a_description : option string;
  a_suggestedDate : option string;
  a_priority : string;
  a_type : string;
  a_attendees : option (list string)
}.

Record EmailSummary : Type := mkEmailSummary {
  su_id : string;
  su_summary : string;
  su_actionItems : list ActionItem;
  su_priority : string;
  su_sentiment : string
}.

End Shared.
Export Shared.

(** ** Agent B: the calendar service and its controllers *)

Module AgentB.

(** *** Data (the request elements and the provider's [Schema$Event]) *)

(** One element of the validated [events] array, as [enhanceEventData]
    receives it ([eventData: any]): every property may be missing. *)
Record EventData : Type := mkEventData {
  ed_title : option string;
  ed_description : option string;
  ed_startTime : option string;
  ed_endTime : option string;
  ed_attendees : option (list string);
  ed_location : option string;
  ed_reminders : option Reminders
}.

Record EventDateTime : Type := mkEventDateTime {
  dateTime : option string;
  date : option string;
  timeZone : option string
}.

Record SchemaEvent : Type := mkSchemaEvent {
  g_id : option string;
  g_summary : option string;
  g_description : option string;
  g_location : option string;
  g_start : option EventDateTime;
  g_end : option EventDateTime;
  g_attendees : option (list (option string));   (* [{ email }] *)
  g_reminders : option Reminders;
  g_source : option (string * string);           (* [{ title, url }] *)
  g_htmlLink : option string;
  g_status : option string
}.

(** Calls that leave the controller: the methods of [calendarService]
    (the Calendar Gateway) and, below them, the provider's API. *)
Inductive Call : Type :=
| ServiceCreateEvent (eventData : CreateEventRequest)
| ServiceGetEvent (eventId : string)
| ServiceDeleteEvent (eventId : string)
| EventsInsert (resource : SchemaEvent)
| EventsGet (eventId : string)
| EventsDelete (eventId : string).

(** The provider's client.  What a call answers may depend on all that
    was called before, so each method is given the call log. *)
Record CalendarClient : Type := mkCalendarClient {
  events_insert : list Call -> SchemaEvent -> Outcome SchemaEvent;
  events_get : list Call -> string -> Outcome (option SchemaEvent);
  events_delete : list Call -> string -> Outcome unit
}.

(** [class CalendarService]: the two private fields set by
    [initializeClient], and the one environment variable read later. *)
Record CalendarService : Type := mkCalendarService {
  calendar : option CalendarClient;
  oauth2Client : option unit;
  FRONTEND_URL : option string
}.

Definition M := Eff Call.

(** *** [calendarService.ts] *)

(** [edt?.dateTime || edt?.date || new Date().toISOString()] *)
Definition event_time (edt : option EventDateTime) : M string :=
  match match edt with Some x => first_truthy (dateTime x) | None => None end with
  | Some s => ret s
  | None =>
      match match edt with Some x => first_truthy (date x) | None => None end with
      | Some s => ret s
      | None => now_iso
      end
  end.

Definition mapToCalendarEvent (googleEvent : SchemaEvent) : M CalendarEvent :=
  st <- event_time (g_start googleEvent) ;;
  en <- event_time (g_end googleEvent) ;;
  ret {| ev_id := g_id googleEvent;
         ev_title := or_else (g_summary googleEvent) "Untitled Event";
         ev_description := g_description googleEvent;
         ev_startTime := st;
         ev_endTime := en;
         ev_attendees :=
           option_map
             (fun l => flat_map (fun a => match first_truthy a with
                                          | Some s => [s]
                                          | None => []
                                          end) l)
             (g_attendees googleEvent);
         ev_location := g_location googleEvent;
         ev_htmlLink := g_htmlLink googleEvent;
         ev_status := or_else (g_status googleEvent) "confirmed" |}.

Definition createMockEvent (eventData : CreateEventRequest) : M CalendarEvent :=
  t <- Date_now ;;
  r <- Math_random_base36 ;;
  let mockId := "mock_" ++ of_Z t ++ "_" ++ r in
  ret {| ev_id := Some mockId;
         ev_title := title eventData;
         ev_description := description eventData;
         ev_startTime := startTime eventData;
         ev_endTime := endTime eventData;
         ev_attendees := attendees eventData;
         ev_location := location eventData;
         ev_htmlLink :=
           Some ("https://calendar.google.com/calendar/event?eid=" ++ mockId);
         ev_status := "confirmed" |}.

Definition getMockEvent (eventId : string) : M CalendarEvent :=
  now <- Date_now ;;
  let startTime := now + 24 * 60 * 60 * 1000 in
  let endTime := startTime + 60 * 60 * 1000 in
  s <- lift (JsDate.toISOString (Some startTime)) ;;
  e <- lift (JsDate.toISOString (Some endTime)) ;;
  ret {| ev_id := Some eventId;
         ev_title := "Mock Event: " ++ eventId;
         ev_description :=
           Some "This is a mock calendar event for demonstration purposes.";
         ev_startTime := s;
         ev_endTime := e;
         ev_attendees := None;
         ev_location := None;
         ev_htmlLink :=
           Some ("https://calendar.google.com/calendar/event?eid=" ++ eventId);
         ev_status := "confirmed" |}.

(** The resource [createEvent] sends to [events.insert]. *)
Definition insert_resource (svc : CalendarService)
           (eventData : CreateEventRequest) : SchemaEvent :=
  {| g_id := None;
     g_summary := Some (title eventData);
     g_description := description eventData;
     g_location := location eventData;
     g_start := Some (mkEventDateTime (Some (startTime eventData)) None (Some "UTC"));
     g_end := Some (mkEventDateTime (Some (endTime eventData)) None (Some "UTC"));
     g_attendees := option_map (map (@Some string)) (attendees eventData);
     g_reminders :=
       Some (mkReminders
               (match reminders eventData with
                | Some r => useDefault r
                | None => false
                end)
               (match reminders eventData with
                | Some r => overrides r
                | None => None
                end));
     g_source :=
       Some ("Email Calendar Agent",
             or_else (FRONTEND_URL svc) "http://localhost:5173");
     g_htmlLink := None;
     g_status := None |}.

Definition createEvent (svc : CalendarService) (eventData : CreateEventRequest)
  : M CalendarEvent :=
  record (ServiceCreateEvent eventData) ;;;
  try_catch
    (match calendar svc, oauth2Client svc with
     | Some client, Some _ =>
         let calendarEvent := insert_resource svc eventData in
         response_data <-
           call (EventsInsert calendarEvent)
                (fun seen => events_insert client seen calendarEvent) ;;
         match first_truthy (g_id response_data) with
         | None =>
             throw (mkAppError
                      "Failed to create calendar event - no ID returned"
                      500 "CALENDAR_CREATE_FAILED")
         | Some _ => mapToCalendarEvent response_data
         end
     | _, _ => createMockEvent eventData
     end)
    (fun error =>
       if instanceof_Error error then
         if includes (message error) "invalid_grant" then
           throw (mkAppError
                    "Calendar authentication expired, please re-authenticate"
                    401 "CALENDAR_AUTH_EXPIRED")
         else if includes (message error) "insufficient permissions" then
           throw (mkAppError
                    "Insufficient permissions to create calendar events"
                    403 "CALENDAR_PERMISSIONS_ERROR")
         else if includes (message error) "Invalid value" then
           throw (mkAppError "Invalid event data provided"
                    400 "INVALID_EVENT_DATA")
         else createMockEvent eventData
       else createMockEvent eventData).

Definition getEvent (svc : CalendarService) (eventId : string)
  : M (option CalendarEvent) :=
  record (ServiceGetEvent eventId) ;;;
  try_catch
    (match calendar svc, oauth2Client svc with
     | Some client, Some _ =>
         response_data <-
           call (EventsGet eventId)
                (fun seen => events_get client seen eventId) ;;
         match response_data with
         | None => ret None
         | Some d => event <- mapToCalendarEvent d ;; ret (Some event)
         end
     | _, _ => event <- getMockEvent eventId ;; ret (Some event)
     end)
    (fun error =>
       if instanceof_Error error && includes (message error) "Not Found"
       then ret None
       else event <- getMockEvent eventId ;; ret (Some event)).

Definition deleteEvent (svc : CalendarService) (eventId : string) : M bool :=
  record (ServiceDeleteEvent eventId) ;;;
  try_catch
    (match calendar svc, oauth2Client svc with
     | Some client, Some _ =>
         call (EventsDelete eventId)
              (fun seen => events_delete client seen eventId) ;;;
         ret true
     | _, _ => ret true
     end)
    (fun error =>
       if instanceof_Error error && includes (message error) "Not Found"
       then ret false
       else throw (mkAppError "Failed to delete calendar event"
                     500 "CALENDAR_DELETE_FAILED")).

(** *** [calendarController.ts] *)

(** Helper function to enhance event data with defaults. *)
Definition enhanceEventData (eventData : EventData) : M CreateEventRequest :=
  now <- Date_now ;;
  let defaultStartTime := now + 60 * 60 * 1000 in
  let defaultEndTime := defaultStartTime + 60 * 60 * 1000 in
  start_ <- match first_truthy (ed_startTime eventData) with
            | Some s => ret s
            | None => lift (JsDate.toISOString (Some defaultStartTime))
            end ;;
  end_ <- match first_truthy (ed_endTime eventData) with
          | Some s => ret s
          | None => lift (JsDate.toISOString (Some defaultEndTime))
          end ;;
  ret {| title := or_else (ed_title eventData) "Untitled Event";
         description := Some (or_else (ed_description eventData) "");
         startTime := start_;
         endTime := end_;
         attendees :=
           Some (match ed_attendees eventData with
                 | Some l => filter (fun email => includes email "@") l
                 | None => []
                 end);
         location := Some (or_else (ed_location eventData) "");
         reminders :=
           Some (match ed_reminders eventData with
                 | Some r => r
                 | None =>
                     mkReminders false
                       (Some [mkReminder "email" (24 * 60);
                              mkReminder "popup" 15])
                 end) |}.

(** An entry of the per-item error list, [{ event, error }]. *)
Record ItemError : Type := mkItemError {
  ie_event : EventData;
  ie_error : string
}.

(** The [data] member of the responses. *)
Inductive Data : Type :=
| DataCreated (created : list CalendarEvent)
| DataBatch (created : list CalendarEvent)
            (totalRequested totalCreated : nat)
            (errors : option (list ItemError))
| DataEvent (event : CalendarEvent)
| DataDeleted (deleted : bool) (eventId : string).

(** The [for] loop of [createEvents] over [events], from index [i] on,
    with the two arrays it pushes to. *)
Fixpoint process_events (svc : CalendarService) (events : list EventData)
         (createdEvents : list CalendarEvent) (errors : list ItemError)
  : M (list CalendarEvent * list ItemError) :=
  match events with
  | [] => ret (createdEvents, errors)
  | eventData :: rest =>
      pushed <-
        try_catch
          (enhancedEvent <- enhanceEventData eventData ;;
           createdEvent <- createEvent svc enhancedEvent ;;
           ret ((createdEvents ++ [createdEvent])%list, errors))
          (fun eventError =>
             let errorMessage :=
               if instanceof_Error eventError then message eventError
               else "Unknown error" in
             ret (createdEvents,
                  (errors ++ [mkItemError eventData errorMessage])%list)) ;;
      process_events svc rest (fst pushed) (snd pushed)
  end.

Section Controllers.

(** The request body and [validateCreateEventsRequest]
    ([middleware/validation.middleware.ts] of Agent B, a Joi schema) are
    kept abstract.  The validator answers with the error details or
    with the validated [events] array. *)
Variable Body : Type.
Variable validateCreateEventsRequest : Body -> string + list EventData.

Record Request : Type := mkRequest {
  body : Body;
  x_agent : option string;          (* the [X-Agent] header *)
  param_eventId : option string;    (* [req.params.eventId] *)
  user : option UserInfo            (* [(req as any).user] *)
}.

Definition createEvents (svc : CalendarService) (req : Request)
  : M (Handled Data) :=
  try_catch
    (match validateCreateEventsRequest (body req) with
     | inl details =>
         throw (AppError "Invalid request parameters" 400
                  "VALIDATION_ERROR" (Some details))
     | inr events =>
         let userInfo := user req in
         if (List.length events =? 0)%nat then
           send_json 200 (DataCreated [])
         else if negb (has_scope userInfo "calendar.write") then
           throw (mkAppError
                    "Insufficient permissions for calendar operations"
                    403 "INSUFFICIENT_SCOPE")
         else
           done <- process_events svc events [] [] ;;
           let createdEvents := fst done in
           let errors := snd done in
           let response :=
             DataBatch createdEvents (List.length events)
               (List.length createdEvents)
               (if (0 <? List.length errors)%nat then Some errors else None) in
           let status :=
             if (0 <? List.length errors)%nat
                && (List.length createdEvents =? 0)%nat
             then 207 else 200 in
           send_json status response
     end)
    (fun error => ret (Next error)).

(** [getEvent] of the controller; the name is the service method's. *)
Definition getEventController (svc : CalendarService) (req : Request)
  : M (Handled Data) :=
  try_catch
    (let userInfo := user req in
     match first_truthy (param_eventId req) with
     | None => throw (mkAppError "Event ID is required" 400 "MISSING_EVENT_ID")
     | Some eventId =>
         if negb (has_scope userInfo "calendar.read") then
           throw (mkAppError
                    "Insufficient permissions for calendar read operations"
                    403 "INSUFFICIENT_SCOPE")
         else
           event <- getEvent svc eventId ;;
           match event with
           | None => throw (mkAppError "Event not found" 404 "EVENT_NOT_FOUND")
           | Some ev => send_json 200 (DataEvent ev)
           end
     end)
    (fun error => ret (Next error)).

(** [deleteEvent] of the controller. *)
Definition deleteEventController (svc : CalendarService) (req : Request)
  : M (Handled Data) :=
  try_catch
    (let userInfo := user req in
     match first_truthy (param_eventId req) with
     | None => throw (mkAppError "Event ID is required" 400 "MISSING_EVENT_ID")
     | Some eventId =>
         if negb (has_scope userInfo "calendar.write") then
           throw (mkAppError
                    "Insufficient permissions for calendar write operations"
                    403 "INSUFFICIENT_SCOPE")
         else
           deleted <- deleteEvent svc eventId ;;
           if negb deleted then
             throw (mkAppError "Event not found or deletion failed"
                      404 "EVENT_DELETE_FAILED")
           else send_json 200 (DataDeleted true eventId)
     end)
    (fun error => ret (Next error)).

End Controllers.

End AgentB.

(** ** Agent A: request validation, action items and the inbox handler *)

Module AgentA.

(** *** Request bodies

    A property of a JSON body, as far as a [Joi.number()] schema tells
    values apart.  A JSON number is a rational. *)
Inductive Value : Type :=
| VUndefined
| VNull
| VBool (b : bool)
| VNumber (q : Q)
| VString (s : string)
| VOther.

(** [req.body] after [express.json()], which leaves an object (empty
    when nothing was sent) or an array: an object is given by its
    [maxResults] property and the names of its other properties. *)
Inductive Body : Type :=
| ObjectBody (maxResults : Value) (others : list string)
| ArrayBody.

(** The validated value, an object whose [maxResults] may still be
    missing as far as the destructuring default knows. *)
Record ProcessEmailsValue : Type := mkValue {
  v_maxResults : option Z
}.

Definition is_integer (q : Q) : bool :=
  (Z.rem (Qnum q) (Zpos (Qden q)) =? 0).

Definition to_Z (q : Q) : Z := Qnum q / Zpos (Qden q).

(** The collaborators of the handler.  Each answers from the log of
    the calls made so far. *)
Inductive Call : Type :=
| GetRecentEmails (maxResults : Z)
| GetEmailContent (messageId : string)
| SummarizeEmail (email : EmailData)
| ExtractActionItems (email : EmailData)
| RequestDelegatedToken (sessionJwt targetAudience : string)
                        (requestedScopes : list string)
| CallAgentBCreateEvents (delegatedToken : string)
                         (events : list CreateEventRequest).

Record Services : Type := mkServices {
  getRecentEmails : list Call -> Z -> Outcome (list string);
  getEmailContent : list Call -> string -> Outcome EmailData;
  summarizeEmail : list Call -> EmailData -> Outcome string;
  extractActionItems : list Call -> EmailData -> Outcome (list ActionItem);
  requestDelegatedToken :
    list Call -> string -> string -> list string -> Outcome (option string);
  callAgentBCreateEvents :
    list Call -> string -> list CreateEventRequest
    -> Outcome (list CalendarEvent)
}.

Definition M := Eff Call.

Definition nl : string := String (ascii_of_nat 10) EmptyString.

Record Item : Type := mkItem {
  it_email : EmailData;
  it_summary : string;
  it_actions : list ActionItem
}.

Record EmailError : Type := mkEmailError {
  ee_emailId : string;
  ee_error : string
}.

Record ProcessEmailsResponse : Type := mkProcessEmailsResponse {
  processed : nat;
  summaries : list EmailSummary;
  eventsCreated : list CalendarEvent;
  errors : list EmailError
}.

Record Request : Type := mkRequest {
  body : Body;
  authorization : option string;   (* [req.headers.authorization] *)
  user : option UserInfo
}.

Section Engine.

(** Two functions of the platform are parameters: what
    [new Date(string)] makes of a string, and how Joi turns a string
    into a number when it converts ([None]: it does not). *)
Variable Date_parse : string -> JsDate.Date.
Variable number_of_string : string -> option Q.

(** *** [validation.middleware.ts]

    [Joi.number().integer().min(1).max(50).default(5)]; the label of
    the first rule that fails stands for the error details. *)
Definition validate_maxResults (v : Value) : string + Z :=
  let check (q : Q) : string + Z :=
    if negb (is_integer q) then inl "number.integer"
    else if to_Z q <? 1 then inl "number.min"
    else if 50 <? to_Z q then inl "number.max"
    else inr (to_Z q) in
  match v with
  | VUndefined => inr 5
  | VNumber q => check q
  | VString s =>
      match number_of_string s with
      | Some q => check q
      | None => inl "number.base"
      end
  | VNull | VBool _ | VOther => inl "number.base"
  end.

(** [Joi.object({ maxResults: ... }).validate(data)]: [inl] is the
    [error], [inr] the [value]. *)
Definition validateProcessEmailsRequest (data : Body)
  : string + ProcessEmailsValue :=
  match data with
  | ArrayBody => inl "object.base"
  | ObjectBody v others =>
      match validate_maxResults v with
      | inl details => inl details
      | inr n =>
          match others with
          | [] => inr (mkValue (Some n))
          | _ :: _ => inl "object.unknown"
          end
      end
  end.

(** *** [aiService.ts]: [validateDate]

    [date: any] is a string or it is not. *)
Definition validateDate (date : option string) : M (option string) :=
  match Js.first_truthy date with
  | None => ret None
  | Some d =>
      try_catch
        (let parsed := Date_parse d in
         match parsed with
         | None => ret None
         | Some p =>
             now <- Date_now ;;
             if p <? now then ret None
             else s <- lift (JsDate.toISOString parsed) ;; ret (Some s)
         end)
        (fun _ => ret None)
  end.

(** *** [emailController.ts]: [processInbox] *)

(** Step 2, the [for ... of] loop over the fetched messages, with the
    two arrays it pushes to. *)
Fixpoint process_messages (svc : Services) (messages : list string)
         (items : list Item) (errors : list EmailError)
  : M (list Item * list EmailError) :=
  match messages with
  | [] => ret (items, errors)
  | message_id :: rest =>
      pushed <-
        try_catch
          (email <- call (GetEmailContent message_id)
                         (fun seen => getEmailContent svc seen message_id) ;;
           summary <- call (SummarizeEmail email)
                           (fun seen => summarizeEmail svc seen email) ;;
           actions <- call (ExtractActionItems email)
                           (fun seen => extractActionItems svc seen email) ;;
           ret ((items ++ [mkItem email summary actions])%list, errors))
          (fun error =>
             let errorMessage :=
               if instanceof_Error error then message error
               else "Unknown error" in
             ret (items,
                  (errors ++ [mkEmailError message_id errorMessage])%list)) ;;
      process_messages svc rest (fst pushed) (snd pushed)
  end.

(** Step 4, the draft built for one action item of one processed
    email.  The properties are evaluated in the order they are
    written; each [Date.now()] is a reading of the clock. *)
Definition build_event (item : Item) (action : ActionItem)
  : M CreateEventRequest :=
  start_ <- match first_truthy (a_suggestedDate action) with
            | Some d => ret d
            | None =>
                t <- Date_now ;;
                lift (JsDate.toISOString (Some (t + 24 * 60 * 60 * 1000)))
            end ;;
  end_ <- match first_truthy (a_suggestedDate action) with
          | Some d =>
              lift (JsDate.toISOString
                      (option_map (fun t => t + 60 * 60 * 1000)
                                  (Date_parse d)))
          | None =>
              t <- Date_now ;;
              lift (JsDate.toISOString (Some (t + 25 * 60 * 60 * 1000)))
          end ;;
  ret {| title := a_title action;
         description :=
           Some (it_summary item ++ nl ++ nl ++ "Original Email: "
                   ++ em_subject (it_email item));
         startTime := start_;
         endTime := end_;
         attendees :=
           Some (match a_attendees action with
                 | Some l => l
                 | None => []
                 end);
         location := None;
         reminders := None |}.

(** [items.flatMap(item => item.actions.map(action => ...))] *)
Definition build_events (items : list Item) : M (list CreateEventRequest) :=
  per_item <- mapM (fun item => mapM (build_event item) (it_actions item))
                   items ;;
  ret (List.concat per_item).

Definition summary_of (item : Item) : EmailSummary :=
  {| su_id := em_id (it_email item);
     su_summary := it_summary item;
     su_actionItems := it_actions item;
     su_priority := "medium";
     su_sentiment := "neutral" |}.

Definition processInbox (svc : Services) (req : Request)
  : M (Handled ProcessEmailsResponse) :=
  try_catch
    (match validateProcessEmailsRequest (body req) with
     | inl details =>
         throw (AppError "Invalid request parameters" 400
                  "VALIDATION_ERROR" (Some details))
     | inr value =>
         (* const { maxResults = 5 } = value; *)
         let maxResults :=
           match v_maxResults value with Some n => n | None => 5 end in
         let userSessionJwt :=
           option_map (fun a => replace a "Bearer " "") (authorization req) in
         match first_truthy userSessionJwt with
         | None =>
             throw (mkAppError "Authorization header required"
                      401 "MISSING_TOKEN")
         | Some userSessionJwt =>
             (* Step 1: fetch emails *)
             messages <- call (GetRecentEmails maxResults)
                              (fun seen => getRecentEmails svc seen maxResults) ;;
             (* Step 2: process each email *)
             looped <- process_messages svc messages [] [] ;;
             let items := fst looped in
             let errors := snd looped in
             (* Step 3: request the delegated token *)
             delegatedToken <-
               call (RequestDelegatedToken userSessionJwt
                       "agent-b-calendar" ["calendar.write"])
                    (fun seen =>
                       requestDelegatedToken svc seen userSessionJwt
                         "agent-b-calendar" ["calendar.write"]) ;;
             match first_truthy delegatedToken with
             | None =>
                 throw (mkAppError
                          "Failed to obtain delegated token for calendar operations"
                          403 "DELEGATION_FAILED")
             | Some delegatedToken =>
                 (* Step 4: prepare the events *)
                 eventsToCreate <- build_events items ;;
                 (* Step 5: call Agent B *)
                 called <-
                   (if (0 <? List.length eventsToCreate)%nat then
                      try_catch
                        (created <-
                           call (CallAgentBCreateEvents delegatedToken
                                   eventsToCreate)
                                (fun seen =>
                                   callAgentBCreateEvents svc seen
                                     delegatedToken eventsToCreate) ;;
                         ret (created, errors))
                        (fun error =>
                           ret ([],
                                (errors ++
                                 [mkEmailError "calendar-creation"
                                    (if instanceof_Error error
                                     then message error
                                     else "Calendar creation failed")])%list))
                    else ret ([], errors)) ;;
                 let response :=
                   {| processed := List.length items;
                      summaries := map summary_of items;
                      eventsCreated := fst called;
                      errors := snd called |} in
                 send_json 200 response
             end
         end
     end)
    (fun error => ret (Next error)).

End Engine.

End AgentA.

(** ** Notions used to state the properties *)

Module Spec.
Import AgentB.

(** What the loop of [createEvents] does with one draft: the body of
    its [try] and of its [catch], with the value pushed. *)
Definition draft_outcome (svc : CalendarService) (eventData : EventData)
  : M (CalendarEvent + ItemError) :=
  try_catch
    (enhancedEvent <- enhanceEventData eventData ;;
     createdEvent <- createEvent svc enhancedEvent ;;
     ret (inl createdEvent))
    (fun eventError =>
       ret (inr (mkItemError eventData
                   (if instanceof_Error eventError then message eventError
                    else "Unknown error")))).

Definition created_of (l : list (CalendarEvent + ItemError))
  : list CalendarEvent :=
  flat_map (fun o => match o with inl c => [c] | inr _ => [] end) l.

Definition failed_of (l : list (CalendarEvent + ItemError))
  : list ItemError :=
  flat_map (fun o => match o with inl _ => [] | inr e => [e] end) l.

(** An outcome belongs to a draft: an error entry carries the draft it
    reports on. *)
Definition outcome_of (eventData : EventData)
           (o : CalendarEvent + ItemError) : Prop :=
  match o with
  | inl _ => True
  | inr e => ie_event e = eventData
  end.

(** The [errors] member of a response, as a list. *)
Definition errors_list (errors : option (list ItemError)) : list ItemError :=
  match errors with
  | Some l => l
  | None => []
  end.

(** The service runs on mock data: [!this.calendar || !this.oauth2Client]. *)
Definition mock_mode (svc : CalendarService) : Prop :=
  calendar svc = None \/ oauth2Client svc = None.

End Spec.

(** ** Sample runs *)

Module Sample.
Import AgentB.

Definition world {Call : Type} : World Call :=
  mkWorld (fun n => 1793664000000 + Z.of_nat n) 0 (fun _ => "k3x9q0a1z") 0 [].

Definition draft (t : string) : EventData :=
  mkEventData (Some t) None (Some "2026-12-01T10:00:00.000Z")
    (Some "2026-12-01T11:00:00.000Z") None None None.

Definition inserted (resource : SchemaEvent) : SchemaEvent :=
  mkSchemaEvent (Some "evt_1") (g_summary resource) (g_description resource)
    (g_location resource) (g_start resource) (g_end resource)
    (g_attendees resource) (g_reminders resource) (g_source resource)
    (Some "https://calendar.google.com/calendar/event?eid=evt_1")
    (Some "confirmed").

(** A provider that accepts the event titled "standup" and answers
    anything else with an expired grant; reads and deletions fail with
    the given error. *)
Definition client (failure : Thrown) : CalendarClient :=
  mkCalendarClient
    (fun _ resource =>
       if (or_else (g_summary resource) "" =? "standup")%string
       then Returned (inserted resource)
       else Threw (Error "Error" "invalid_grant: token expired"))
    (fun _ _ => Threw failure)
    (fun _ _ => Threw failure).

Definition configured (failure : Thrown) : CalendarService :=
  mkCalendarService (Some (client failure)) (Some tt) None.

Definition unconfigured : CalendarService :=
  mkCalendarService None None None.

(** A validator that accepts every array. *)
Definition accept (events : list EventData) : string + list EventData :=
  inr events.

Definition writer : option UserInfo :=
  Some (mkUser (Some "user_1") (Some ["calendar.write"])).

Definition reader : option UserInfo :=
  Some (mkUser (Some "user_2") (Some ["calendar.read"; "email.read"])).

Definition request (events : list EventData) (u : option UserInfo)
  : Request (list EventData) :=
  mkRequest events (Some "agent-a-email") (Some "evt_1") u.

End Sample.

(** ** Notions used to state the properties of Agent A *)

Module SpecA.
Import AgentA.

Definition is_token_request (c : Call) : bool :=
  match c with
  | RequestDelegatedToken _ _ _ => true
  | _ => false
  end.

Definition is_create_events (c : Call) : bool :=
  match c with
  | CallAgentBCreateEvents _ _ => true
  | _ => false
  end.

(** Calls of the loop over the messages: the mail provider and the
    language model, on one message. *)
Definition is_per_message (c : Call) : bool :=
  match c with
  | GetEmailContent _ | SummarizeEmail _ | ExtractActionItems _ => true
  | _ => false
  end.

Definition hour : Z := 60 * 60 * 1000.

(** Computations that call no collaborator. *)
Definition quiet {A : Type} (m : M A) : Prop :=
  forall w r w', m w = (r, w') -> calls w' = calls w.

(** [const { maxResults = 5 } = value] *)
Definition maxResults_of (v : ProcessEmailsValue) : Z :=
  match v_maxResults v with
  | Some n => n
  | None => 5
  end.

(** The number a [maxResults] property stands for, if any: itself, or
    what Joi converts the string to. *)
Definition numeric_value (number_of_string : string -> option Q)
           (v : Value) : option Q :=
  match v with
  | VNumber q => Some q
  | VString s => number_of_string s
  | _ => None
  end.

(** [v] stands for an integer between 1 and 50. *)
Definition in_range (number_of_string : string -> option Q) (v : Value)
  : Prop :=
  exists q n, numeric_value number_of_string v = Some q
              /\ (q == inject_Z n)%Q /\ 1 <= n <= 50.

End SpecA.

Module SampleA.
Import AgentA.

Definition email : EmailData :=
  mkEmailData "m1" "Quarterly review" "lead@example.com"
    "Please review the draft before the meeting." "t1" 1793660000000
    false ["INBOX"].

(** An action item without a suggested date. *)
Definition undated : ActionItem :=
  mkActionItem "m1_action_0" "Review the draft" None None "medium"
    "reminder" None.

Definition dated : ActionItem :=
  mkActionItem "m1_action_1" "Quarterly review" None
    (Some "2026-12-01T10:00:00.000Z") "high" "meeting"
    (Some ["lead@example.com"]).

(** Collaborators that answer one message with the given action items,
    and the given token. *)
Definition services (actions : list ActionItem) (token : option string)
  : Services :=
  mkServices
    (fun _ _ => Returned ["m1"])
    (fun _ _ => Returned email)
    (fun _ _ => Returned "The lead asks for a review of the draft.")
    (fun _ _ => Returned actions)
    (fun _ _ _ _ => Returned token)
    (fun _ _ _ => Returned []).

(** Joi's conversion, as far as these runs need it: no string is a
    number. *)
Definition no_conversion (s : string) : option Q := None.

Definition request (maxResults : Value) : Request :=
  mkRequest (ObjectBody maxResults []) (Some "Bearer session-jwt") None.

(** A clock that advances by one millisecond at every reading. *)
Definition world : World Call :=
  mkWorld (fun n => 1793664000000 + Z.of_nat n) 0 (fun _ => "") 0 [].

(** A clock that stands still. *)
Definition still_world : World Call :=
  mkWorld (fun _ => 1793664000000) 0 (fun _ => "") 0 [].

End SampleA.

(** ** Notions used to state further properties of Agent B *)

Module SpecB.
Import AgentB.

(** The requests handed to [calendarService.createEvent], in the order
    of a call log. *)
Definition gateway_requests (log : list Call) : list CreateEventRequest :=
  flat_map (fun c => match c with
                     | ServiceCreateEvent r => [r]
                     | _ => []
                     end) log.

(** The calls made to the provider, in the order of a call log. *)
Definition provider_calls (log : list Call) : list Call :=
  filter (fun c => match c with
                   | EventsInsert _ | EventsGet _ | EventsDelete _ => true
                   | _ => false
                   end) log.

(** A request with every property filled in: a title, a start and an
    end that are not empty, and attendees that all contain "@". *)
Definition populated (r : CreateEventRequest) : Prop :=
  truthy (title r) = true
  /\ truthy (startTime r) = true
  /\ truthy (endTime r) = true
  /\ description r <> None
  /\ location r <> None
  /\ reminders r <> None
  /\ exists l, attendees r = Some l
               /\ Forall (fun a => includes a "@" = true) l.

(** The draft a client sent, as [enhanceEventData] passes it on. *)
Definition enhanced_from (eventData : EventData) (r : CreateEventRequest)
  : Prop :=
  populated r
  /\ title r = or_else (ed_title eventData) "Untitled Event"
  /\ (forall s, first_truthy (ed_startTime eventData) = Some s -> startTime r = s)
  /\ (forall s, first_truthy (ed_endTime eventData) = Some s -> endTime r = s)
  /\ (forall l, ed_attendees eventData = Some l ->
                attendees r = Some (filter (fun a => includes a "@") l)).

(** A mock event: its id starts with "mock_" and it is confirmed. *)
Definition is_mock (ev : CalendarEvent) : Prop :=
  ev_status ev = "confirmed"
  /\ exists id, ev_id ev = Some id /\ String.prefix "mock_" id = true.


(** An error that [createEvent] recognises by its message. *)
Definition recognised (e : Thrown) : bool :=
  instanceof_Error e
  && (includes (message e) "invalid_grant"
      || includes (message e) "insufficient permissions"
      || includes (message e) "Invalid value").

End SpecB.

(** ** Further sample data for Agent B *)

Module SampleB.
Import AgentB.

Definition standup : CreateEventRequest :=
  mkCreateEventRequest "standup" (Some "") "2026-12-01T10:00:00.000Z"
    "2026-12-01T10:15:00.000Z" (Some ["lead@example.com"]) (Some "") None.

Definition retro : CreateEventRequest :=
  mkCreateEventRequest "retro" (Some "") "2026-12-02T10:00:00.000Z"
    "2026-12-02T11:00:00.000Z" (Some []) (Some "") None.

Definition stored (eventId : string) : SchemaEvent :=
  mkSchemaEvent (Some eventId) (Some "Quarterly review") None None
    (Some (mkEventDateTime (Some "2026-12-01T10:00:00.000Z") None (Some "UTC")))
    (Some (mkEventDateTime (Some "2026-12-01T11:00:00.000Z") None (Some "UTC")))
    None None None None (Some "tentative").

(** A provider whose every call throws [failure]. *)
Definition failing_client (failure : Thrown) : CalendarClient :=
  mkCalendarClient (fun _ _ => Threw failure) (fun _ _ => Threw failure)
    (fun _ _ => Threw failure).

(** A provider that stores nothing it can name: inserts come back
    without an id, reads come back empty, deletions succeed. *)
Definition blank_client : CalendarClient :=
  mkCalendarClient
    (fun _ resource => Returned resource)
    (fun _ _ => Returned None)
    (fun _ _ => Returned tt).

(** A provider that holds every event asked for. *)
Definition full_client : CalendarClient :=
  mkCalendarClient
    (fun _ resource => Returned (Sample.inserted resource))
    (fun _ eventId => Returned (Some (stored eventId)))
    (fun _ _ => Returned tt).

Definition service (client : CalendarClient) : CalendarService :=
  mkCalendarService (Some client) (Some tt) None.

(** A draft as a client may send it: no title, a blank attendee list
    with one entry that is not an address. *)
Definition bare_draft : EventData :=
  mkEventData None None None None (Some ["lead@example.com"; "nobody"])
    None None.

End SampleB.

(** ** Agent B: listing and updating events

    [mapToCalendarEvent] and [getMockEvent] of [calendarService.ts] once
    more, for any log of calls: the listing and the update have their
    own collaborators. *)

Module CalendarMapping.
Import AgentB.

Section Generic.
Context {Call : Type}.

Definition event_time (edt : option EventDateTime) : Eff Call string :=
  match match edt with Some x => first_truthy (dateTime x) | None => None end with
  | Some s => ret s
  | None =>
      match match edt with Some x => first_truthy (date x) | None => None end with
      | Some s => ret s
      | None => now_iso
      end
  end.

Definition mapToCalendarEvent (googleEvent : SchemaEvent)
  : Eff Call CalendarEvent :=
  st <- event_time (g_start googleEvent) ;;
  en <- event_time (g_end googleEvent) ;;
  ret {| ev_id := g_id googleEvent;
         ev_title := or_else (g_summary googleEvent) "Untitled Event";
         ev_description := g_description googleEvent;
         ev_startTime := st;
         ev_endTime := en;
         ev_attendees :=
           option_map
             (fun l => flat_map (fun a => match first_truthy a with
                                          | Some s => [s]
                                          | None => []
                                          end) l)
             (g_attendees googleEvent);
         ev_location := g_location googleEvent;
         ev_htmlLink := g_htmlLink googleEvent;
         ev_status := or_else (g_status googleEvent) "confirmed" |}.

Definition getMockEvent (eventId : string) : Eff Call CalendarEvent :=
  now <- Date_now ;;
  let startTime := now + 24 * 60 * 60 * 1000 in
  let endTime := startTime + 60 * 60 * 1000 in
  s <- lift (JsDate.toISOString (Some startTime)) ;;
  e <- lift (JsDate.toISOString (Some endTime)) ;;
  ret {| ev_id := Some eventId;
         ev_title := "Mock Event: " ++ eventId;
         ev_description :=
           Some "This is a mock calendar event for demonstration purposes.";
         ev_startTime := s;
         ev_endTime := e;
         ev_attendees := None;
         ev_location := None;
         ev_htmlLink :=
           Some ("https://calendar.google.com/calendar/event?eid=" ++ eventId);
         ev_status := "confirmed" |}.

End Generic.
End CalendarMapping.

Module AgentBRest.
Import AgentB.

Inductive Call : Type :=
| ServiceListUpcomingEvents (maxResults : Z) (timeMin : option string)
| ServiceUpdateEvent (eventId : string) (updateData : EventData)
| EventsList (timeMin : string) (maxResults : Z)
| EventsGet (eventId : string)
| EventsUpdate (eventId : string) (resource : SchemaEvent).

(** The provider's client, as far as listing and updating use it:
    [events.list] answers with [response.data.items], the two others
    with [response.data]. *)
Record CalendarClient : Type := mkCalendarClient {
  events_list : list Call -> string -> Z -> Outcome (option (list SchemaEvent));
  events_get : list Call -> string -> Outcome (option SchemaEvent);
  events_update :
    list Call -> string -> SchemaEvent -> Outcome (option SchemaEvent)
}.

Record CalendarService : Type := mkCalendarService {
  calendar : option CalendarClient;
  oauth2Client : option unit
}.

Definition M := Eff Call.

(** *** [calendarService.ts] *)

(** One turn of the loop of [getMockEvents], for the index [i]. *)
Definition mock_event_at (now : Z) (i : nat) : M CalendarEvent :=
  let startTime := now + (Z.of_nat i + 1) * 24 * 60 * 60 * 1000 in
  let endTime := startTime + 60 * 60 * 1000 in
  s <- lift (JsDate.toISOString (Some startTime)) ;;
  e <- lift (JsDate.toISOString (Some endTime)) ;;
  ret {| ev_id := Some ("mock_event_" ++ of_Z (Z.of_nat i + 1));
         ev_title := "Mock Event " ++ of_Z (Z.of_nat i + 1);
         ev_description :=
           Some "This is a mock calendar event for demonstration purposes.";
         ev_startTime := s;
         ev_endTime := e;
         ev_attendees := None;
         ev_location := None;
         ev_htmlLink :=
           Some ("https://calendar.google.com/calendar/event?eid=mock_event_"
                   ++ of_Z (Z.of_nat i + 1));
         ev_status := "confirmed" |}.

(** [for (let i = 0; i < Math.min(maxResults, 5); i++)]: the indices
    below the bound are [0 .. Z.to_nat (Z.min maxResults 5) - 1], none
    when the bound is not positive. *)
Definition getMockEvents (maxResults : Z) : M (list CalendarEvent) :=
  now <- Date_now ;;
  mapM (mock_event_at now) (seq 0 (Z.to_nat (Z.min maxResults 5))).

Definition listUpcomingEvents (svc : CalendarService) (maxResults : Z)
           (timeMin : option string) : M (list CalendarEvent) :=
  record (ServiceListUpcomingEvents maxResults timeMin) ;;;
  try_catch
    (match calendar svc, oauth2Client svc with
     | Some client, Some _ =>
         from <- match first_truthy timeMin with
                 | Some t => ret t
                 | None => now_iso
                 end ;;
         items <- call (EventsList from maxResults)
                       (fun seen => events_list client seen from maxResults) ;;
         let events := match items with Some l => l | None => [] end in
         mapM CalendarMapping.mapToCalendarEvent
           (filter (fun event =>
                      match first_truthy (g_id event),
                            first_truthy (g_summary event) with
                      | Some _, Some _ => true
                      | _, _ => false
                      end) events)
     | _, _ => getMockEvents maxResults
     end)
    (fun error => getMockEvents maxResults).

Definition updateMockEvent (eventId : string) (updateData : EventData)
  : M CalendarEvent :=
  baseEvent <- CalendarMapping.getMockEvent eventId ;;
  ret {| ev_id := ev_id baseEvent;
         ev_title := or_else (ed_title updateData) (ev_title baseEvent);
         ev_description :=
           match first_truthy (ed_description updateData) with
           | Some d => Some d
           | None => ev_description baseEvent
           end;
         ev_startTime := or_else (ed_startTime updateData) (ev_startTime baseEvent);
         ev_endTime := or_else (ed_endTime updateData) (ev_endTime baseEvent);
         ev_attendees :=
           match ed_attendees updateData with
           | Some l => Some l
           | None => ev_attendees baseEvent
           end;
         ev_location :=
           match first_truthy (ed_location updateData) with
           | Some l => Some l
           | None => ev_location baseEvent
           end;
         ev_htmlLink := ev_htmlLink baseEvent;
         ev_status := ev_status baseEvent |}.

(** [a ?? b] on an optional string. *)
Definition nullish (a b : option string) : option string :=
  match a with
  | Some s => Some s
  | None => b
  end.

(** The resource [updateEvent] sends to [events.update]. *)
Definition update_resource (existing : SchemaEvent) (updateData : EventData)
  : SchemaEvent :=
  {| g_id := g_id existing;
     g_summary := nullish (ed_title updateData) (g_summary existing);
     g_description := nullish (ed_description updateData) (g_description existing);
     g_location := nullish (ed_location updateData) (g_location existing);
     g_start :=
       match first_truthy (ed_startTime updateData) with
       | Some s => Some (mkEventDateTime (Some s) None (Some "UTC"))
       | None => g_start existing
       end;
     g_end :=
       match first_truthy (ed_endTime updateData) with
       | Some s => Some (mkEventDateTime (Some s) None (Some "UTC"))
       | None => g_end existing
       end;
     g_attendees :=
       match ed_attendees updateData with
       | Some l => Some (map (@Some string) l)
       | None => g_attendees existing
       end;
     g_reminders := g_reminders existing;
     g_source := g_source existing;
     g_htmlLink := g_htmlLink existing;
     g_status := g_status existing |}.

Definition updateEvent (svc : CalendarService) (eventId : string)
           (updateData : EventData) : M (option CalendarEvent) :=
  record (ServiceUpdateEvent eventId updateData) ;;;
  try_catch
    (match calendar svc, oauth2Client svc with
     | Some client, Some _ =>
         existingEvent <- call (EventsGet eventId)
                               (fun seen => events_get client seen eventId) ;;
         match existingEvent with
         | None => ret None
         | Some existing =>
             let updates := update_resource existing updateData in
             response_data <-
               call (EventsUpdate eventId updates)
                    (fun seen => events_update client seen eventId updates) ;;
             match response_data with
             | None => ret None
             | Some d =>
                 updatedEvent <- CalendarMapping.mapToCalendarEvent d ;;
                 ret (Some updatedEvent)
             end
         end
     | _, _ => event <- updateMockEvent eventId updateData ;; ret (Some event)
     end)
    (fun error =>
       if instanceof_Error error && includes (message error) "Not Found"
       then ret None
       else event <- updateMockEvent eventId updateData ;; ret (Some event)).

(** *** [calendarController.ts] *)

Inductive Data : Type :=
| DataEvents (events : list CalendarEvent) (count : nat) (maxResults : Z)
| DataEvent (event : CalendarEvent).

Record Request : Type := mkRequest {
  q_maxResults : option string;     (* [req.query.maxResults] *)
  q_timeMin : option string;        (* [req.query.timeMin] *)
  param_eventId : option string;    (* [req.params.eventId] *)
  body : EventData;                 (* [req.body], the update *)
  user : option UserInfo
}.

Section Controllers.

(** [parseInt] on a string, [None] for NaN. *)
Variable parseInt : string -> option Z.

(** [Math.min(parseInt(req.query.maxResults as string) || 10, 50)];
    [parseInt(undefined)] is NaN. *)
Definition requested_maxResults (req : Request) : Z :=
  Z.min
    (match match q_maxResults req with
           | Some s => parseInt s
           | None => None
           end with
     | Some n => if n =? 0 then 10 else n
     | None => 10
     end)
    50.

Definition listEvents (svc : CalendarService) (req : Request)
  : M (Handled Data) :=
  try_catch
    (let userInfo := user req in
     let maxResults := requested_maxResults req in
     let timeMin := q_timeMin req in
     if negb (has_scope userInfo "calendar.read") then
       throw (mkAppError
                "Insufficient permissions for calendar read operations"
                403 "INSUFFICIENT_SCOPE")
     else
       events <- listUpcomingEvents svc maxResults timeMin ;;
       send_json 200 (DataEvents events (List.length events) maxResults))
    (fun error => ret (Next error)).

End Controllers.

(** [updateEvent] of the controller. *)
Definition updateEventController (svc : CalendarService) (req : Request)
  : M (Handled Data) :=
  try_catch
    (let updateData := body req in
     let userInfo := user req in
     match first_truthy (param_eventId req) with
     | None => throw (mkAppError "Event ID is required" 400 "MISSING_EVENT_ID")
     | Some eventId =>
         if negb (has_scope userInfo "calendar.write") then
           throw (mkAppError
                    "Insufficient permissions for calendar write operations"
                    403 "INSUFFICIENT_SCOPE")
         else
           updatedEvent <- updateEvent svc eventId updateData ;;
           match updatedEvent with
           | None =>
               throw (mkAppError "Event not found or update failed"
                        404 "EVENT_UPDATE_FAILED")
           | Some ev => send_json 200 (DataEvent ev)
           end
     end)
    (fun error => ret (Next error)).

End AgentBRest.

(** ** Notions and sample data for listing and updating *)

Module SpecRest.
Import AgentB AgentBRest.

(** The service runs on mock data. *)
Definition mock_mode (svc : CalendarService) : Prop :=
  calendar svc = None \/ oauth2Client svc = None.

Definition day : Z := 24 * 60 * 60 * 1000.

(** An event a listing may show: it has an id and a title. *)
Definition listable (ev : CalendarEvent) : Prop :=
  truthy (ev_title ev) = true
  /\ exists id, ev_id ev = Some id /\ truthy id = true.

(** The [i]-th mock event of a listing made at [now]. *)
Definition mock_listed (now : Z) (i : nat) (ev : CalendarEvent) : Prop :=
  ev_id ev = Some ("mock_event_" ++ of_Z (Z.of_nat i + 1))
  /\ ev_title ev = "Mock Event " ++ of_Z (Z.of_nat i + 1)
  /\ ev_status ev = "confirmed"
  /\ ev_startTime ev = JsDate.iso (now + (Z.of_nat i + 1) * day)
  /\ ev_endTime ev = JsDate.iso (now + (Z.of_nat i + 1) * day + 60 * 60 * 1000).

(** The update without any property. *)
Definition no_change : EventData :=
  mkEventData None None None None None None None.

(** The calls made to the provider, in the order of a call log. *)
Definition provider_calls (log : list Call) : list Call :=
  filter (fun c => match c with
                   | EventsList _ _ | EventsGet _ | EventsUpdate _ _ => true
                   | _ => false
                   end) log.

End SpecRest.

Module SampleRest.
Import AgentB AgentBRest.

Definition world : World Call :=
  mkWorld (fun n => 1793664000000 + Z.of_nat n) 0 (fun _ => "") 0 [].

(** A provider that lists the events it is given, holds every event
    asked for and stores every update. *)
Definition full_client (listed : list SchemaEvent) : CalendarClient :=
  mkCalendarClient
    (fun _ _ _ => Returned (Some listed))
    (fun _ eventId => Returned (Some (SampleB.stored eventId)))
    (fun _ _ resource => Returned (Some resource)).

Definition failing_client (failure : Thrown) : CalendarClient :=
  mkCalendarClient (fun _ _ _ => Threw failure) (fun _ _ => Threw failure)
    (fun _ _ _ => Threw failure).

Definition service (client : CalendarClient) : CalendarService :=
  mkCalendarService (Some client) (Some tt).

Definition unconfigured : CalendarService := mkCalendarService None None.

Definition rename (t : string) : EventData :=
  mkEventData (Some t) None None None None None None.

Definition request (maxResults : option string) (u : option UserInfo)
  : Request :=
  mkRequest maxResults None (Some "evt_1") (rename "Retro") u.

(** [parseInt] on the strings of these runs. *)
Definition parseInt (s : string) : option Z :=
  if (s =? "3")%string then Some 3
  else if (s =? "500")%string then Some 500
  else if (s =? "0")%string then Some 0
  else None.

End SampleRest.


(** ** Notions used to state the properties of the inbox run *)

Module SpecInbox.
Import AgentA SpecA.

(** What the loop makes of one message: an item, or an error entry. *)
Definition kept (outcomes : list (Item + EmailError)) : list Item :=
  flat_map (fun o => match o with inl i => [i] | inr _ => [] end) outcomes.

Definition failed (outcomes : list (Item + EmailError)) : list EmailError :=
  flat_map (fun o => match o with inl _ => [] | inr e => [e] end) outcomes.

(** [error instanceof Error ? error.message : "Unknown error"] *)
Definition error_text (e : Thrown) : string :=
  if instanceof_Error e then message e else "Unknown error".

(** [thrown] is what one of the three collaborators threw on the
    message [m]. *)
Definition raised_for (svc : Services) (m : string) (thrown : Thrown) : Prop :=
  (exists log, getEmailContent svc log m = Threw thrown)
  \/ (exists log email, summarizeEmail svc log email = Threw thrown)
  \/ (exists log email, extractActionItems svc log email = Threw thrown).

(** An item holds what the collaborators returned for the message [m];
    an error entry holds the id of [m] and the text of what one of them
    threw. *)
Definition outcome_of (svc : Services) (m : string) (o : Item + EmailError)
  : Prop :=
  match o with
  | inl item =>
      (exists log, getEmailContent svc log m = Returned (it_email item))
      /\ (exists log,
            summarizeEmail svc log (it_email item)
            = Returned (it_summary item))
      /\ (exists log,
            extractActionItems svc log (it_email item)
            = Returned (it_actions item))
  | inr e =>
      ee_emailId e = m
      /\ exists thrown, ee_error e = error_text thrown
                        /\ raised_for svc m thrown
  end.

(** The action items of the processed emails, each with its email, in
    the order of [flatMap]. *)
Definition pairs (items : list Item) : list (Item * ActionItem) :=
  flat_map (fun item => map (pair item) (it_actions item)) items.

(** The suggested date of an action item, when it has one, is a string
    that [new Date] can read. *)
Definition datable (Date_parse : string -> JsDate.Date) (a : ActionItem)
  : bool :=
  match first_truthy (a_suggestedDate a) with
  | Some d => match Date_parse d with Some _ => true | None => false end
  | None => true
  end.

(** The draft built for an action item, on a clock [clock] read from
    the [from]-th reading on. *)
Definition draft_of (Date_parse : string -> JsDate.Date)
           (clock : nat -> Z) (from : nat)
           (ia : Item * ActionItem) (draft : CreateEventRequest) : Prop :=
  title draft = a_title (snd ia)
  /\ description draft
     = Some (it_summary (fst ia) ++ nl ++ nl ++ "Original Email: "
               ++ em_subject (it_email (fst ia)))
  /\ attendees draft
     = Some (match a_attendees (snd ia) with Some l => l | None => [] end)
  /\ location draft = None
  /\ reminders draft = None
  /\ match first_truthy (a_suggestedDate (snd ia)) with
     | Some d =>
         startTime draft = d
         /\ exists p, Date_parse d = Some p
                      /\ endTime draft = JsDate.iso (p + hour)
     | None =>
         exists n, (from <= n)%nat
                   /\ startTime draft = JsDate.iso (clock n + 24 * hour)
                   /\ endTime draft
                      = JsDate.iso (clock (S n) + 24 * hour + hour)
     end.

(** The body of the answer, from what the loop and Agent B gave. *)
Definition answer (outcomes : list (Item + EmailError))
           (created : list CalendarEvent) (post : list EmailError)
  : ProcessEmailsResponse :=
  mkProcessEmailsResponse (List.length (kept outcomes))
    (map summary_of (kept outcomes)) created
    (failed outcomes ++ post)%list.

Definition token_request (jwt : string) : Call :=
  RequestDelegatedToken jwt "agent-b-calendar" ["calendar.write"].

Definition delegation_failed : Thrown :=
  mkAppError "Failed to obtain delegated token for calendar operations"
    403 "DELEGATION_FAILED".

Definition invalid_time : Thrown := Error "RangeError" "Invalid time value".

(** [error instanceof Error ? error.message : "Calendar creation failed"] *)
Definition creation_error (e : Thrown) : EmailError :=
  mkEmailError "calendar-creation"
    (if instanceof_Error e then message e else "Calendar creation failed").

End SpecInbox.

(** ** Agent A: the language-model service

    [services/aiService.ts].  The one collaborator is the chat
    completion endpoint of the model provider. *)

Module AiService.
Import Shared.

(** What [JSON.parse] returns.  A number is given by what the service
    can see of it: whether it is zero, and how [String] shows it.  The
    properties of an object are listed with their values; the first
    entry of a name is the property. *)
#[warnings="-register-all"]
Inductive Json : Type :=
| JNull
| JBool (b : bool)
| JNumber (zero : bool) (shown : string)
| JString (s : string)
| JArray (elements : list Json)
| JObject (properties : list (string * Json)).

Fixpoint get (properties : list (string * Json)) (key : string)
  : option Json :=
  match properties with
  | [] => None
  | (k, v) :: rest => if (k =? key)%string then Some v else get rest key
  end.

(** [action.key], for the names the service reads: none of them is a
    property of an array. *)
Definition property (j : Json) (key : string) : option Json :=
  match j with
  | JObject properties => get properties key
  | _ => None
  end.

(** Truthiness of a value that may be [undefined]. *)
Definition truthy_json (o : option Json) : bool :=
  match o with
  | None | Some JNull => false
  | Some (JBool b) => b
  | Some (JNumber zero _) => negb zero
  | Some (JString s) => truthy s
  | Some (JArray _) | Some (JObject _) => true
  end.

(** [typeof j === "object"] of a truthy value *)
Definition is_object (j : Json) : bool :=
  match j with
  | JArray _ | JObject _ => true
  | _ => false
  end.

(** [String(j)]; an array is shown as its elements joined by commas,
    [null] among them as nothing. *)
Fixpoint js_String (j : Json) : string :=
  match j with
  | JNull => "null"
  | JBool true => "true"
  | JBool false => "false"
  | JNumber _ shown => shown
  | JString s => s
  | JArray elements =>
      (fix join (l : list Json) : string :=
         match l with
         | [] => ""
         | x :: rest =>
             let shown := match x with JNull => "" | _ => js_String x end in
             match rest with
             | [] => shown
             | _ :: _ => shown ++ "," ++ join rest
             end
         end) elements
  | JObject _ => "[object Object]"
  end.

(** [typeof j === "string"] *)
Definition as_string (o : option Json) : option string :=
  match o with
  | Some (JString s) => Some s
  | _ => None
  end.

Record ChatRequest : Type := mkChatRequest {
  model : string;
  system_content : string;
  user_content : string;
  max_tokens : Z;
  temperature : Q;
  presence_penalty : Q
}.

Inductive Call : Type :=
| ChatCompletionsCreate (request : ChatRequest).

(** [openai.chat.completions.create], answered by
    [response.choices[0]?.message?.content]. *)
Record OpenAI : Type := mkOpenAI {
  create : list Call -> ChatRequest -> Outcome (option string)
}.

Definition M := Eff Call.

Definition nl : string := String (ascii_of_nat 10) EmptyString.

(** The double quote. *)
Definition dq : string := String (ascii_of_nat 34) EmptyString.

(** [s.substring(0, n)] *)
Fixpoint substring0 (n : nat) (s : string) : string :=
  match n, s with
  | S n', String c rest => String c (substring0 n' rest)
  | _, _ => EmptyString
  end.

(** [array.map((x, index) => ...)] sees each element with its index. *)
Definition indexed {A : Type} (l : list A) : list (nat * A) :=
  combine (seq 0 (List.length l)) l.

Section Service.

(** Functions of the platform: what [new Date(string)] makes of a
    string, how a date is shown in a template, [trim], [toLowerCase],
    [JSON.parse], and [text.match(pattern)] for a global,
    case-insensitive pattern given by its source. *)
Variable Date_parse : string -> JsDate.Date.
Variable Date_toString : Z -> string.
Variable trim : string -> string.
Variable toLowerCase : string -> string.
Variable JSON_parse : string -> Outcome Json.
Variable match_gi : string -> string -> option (list string).
Variable openai : OpenAI.

Definition buildSummarizationPrompt (email : EmailData) : string :=
  nl ++ "Please summarize the following email in 2-3 clear, concise sentences. Focus on the main purpose and key information:" ++ nl
  ++ nl
  ++ "Subject: " ++ em_subject email ++ nl
  ++ "From: " ++ em_from email ++ nl
  ++ "Date: " ++ Date_toString (em_receivedAt email) ++ nl
  ++ nl
  ++ "Email Body:" ++ nl
  ++ substring0 2000 (em_body email) ++ " "
  ++ (if (2000 <? String.length (em_body email))%nat then "..." else "") ++ nl
  ++ nl
  ++ "Summary:".

Definition buildActionExtractionPrompt (email : EmailData) : string :=
  nl ++ "Extract actionable items from the following email that should be added to a calendar. " ++ nl
  ++ "Return ONLY a JSON array of objects with the structure: [{title, description, suggestedDate, priority, type, attendees}]" ++ nl
  ++ nl
  ++ "Guidelines:" ++ nl
  ++ "- Only include items with clear deadlines, meetings, or follow-up actions" ++ nl
  ++ "- Use ISO 8601 format for suggestedDate (e.g., " ++ dq ++ "2023-12-25T14:00:00Z" ++ dq ++ ")" ++ nl
  ++ "- Priority: " ++ dq ++ "low" ++ dq ++ ", " ++ dq ++ "medium" ++ dq ++ ", or " ++ dq ++ "high" ++ dq ++ nl
  ++ "- Type: " ++ dq ++ "meeting" ++ dq ++ ", " ++ dq ++ "deadline" ++ dq ++ ", " ++ dq ++ "followup" ++ dq ++ ", or " ++ dq ++ "reminder" ++ dq ++ nl
  ++ "- If no specific date is mentioned, omit the suggestedDate field" ++ nl
  ++ "- Extract email addresses for attendees if mentioned" ++ nl
  ++ nl
  ++ "Subject: " ++ em_subject email ++ nl
  ++ "From: " ++ em_from email ++ nl
  ++ "Date: " ++ Date_toString (em_receivedAt email) ++ nl
  ++ nl
  ++ "Email Body:" ++ nl
  ++ substring0 1500 (em_body email) ++ " "
  ++ (if (1500 <? String.length (em_body email))%nat then "..." else "") ++ nl
  ++ nl
  ++ "JSON Array:".

Definition summarizeEmail (email : EmailData) : M string :=
  try_catch
    (let prompt := buildSummarizationPrompt email in
     let request :=
       mkChatRequest "gpt-3.5-turbo"
         "You are a helpful assistant that summarizes emails concisely and professionally."
         prompt 200 (3 # 10) (1 # 10) in
     content <- call (ChatCompletionsCreate request)
                     (fun seen => create openai seen request) ;;
     let summary := or_else (option_map trim content) "" in
     if negb (truthy summary)
     then ret "Unable to generate summary for this email."
     else ret summary)
    (fun error =>
       if instanceof_Error error && includes (message error) "rate_limit"
       then throw (mkAppError "OpenAI rate limit exceeded" 429
                     "RATE_LIMIT_EXCEEDED")
       else if instanceof_Error error
               && includes (message error) "insufficient_quota"
       then throw (mkAppError "OpenAI quota exceeded" 429 "QUOTA_EXCEEDED")
       else throw (mkAppError "Failed to generate email summary" 500
                     "AI_SUMMARIZATION_FAILED")).

(** [validateDate], as in the inbox controller's module, on this
    service's own log. *)
Definition validateDate (date : option string) : M (option string) :=
  match Js.first_truthy date with
  | None => ret None
  | Some d =>
      try_catch
        (let parsed := Date_parse d in
         match parsed with
         | None => ret None
         | Some p =>
             now <- Date_now ;;
             if p <? now then ret None
             else s <- lift (JsDate.toISOString parsed) ;; ret (Some s)
         end)
        (fun _ => ret None)
  end.

Definition validatePriority (priority : option Json) : string :=
  match priority with
  | Some (JString s) =>
      if array_includes ["low"; "medium"; "high"] s then s else "medium"
  | _ => "medium"
  end.

Definition validateType (type : option Json) : string :=
  match type with
  | Some (JString s) =>
      if array_includes ["meeting"; "deadline"; "followup"; "reminder"] s
      then s else "reminder"
  | _ => "reminder"
  end.

(** The callback of [map]: the properties are evaluated in the order
    they are written. *)
Definition enhance (email : EmailData) (ia : nat * Json) : M ActionItem :=
  let index := fst ia in
  let action := snd ia in
  let id := em_id email ++ "_action_" ++ of_Z (Z.of_nat index) in
  let title :=
    trim (match property action "title" with
          | Some t => js_String t
          | None => "undefined"
          end) in
  let description :=
    if truthy_json (property action "description")
    then option_map (fun d => trim (js_String d))
           (property action "description")
    else None in
  suggestedDate <-
    validateDate (as_string (property action "suggestedDate")) ;;
  ret {| a_id := id;
         a_title := title;
         a_description := description;
         a_suggestedDate := suggestedDate;
         a_priority := validatePriority (property action "priority");
         a_type := validateType (property action "type");
         a_attendees :=
           match property action "attendees" with
           | Some (JArray l) =>
               Some (flat_map
                       (fun e =>
                          match e with
                          | JString s => if includes s "@" then [s] else []
                          | _ => []
                          end) l)
           | _ => None
           end |}.

Definition validateAndEnhanceActions (actions : Json) (email : EmailData)
  : M (list ActionItem) :=
  match actions with
  | JArray l =>
      let candidates :=
        filter (fun action =>
                  truthy_json (Some action) && is_object action
                  && truthy_json (property action "title")) l in
      mapped <- mapM (enhance email) (indexed candidates) ;;
      ret (filter (fun action => (0 <? String.length (a_title action))%nat)
                  mapped)
  | _ => ret []
  end.

Definition patterns : list string :=
  ["meeting.*?(?:tomorrow|next week|monday|tuesday|wednesday|thursday|friday)";
   "deadline.*?(?:today|tomorrow|next week|monday|tuesday|wednesday|thursday|friday)";
   "follow.?up.*?(?:next week|monday|tuesday|wednesday|thursday|friday)";
   "call.*?(?:today|tomorrow|next week)";
   "review.*?(?:by|before|deadline)"].

Definition extractActionsWithRegex (email : EmailData) : list ActionItem :=
  let text := toLowerCase (em_subject email ++ " " ++ em_body email) in
  let actions :=
    flat_map
      (fun ip =>
         match match_gi (snd ip) text with
         | Some matches =>
             map (fun im =>
                    mkActionItem
                      (em_id email ++ "_regex_" ++ of_Z (Z.of_nat (fst ip))
                         ++ "_" ++ of_Z (Z.of_nat (fst im)))
                      (trim (snd im)) None None "medium" "reminder" None)
                 (indexed matches)
         | None => []
         end)
      (indexed patterns) in
  firstn 3 actions.

Definition extractActionItems (email : EmailData) : M (list ActionItem) :=
  try_catch
    (let prompt := buildActionExtractionPrompt email in
     let request :=
       mkChatRequest "gpt-3.5-turbo"
         "You are a helpful assistant that extracts actionable items from emails. Return valid JSON only."
         prompt 400 (1 # 10) (1 # 10) in
     content <- call (ChatCompletionsCreate request)
                     (fun seen => create openai seen request) ;;
     match first_truthy (option_map trim content) with
     | None => ret []
     | Some content =>
         try_catch
           (actions <- lift (JSON_parse content) ;;
            validateAndEnhanceActions actions email)
           (fun _ => ret (extractActionsWithRegex email))
     end)
    (fun error =>
       if instanceof_Error error && includes (message error) "rate_limit"
       then throw (mkAppError "OpenAI rate limit exceeded" 429
                     "RATE_LIMIT_EXCEEDED")
       else throw (mkAppError "Failed to extract action items" 500
                     "AI_EXTRACTION_FAILED")).

End Service.

End AiService.

Module SpecAi.
Import Shared AiService.





Definition summary_error (e : Thrown) : Prop :=
  e = mkAppError "OpenAI rate limit exceeded" 429 "RATE_LIMIT_EXCEEDED"
  \/ e = mkAppError "OpenAI quota exceeded" 429 "QUOTA_EXCEEDED"
  \/ e = mkAppError "Failed to generate email summary" 500
           "AI_SUMMARIZATION_FAILED".

Definition extraction_error (e : Thrown) : Prop :=
  e = mkAppError "OpenAI rate limit exceeded" 429 "RATE_LIMIT_EXCEEDED"
  \/ e = mkAppError "Failed to extract action items" 500
           "AI_EXTRACTION_FAILED".


End SpecAi.

(** ** Agent A: the mail service

    [services/gmailService.ts].  The collaborator is the Gmail client;
    without credentials the service answers from its mock data. *)

Module GmailService.

Record Header : Type := mkHeader {
  h_name : option string;
  h_value : option string
}.

(** A part of a message: its MIME type, [body?.data], its parts and
    its headers. *)
#[warnings="-register-all"]
Inductive MessagePart : Type :=
| mkPart (mimeType : option string) (data : option string)
         (parts : option (list MessagePart)) (headers : option (list Header)).

Definition part_mimeType (p : MessagePart) : option string :=
  match p with mkPart m _ _ _ => m end.

Definition part_data (p : MessagePart) : option string :=
  match p with mkPart _ d _ _ => d end.

Definition part_parts (p : MessagePart) : option (list MessagePart) :=
  match p with mkPart _ _ ps _ => ps end.

Definition part_headers (p : MessagePart) : option (list Header) :=
  match p with mkPart _ _ _ hs => hs end.

(** [gmail_v1.Schema$Message] *)
Record Message : Type := mkMessage {
  m_id : option string;
  m_threadId : option string;
  m_labelIds : option (list string);
  m_payload : option MessagePart
}.

(** The email the service returns.  [message.id!] and
    [message.threadId!] are unchecked at run time, and [new Date(date)]
    may be an invalid date. *)
Record Email : Type := mkEmail {
  e_id : option string;
  e_subject : string;
  e_from : string;
  e_body : string;
  e_threadId : option string;
  e_receivedAt : JsDate.Date;
  e_isRead : bool;
  e_labels : list string
}.

(** What [getEmailContent] returns: an email, or, from the lookup in
    the mock table, a property that every object inherits. *)
Inductive Content : Type :=
| Parsed (email : Email)
| Inherited (name : string).

Inductive Call : Type :=
| MessagesList (maxResults : Z)
| MessagesGet (messageId : string).

(** [gmail.users.messages]: [list] is answered by
    [response.data.messages], each message by its [id]; [get] by
    [response.data]. *)
Record GmailClient : Type := mkGmailClient {
  messages_list : list Call -> Z -> Outcome (option (list (option string)));
  messages_get : list Call -> string -> Outcome Message
}.

Record GmailService : Type := mkGmailService {
  gmail : option GmailClient;
  oauth2Client : option unit
}.

Definition M := Eff Call.

Definition nl : string := String (ascii_of_nat 10) EmptyString.

(** [array.slice(0, end)] for an integral [end]. *)
Definition slice0 {A : Type} (l : list A) (end_ : Z) : list A :=
  if end_ <? 0
  then firstn (Z.to_nat (Z.max (Z.of_nat (List.length l) + end_) 0)) l
  else firstn (Z.to_nat end_) l.

Definition getMockEmailList (maxResults : Z) : list (option string) :=
  let mockEmails :=
    [Some "mock_email_1"; Some "mock_email_2"; Some "mock_email_3";
     Some "mock_email_4"; Some "mock_email_5"] in
  slice0 mockEmails maxResults.

(** The names every object inherits from [Object.prototype]; each is
    truthy. *)
Definition inherited : list string :=
  ["constructor"; "__defineGetter__"; "__defineSetter__"; "hasOwnProperty";
   "__lookupGetter__"; "__lookupSetter__"; "isPrototypeOf";
   "propertyIsEnumerable"; "toString"; "valueOf"; "__proto__";
   "toLocaleString"].

Fixpoint own {A : Type} (table : list (string * A)) (key : string)
  : option A :=
  match table with
  | [] => None
  | (k, v) :: rest => if (k =? key)%string then Some v else own rest key
  end.

(** The table is built, with one reading of the clock per entry,
    before the lookup. *)
Definition getMockEmailContent (messageId : string) : M Content :=
  t1 <- Date_now ;;
  t2 <- Date_now ;;
  t3 <- Date_now ;;
  t4 <- Date_now ;;
  t5 <- Date_now ;;
  let mockEmails :=
    [
     ("mock_email_1",
      mkEmail (Some "mock_email_1") "Project Review Meeting - Tomorrow 2PM"
        "alice@company.com (Alice Johnson)"
        ("Hi Team," ++ nl ++ nl ++ "Can we schedule a project review meeting for tomorrow at 2 PM? We need to go over the Q4 deliverables and discuss next steps." ++ nl ++ nl
         ++ "Please confirm your attendance." ++ nl ++ nl ++ "Best," ++ nl ++ "Alice")
        (Some "thread_1") (Some (t1 - 2 * 60 * 60 * 1000)) false
        ["INBOX"; "UNREAD"; "CATEGORY_PRIMARY"]);
     ("mock_email_2",
      mkEmail (Some "mock_email_2") "Deadline Reminder: Budget Report Due Friday"
        "finance@company.com (Finance Team)"
        ("This is a reminder that the Q4 budget report is due this Friday, December 15th, by 5 PM." ++ nl ++ nl ++ "Please submit your reports to the finance portal before the deadline." ++ nl ++ nl
         ++ "If you have any questions, contact the finance team." ++ nl ++ nl ++ "Thank you," ++ nl ++ "Finance Team")
        (Some "thread_2") (Some (t2 - 4 * 60 * 60 * 1000)) false
        ["INBOX"; "UNREAD"; "CATEGORY_PRIMARY"]);
     ("mock_email_3",
      mkEmail (Some "mock_email_3") "Follow-up: Client Presentation Feedback"
        "bob@company.com (Bob Wilson)"
        ("Hi," ++ nl ++ nl ++ "I wanted to follow up on the client presentation from last week. The client had some feedback that we should address:" ++ nl ++ nl ++ "1. Update the pricing model" ++ nl
         ++ "2. Include more case studies" ++ nl ++ "3. Schedule a follow-up call next week" ++ nl ++ nl ++ "Let's discuss this in our next team meeting." ++ nl ++ nl ++ "Thanks," ++ nl ++ "Bob")
        (Some "thread_3") (Some (t3 - 6 * 60 * 60 * 1000)) false
        ["INBOX"; "UNREAD"; "CATEGORY_PRIMARY"]);
     ("mock_email_4",
      mkEmail (Some "mock_email_4") "Welcome to the team!"
        "hr@company.com (HR Department)"
        ("Welcome to the team! We're excited to have you on board." ++ nl ++ nl ++ "Your first day orientation is scheduled for Monday, December 18th at 9 AM in Conference Room A." ++ nl ++ nl
         ++ "Please bring your ID and any required documents." ++ nl ++ nl ++ "Looking forward to working with you!" ++ nl ++ nl ++ "Best regards," ++ nl ++ "HR Team")
        (Some "thread_4") (Some (t4 - 8 * 60 * 60 * 1000)) false
        ["INBOX"; "UNREAD"; "CATEGORY_PRIMARY"]);
     ("mock_email_5",
      mkEmail (Some "mock_email_5") "Monthly Team Standup - Schedule Change"
        "sarah@company.com (Sarah Davis)"
        ("Hi everyone," ++ nl ++ nl ++ "Just a quick update that our monthly team standup has been moved from Wednesday to Thursday at 10 AM due to the holiday schedule." ++ nl ++ nl
         ++ "The meeting will still be in the main conference room. Please update your calendars accordingly." ++ nl ++ nl ++ "See you all there!" ++ nl ++ nl ++ "Sarah")
        (Some "thread_5") (Some (t5 - 10 * 60 * 60 * 1000)) false
        ["INBOX"; "UNREAD"; "CATEGORY_PRIMARY"])
    ] in
  match own mockEmails messageId with
  | Some email => ret (Parsed email)
  | None =>
      if array_includes inherited messageId then ret (Inherited messageId)
      else
        now <- Date_now ;;
        ret (Parsed
               (mkEmail (Some messageId) "Mock Email Subject"
                  "mock@example.com"
                  "This is a mock email body for demonstration purposes."
                  (Some "mock_thread") (Some now) false ["INBOX"; "UNREAD"]))
  end.

Section Service.

(** Functions of the platform: what [new Date(string)] makes of a
    string, [toLowerCase], the decoding of a base64 buffer as UTF-8, and
    [stripHtmlTags], a chain of replacements by regular expressions. *)
Variable Date_parse : string -> JsDate.Date.
Variable toLowerCase : string -> string.
Variable Buffer_base64_utf8 : string -> Outcome string.
Variable stripHtmlTags : string -> string.

Fixpoint map_chars (f : ascii -> ascii) (s : string) : string :=
  match s with
  | EmptyString => EmptyString
  | String c rest => String (f c) (map_chars f rest)
  end.

(** [data.replace(/-/g, "+").replace(/_/g, "/")], then the decoding;
    whatever it throws gives the empty string. *)
Definition decodeBase64 (data : string) : string :=
  let normalized :=
    map_chars (fun c => if (c =? "_")%char then "/"%char else c)
      (map_chars (fun c => if (c =? "-")%char then "+"%char else c) data) in
  match Buffer_base64_utf8 normalized with
  | Returned s => s
  | Threw _ => ""
  end.

(** [part.mimeType === type && part.body?.data] *)
Definition carries (type : string) (part : MessagePart) : bool :=
  match part_mimeType part with
  | Some m => (m =? type)%string
  | None => false
  end
  && match first_truthy (part_data part) with
     | Some _ => true
     | None => false
     end.

Definition data_of (part : MessagePart) : string :=
  match part_data part with
  | Some d => d
  | None => ""
  end.

Fixpoint extractEmailBody (payload : MessagePart) : string :=
  match payload with
  | mkPart mimeType data parts _ =>
      (* Handle single part messages *)
      let single :=
        match first_truthy data with
        | Some d =>
            let decoded := decodeBase64 d in
            match mimeType with
            | Some m =>
                if (m =? "text/html")%string then stripHtmlTags decoded
                else decoded
            | None => decoded
            end
        | None => ""
        end in
      match parts with
      | Some (p :: ps) =>
          match find (carries "text/plain") (p :: ps) with
          | Some part => decodeBase64 (data_of part)
          | None =>
              match find (carries "text/html") (p :: ps) with
              | Some part => stripHtmlTags (decodeBase64 (data_of part))
              | None =>
                  (fix nested (l : list MessagePart) : string :=
                     match l with
                     | [] => single
                     | part :: rest =>
                         let nestedBody := extractEmailBody part in
                         if truthy nestedBody then nestedBody
                         else nested rest
                     end) (p :: ps)
              end
          end
      | _ => single
      end
  end.

(** [getHeader(name)] *)
Definition getHeader (headers : list Header) (name : string) : string :=
  let header :=
    find (fun h =>
            match h_name h with
            | Some n => (toLowerCase n =? toLowerCase name)%string
            | None => false
            end) headers in
  match header with
  | Some h => or_else (h_value h) ""
  | None => ""
  end.

Definition parseGmailMessage (message : Message) : M Email :=
  let headers :=
    match m_payload message with
    | Some payload =>
        match part_headers payload with Some hs => hs | None => [] end
    | None => []
    end in
  let subject := getHeader headers "Subject" in
  let from := getHeader headers "From" in
  let date := getHeader headers "Date" in
  let body :=
    match m_payload message with
    | Some payload => extractEmailBody payload
    | None => ""
    end in
  let labels :=
    match m_labelIds message with Some l => l | None => [] end in
  receivedAt <- (if truthy date then ret (Date_parse date)
                 else now <- Date_now ;; ret (Some now)) ;;
  ret {| e_id := m_id message;
         e_subject := subject;
         e_from := from;
         e_body := body;
         e_threadId := m_threadId message;
         e_receivedAt := receivedAt;
         e_isRead := negb (array_includes labels "UNREAD");
         e_labels := labels |}.

Variable svc : GmailService.

(** [maxResults: number = 10] *)
Definition getRecentEmails (maxResults : option Z)
  : M (list (option string)) :=
  let maxResults := match maxResults with Some n => n | None => 10 end in
  try_catch
    (match gmail svc, oauth2Client svc with
     | Some client, Some _ =>
         messages <- call (MessagesList maxResults)
                          (fun seen => messages_list client seen maxResults) ;;
         ret (match messages with Some l => l | None => [] end)
     | _, _ => ret (getMockEmailList maxResults)
     end)
    (fun error =>
       if instanceof_Error error && includes (message error) "invalid_grant"
       then throw (mkAppError
                     "Gmail authentication expired, please re-authenticate"
                     401 "GMAIL_AUTH_EXPIRED")
       else if instanceof_Error error
               && includes (message error) "insufficient permissions"
       then throw (mkAppError "Insufficient permissions to access Gmail"
                     403 "GMAIL_PERMISSIONS_ERROR")
       else ret (getMockEmailList maxResults)).

Definition getEmailContent (messageId : string) : M Content :=
  try_catch
    (match gmail svc, oauth2Client svc with
     | Some client, Some _ =>
         message <- call (MessagesGet messageId)
                         (fun seen => messages_get client seen messageId) ;;
         emailData <- parseGmailMessage message ;;
         ret (Parsed emailData)
     | _, _ => getMockEmailContent messageId
     end)
    (fun error =>
       if instanceof_Error error && includes (message error) "Not Found"
       then throw (mkAppError "Email not found" 404 "EMAIL_NOT_FOUND")
       else getMockEmailContent messageId).

End Service.

End GmailService.

Module SpecGmail.
Import GmailService.

Definition mock_mode (svc : GmailService) : Prop :=
  gmail svc = None \/ oauth2Client svc = None.




Definition email_not_found : Thrown :=
  mkAppError "Email not found" 404 "EMAIL_NOT_FOUND".

(** A mock email for [messageId]: unread, in the inbox, received at or
    before a reading of the clock taken from the [from]-th on. *)
Definition mock_for (clock : nat -> Z) (from : nat) (messageId : string)
           (c : Content) : Prop :=
  exists e, c = Parsed e
            /\ e_id e = Some messageId
            /\ e_isRead e = false
            /\ In "INBOX"%string (e_labels e)
            /\ In "UNREAD"%string (e_labels e)
            /\ exists n t, (from <= n)%nat
                           /\ e_receivedAt e = Some t /\ t <= clock n.

(** Some part of the tree, the payload itself included, has data. *)
Fixpoint has_data (p : MessagePart) : bool :=
  match p with
  | mkPart _ data parts _ =>
      match first_truthy data with Some _ => true | None => false end
      || match parts with
         | Some l => existsb has_data l
         | None => false
         end
  end.

End SpecGmail.

Module SampleGmail.
Import GmailService.

Definition world : World Call :=
  mkWorld (fun n => 1793664000000 + Z.of_nat n) 0 (fun _ => "") 0 [].

Definition failing_client (failure : Thrown) : GmailClient :=
  mkGmailClient (fun _ _ => Threw failure) (fun _ _ => Threw failure).

Definition service (client : GmailClient) : GmailService :=
  mkGmailService (Some client) (Some tt).

Definition unconfigured : GmailService := mkGmailService None None.

(** Platform functions for the runs evaluated here: strings are
    already in lower case, and nothing is decoded. *)
Definition toLowerCase (s : string) : string := s.

Definition Buffer_base64_utf8 (s : string) : Outcome string := Returned s.

Definition stripHtmlTags (s : string) : string := s.

End SampleGmail.

(** ** Agent A: the endpoints for one email

    [emailController.ts]: [extractTasks] and [getEmailSummary], on the
    collaborators of [processInbox]. *)

Module EmailEndpoints.
Import Shared AgentA.

(** [req.body.email], as the guard sees it: falsy, truthy but not an
    object, or an object, which is then taken for an email as it is. *)
Inductive EmailField : Type :=
| Missing
| NotAnObject
| EmailObject (email : EmailData).

Record TasksRequest : Type := mkTasksRequest {
  body_email : EmailField
}.

Record Metadata : Type := mkMetadata {
  md_emailId : string;
  md_processed : bool;
  md_actionCount : nat
}.

Record TasksResponse : Type := mkTasksResponse {
  tr_summary : string;
  tr_actions : list ActionItem;
  tr_metadata : Metadata
}.

Definition extractTasks (svc : Services) (req : TasksRequest)
  : M (Handled TasksResponse) :=
  try_catch
    (match body_email req with
     | EmailObject email =>
         summary <- call (SummarizeEmail email)
                         (fun seen => summarizeEmail svc seen email) ;;
         actions <- call (ExtractActionItems email)
                         (fun seen => extractActionItems svc seen email) ;;
         let response :=
           {| tr_summary := summary;
              tr_actions := actions;
              tr_metadata :=
                {| md_emailId := em_id email;
                   md_processed := true;
                   md_actionCount := List.length actions |} |} in
         send_json 200 response
     | Missing | NotAnObject =>
         throw (mkAppError "Email object is required in request body"
                  400 "MISSING_EMAIL")
     end)
    (fun error => ret (Next error)).

Record SummaryRequest : Type := mkSummaryRequest {
  param_emailId : option string   (* [req.params.emailId] *)
}.

Record SummaryResponse : Type := mkSummaryResponse {
  sr_email : EmailData;
  sr_summary : string;
  sr_actions : list ActionItem
}.

Definition getEmailSummary (svc : Services) (req : SummaryRequest)
  : M (Handled SummaryResponse) :=
  try_catch
    (match first_truthy (param_emailId req) with
     | None =>
         throw (mkAppError "Email ID is required" 400 "MISSING_EMAIL_ID")
     | Some emailId =>
         email <- call (GetEmailContent emailId)
                       (fun seen => getEmailContent svc seen emailId) ;;
         summary <- call (SummarizeEmail email)
                         (fun seen => summarizeEmail svc seen email) ;;
         actions <- call (ExtractActionItems email)
                         (fun seen => extractActionItems svc seen email) ;;
         send_json 200 (mkSummaryResponse email summary actions)
     end)
    (fun error => ret (Next error)).

End EmailEndpoints.

Module SpecEndpoints.
Import Shared AgentA EmailEndpoints.

(** Collaborators that throw what the services of this repository
    throw: the mail service 404 EMAIL_NOT_FOUND, the language-model
    service its 429 and 500 errors. *)
Definition typed_failures (svc : Services) : Prop :=
  (forall log id e,
     getEmailContent svc log id = Threw e -> e = SpecGmail.email_not_found)
  /\ (forall log email e,
        summarizeEmail svc log email = Threw e -> SpecAi.summary_error e)
  /\ (forall log email e,
        extractActionItems svc log email = Threw e ->
        SpecAi.extraction_error e).

(** The error body sent for an [AppError]. *)
Definition error_body (e : Thrown) : option ErrorBody :=
  match e with
  | AppError m _ code details => Some (mkErrorBody m code details)
  | _ => None
  end.

(** The answer of the error handler to [e]. *)
Definition answers_error {Data : Type} (e : Thrown) (r : Response Data)
  : Prop :=
  success r = false
  /\ data r = None
  /\ match e with
     | AppError m st code details =>
         status r = st /\ error r = Some (mkErrorBody m code details)
     | _ => status r = 400 \/ status r = 500
     end.

End SpecEndpoints.

Module SampleEndpoints.
Import Shared AgentA EmailEndpoints.

(** A mail service that does not find the message. *)
Definition lost : Services :=
  mkServices
    (fun _ _ => Returned ["m1"])
    (fun _ _ => Threw SpecGmail.email_not_found)
    (fun _ _ => Returned "The lead asks for a review of the draft.")
    (fun _ _ => Returned [])
    (fun _ _ _ _ => Returned None)
    (fun _ _ _ => Returned []).

End SampleEndpoints.

(** ** The frontend: who may see a protected page

    [contexts/AuthContext.tsx] and [routes/ProtectedRoute.tsx].  The
    provider holds three cells of state; what it writes to
    [localStorage] is read nowhere in these files and is left out. *)

Module Frontend.

Record User : Type := mkUser {
  id : string;
  email : string;
  name : string;
  picture : option string
}.

(** The cells [user], [sessionToken] and [isLoading]. *)
Record AuthState : Type := mkAuthState {
  user : option User;
  sessionToken : option string;
  isLoading : bool
}.

(** What [useDescope()] gives the provider. *)
Record DescopeUser : Type := mkDescopeUser {
  d_userId : string;
  d_email : option string;
  d_name : option string;
  d_picture : option string
}.

Record Descope : Type := mkDescope {
  d_isAuthenticated : bool;
  d_sessionToken : option string;
  d_user : option DescopeUser
}.

(** The effect that follows the Descope session. *)
Definition sync (descope : Descope) (s : AuthState) : AuthState :=
  match d_isAuthenticated descope, first_truthy (d_sessionToken descope),
        d_user descope with
  | true, Some descopeToken, Some descopeUser =>
      let userData :=
        {| id := d_userId descopeUser;
           email := or_else (d_email descopeUser) "";
           name := match first_truthy (d_name descopeUser) with
                   | Some n => n
                   | None => or_else (d_email descopeUser) "User"
                   end;
           picture := d_picture descopeUser |} in
      mkAuthState (Some userData) (Some descopeToken) false
  | _, _, _ => mkAuthState None None false
  end.

Definition login (userData : User) (token : string) (s : AuthState)
  : AuthState :=
  mkAuthState (Some userData) (Some token) (isLoading s).

Definition logout (s : AuthState) : AuthState :=
  mkAuthState None None (isLoading s).

(** The value of the context. *)
Record AuthContextType : Type := mkAuthContext {
  c_user : option User;
  c_sessionToken : option string;
  c_isLoading : bool;
  c_isAuthenticated : bool;
  hasPermission : string -> bool
}.

Definition AuthProvider (s : AuthState) : AuthContextType :=
  {| c_user := user s;
     c_sessionToken := sessionToken s;
     c_isLoading := isLoading s;
     c_isAuthenticated :=
       match user s with Some _ => true | None => false end
       && match first_truthy (sessionToken s) with
          | Some _ => true
          | None => false
          end;
     hasPermission :=
       fun scope =>
         match sessionToken s with Some _ => true | None => false end |}.

(** What a protected route renders. *)
Inductive Rendered : Type :=
| CheckingAuthentication
| NavigateToLogin
| AccessDenied
| Children.

Definition ProtectedRoute (context : AuthContextType)
           (requiredPermission : option string) : Rendered :=
  if c_isLoading context then CheckingAuthentication
  else if negb (c_isAuthenticated context) then NavigateToLogin
  else
    match first_truthy requiredPermission with
    | Some permission =>
        if negb (hasPermission context permission) then AccessDenied
        else Children
    | None => Children
    end.

End Frontend.
(** * Properties *)

Local Open Scope list_scope.
Unset Implicit Arguments.

(** ** The date format *)

Example iso_epoch : JsDate.iso 0 = "1970-01-01T00:00:00.000Z".
Proof. reflexivity. Qed.

Example iso_2026 : JsDate.iso 1793664000123 = "2026-11-03T00:00:00.123Z".
Proof. vm_compute. reflexivity. Qed.

Example parse_iso_2026 :
  JsDate.parse_iso "2026-11-03T00:00:00.123Z" = Some 1793664000123.
Proof. vm_compute. reflexivity. Qed.

(** ** Strings *)

Example includes_inside :
  includes "Error 404: Not Found (event)" "Not Found" = true.
Proof. reflexivity. Qed.

Example includes_is_case_sensitive : includes "not found" "Not Found" = false.
Proof. reflexivity. Qed.

Example replace_bearer : replace "Bearer abc.def" "Bearer " "" = "abc.def"%string.
Proof. reflexivity. Qed.

Example replace_first_only :
  replace "Bearer Bearer x" "Bearer " "" = "Bearer x"%string.
Proof. reflexivity. Qed.

Example of_Z_clock : of_Z 1793664000000 = "1793664000000"%string.
Proof. vm_compute. reflexivity. Qed.

(** ** Scope sets *)

Lemma array_includes_In (l : list string) (x : string) :
  array_includes l x = true <-> In x l.
Proof.
  unfold array_includes. rewrite existsb_exists. split.
  - intros (y & Hy & E). apply String.eqb_eq in E. now subst.
  - intros H. exists x. split; [assumption | apply String.eqb_refl].
Qed.

Lemma has_scope_granted (u : option UserInfo) (scope : string) :
  has_scope u scope = true <-> In scope (granted_scopes u).
Proof.
  unfold has_scope, granted_scopes.
  destruct u as [[uid [granted|]]|]; simpl.
  - apply array_includes_In.
  - split; [discriminate | contradiction].
  - split; [discriminate | contradiction].
Qed.

Lemma has_scope_missing (u : option UserInfo) (scope : string) :
  ~ In scope (granted_scopes u) -> has_scope u scope = false.
Proof.
  intros H. destruct (has_scope u scope) eqn:E; [|reflexivity].
  apply has_scope_granted in E. contradiction.
Qed.

(** ** Agent B: the batch loop *)

Module BatchLoop.
Import AgentB Spec.

Section Loop.
Variable svc : CalendarService.

(** One draft never escapes the loop body: it is created, or it is
    reported. *)
Lemma draft_outcome_returns (eventData : EventData) (w : World Call) :
  exists o w',
    draft_outcome svc eventData w = (Returned o, w')
    /\ outcome_of eventData o.
Proof.
  unfold draft_outcome, try_catch, bind.
  destruct (enhanceEventData eventData w) as [[enhanced|e] w1].
  - destruct (createEvent svc enhanced w1) as [[c|e] w2].
    + exists (inl c), w2. simpl. split; [reflexivity | exact I].
    + eexists (inr _), w2. simpl. split; reflexivity.
  - eexists (inr _), w1. simpl. split; reflexivity.
Qed.

Lemma process_events_step (eventData : EventData) (rest : list EventData)
      (cr : list CalendarEvent) (er : list ItemError) (w : World Call) :
  process_events svc (eventData :: rest) cr er w
  = match draft_outcome svc eventData w with
    | (Returned (inl c), w') => process_events svc rest (cr ++ [c]) er w'
    | (Returned (inr e), w') => process_events svc rest cr (er ++ [e]) w'
    | (Threw x, w') => (Threw x, w')
    end.
Proof.
  simpl. unfold draft_outcome, try_catch, bind.
  destruct (enhanceEventData eventData w) as [[enhanced|e] w1].
  - destruct (createEvent svc enhanced w1) as [[c|e] w2]; reflexivity.
  - reflexivity.
Qed.

(** The loop visits every draft, in order, and each one adds exactly
    one entry to exactly one of the two arrays. *)
Lemma process_events_outcomes (events : list EventData) :
  forall (cr : list CalendarEvent) (er : list ItemError) (w : World Call),
  exists outcomes w',
    process_events svc events cr er w
    = (Returned (cr ++ created_of outcomes, er ++ failed_of outcomes), w')
    /\ Forall2 outcome_of events outcomes.
Proof.
  induction events as [|eventData rest IH]; intros cr er w.
  - exists [], w. simpl. rewrite !app_nil_r. split; [reflexivity | constructor].
  - rewrite process_events_step.
    destruct (draft_outcome_returns eventData w) as (o & w1 & Ho & Hof).
    rewrite Ho. destruct o as [c|e].
    + destruct (IH (cr ++ [c]) er w1) as (os & w2 & Hrun & Hall).
      exists (inl c :: os), w2. split.
      * rewrite Hrun. simpl. now rewrite <- app_assoc.
      * constructor; assumption.
    + destruct (IH cr (er ++ [e]) w1) as (os & w2 & Hrun & Hall).
      exists (inr e :: os), w2. split.
      * rewrite Hrun. simpl. now rewrite <- app_assoc.
      * constructor; assumption.
Qed.

Lemma outcomes_count (outcomes : list (CalendarEvent + ItemError)) :
  (List.length (created_of outcomes) + List.length (failed_of outcomes)
   = List.length outcomes)%nat.
Proof.
  induction outcomes as [|[c|e] os IH]; simpl; lia.
Qed.

End Loop.
End BatchLoop.

(** ** Agent B: [createEvents] *)

Module CreateEventsProps.
Import AgentB Spec BatchLoop.

(** The world after one reading of the clock. *)
Lemma now_iso_run (Call : Type) (w : World Call) :
  now_iso w
  = (Returned (JsDate.iso (clock w (readings w))),
     mkWorld (clock w) (S (readings w)) (random w) (draws w) (calls w)).
Proof. reflexivity. Qed.

Section Handler.
Variable Body : Type.
Variable validate : Body -> string + list EventData.
Variable svc : CalendarService.

Lemma createEvents_empty_run (req : Request Body) (w : World Call) :
  validate (body req) = inr [] ->
  createEvents validate svc req w
  = (Returned (Sent (mkResponse 200 true (Some (DataCreated [])) None
                       (JsDate.iso (clock w (readings w))))),
     mkWorld (clock w) (S (readings w)) (random w) (draws w) (calls w)).
Proof.
  intros H. unfold createEvents, try_catch. rewrite H. reflexivity.
Qed.

Lemma nonempty_length (A : Type) (l : list A) :
  l <> [] -> (List.length l =? 0)%nat = false.
Proof. destruct l; [congruence | reflexivity]. Qed.

Lemma createEvents_denied_run (req : Request Body) (w : World Call)
      (events : list EventData) :
  validate (body req) = inr events ->
  events <> [] ->
  has_scope (user req) "calendar.write" = false ->
  createEvents validate svc req w
  = (Returned (Next (mkAppError
                       "Insufficient permissions for calendar operations"
                       403 "INSUFFICIENT_SCOPE")), w).
Proof.
  intros Hv Hne Hs. unfold createEvents, try_catch. rewrite Hv.
  rewrite (nonempty_length _ _ Hne), Hs. reflexivity.
Qed.

(** A batch that passes the scope check always ends in a response
    built from the outcomes of its drafts. *)
Lemma createEvents_batch_run (req : Request Body) (w : World Call)
      (events : list EventData) :
  validate (body req) = inr events ->
  events <> [] ->
  has_scope (user req) "calendar.write" = true ->
  exists outcomes w1,
    Forall2 outcome_of events outcomes
    /\ process_events svc events [] [] w
       = (Returned (created_of outcomes, failed_of outcomes), w1)
    /\ createEvents validate svc req w
       = (Returned
            (Sent (mkResponse
                     (if (0 <? List.length (failed_of outcomes))%nat
                         && (List.length (created_of outcomes) =? 0)%nat
                      then 207 else 200)
                     true
                     (Some (DataBatch (created_of outcomes)
                              (List.length events)
                              (List.length (created_of outcomes))
                              (if (0 <? List.length (failed_of outcomes))%nat
                               then Some (failed_of outcomes) else None)))
                     None
                     (JsDate.iso (clock w1 (readings w1))))),
          mkWorld (clock w1) (S (readings w1)) (random w1) (draws w1)
            (calls w1)).
Proof.
  intros Hv Hne Hs.
  destruct (process_events_outcomes svc events [] [] w)
    as (outcomes & w1 & Hrun & Hall).
  simpl in Hrun. exists outcomes, w1. split; [assumption|].
  split; [assumption|].
  unfold createEvents, try_catch. rewrite Hv.
  rewrite (nonempty_length _ _ Hne), Hs. cbn [negb]. unfold bind.
  rewrite Hrun. reflexivity.
Qed.

Lemma route_sent {Call Data : Type} {c : Eff Call (Handled Data)}
      {w w' : World Call} {r : Response Data} :
  c w = (Returned (Sent r), w') -> route c w = (Returned r, w').
Proof. intros H. unfold route, bind. rewrite H. reflexivity. Qed.

Lemma route_app_error {Call Data : Type} {c : Eff Call (Handled Data)}
      {w w' : World Call} {m code : string} {st : Z} {d : option string} :
  c w = (Returned (Next (AppError m st code d)), w') ->
  route c w
  = (Returned (mkResponse st false None (Some (mkErrorBody m code d))
                 (JsDate.iso (clock w' (readings w')))),
     mkWorld (clock w') (S (readings w')) (random w') (draws w') (calls w')).
Proof. intros H. unfold route, bind. rewrite H. reflexivity. Qed.

(** C6: a create-events call with an empty [events] array is answered
    with status 200 and [created == []], and neither the Calendar
    Gateway nor the provider is called. *)
Theorem create_events_empty_batch (req : Request Body) (w : World Call) :
  validate (body req) = inr [] ->
  exists ts w',
    route (createEvents validate svc req) w
    = (Returned (mkResponse 200 true (Some (DataCreated [])) None ts), w')
    /\ calls w' = calls w.
Proof.
  intros H. do 2 eexists. split.
  - apply route_sent. apply createEvents_empty_run. exact H.
  - reflexivity.
Qed.

(** C3: on an empty [events] array the answer is the same whatever
    the scopes of the caller are, and it is the 200 response with
    [created == []]: the scope check is not on that path. *)
Theorem create_events_empty_batch_ignores_scopes
        (b : Body) (agent eventId : option string)
        (u1 u2 : option UserInfo) (w : World Call) :
  validate b = inr [] ->
  route (createEvents validate svc (mkRequest b agent eventId u1)) w
  = route (createEvents validate svc (mkRequest b agent eventId u2)) w
  /\ exists ts w',
       route (createEvents validate svc (mkRequest b agent eventId u1)) w
       = (Returned (mkResponse 200 true (Some (DataCreated [])) None ts), w').
Proof.
  intros H.
  pose proof (createEvents_empty_run (mkRequest b agent eventId u1) w H) as R1.
  pose proof (createEvents_empty_run (mkRequest b agent eventId u2) w H) as R2.
  rewrite (route_sent R1), (route_sent R2).
  split; [reflexivity | do 2 eexists; reflexivity].
Qed.

(** Without the scope, whatever the body is, nothing is called. *)
Lemma createEvents_unscoped_calls (req : Request Body) (w : World Call) :
  has_scope (user req) "calendar.write" = false ->
  calls (snd (createEvents validate svc req w)) = calls w.
Proof.
  intros Hs. unfold createEvents, try_catch.
  destruct (validate (body req)) as [details|events]; [reflexivity|].
  destruct (List.length events =? 0)%nat; [reflexivity|].
  rewrite Hs. reflexivity.
Qed.

(** C2: a create-events call whose scope set lacks the string
    "calendar.write" calls nothing, neither
    [calendarService.createEvent] nor the provider; and when its
    [events] array is not empty it is answered with 403 and code
    INSUFFICIENT_SCOPE. *)
Theorem create_events_insufficient_scope
        (req : Request Body) (w : World Call) :
  ~ In "calendar.write" (granted_scopes (user req)) ->
  calls (snd (route (createEvents validate svc req) w)) = calls w
  /\ forall events,
       validate (body req) = inr events ->
       events <> [] ->
       exists ts,
         fst (route (createEvents validate svc req) w)
         = Returned
             (mkResponse 403 false None
                (Some (mkErrorBody
                         "Insufficient permissions for calendar operations"
                         "INSUFFICIENT_SCOPE" None)) ts).
Proof.
  intros Hs. apply has_scope_missing in Hs. split.
  - pose proof (createEvents_unscoped_calls req w Hs) as Hq.
    unfold route, bind.
    destruct (createEvents validate svc req w) as [[[r|e]|e] w1];
      simpl in Hq |- *; try exact Hq.
    destruct e; simpl; try exact Hq.
    destruct (_ =? _)%string; exact Hq.
  - intros events Hv Hne. eexists.
    rewrite (route_app_error (createEvents_denied_run req w events Hv Hne Hs)).
    reflexivity.
Qed.

(** C9: a non-empty batch that passes the scope check is answered,
    and every draft, in order, has exactly one outcome, a created
    event or an error entry for that draft; so
    [totalRequested == events.length] and
    [totalCreated + errors.length == totalRequested]. *)
Theorem create_events_accounts_for_every_draft
        (req : Request Body) (w : World Call) (events : list EventData) :
  validate (body req) = inr events ->
  events <> [] ->
  In "calendar.write" (granted_scopes (user req)) ->
  exists outcomes st created totalRequested totalCreated errors ts w',
    route (createEvents validate svc req) w
    = (Returned
         (mkResponse st true
            (Some (DataBatch created totalRequested totalCreated errors))
            None ts), w')
    /\ Forall2 outcome_of events outcomes
    /\ created = created_of outcomes
    /\ errors_list errors = failed_of outcomes
    /\ totalRequested = List.length events
    /\ (totalCreated + List.length (errors_list errors))%nat = totalRequested.
Proof.
  intros Hv Hne Hs. apply has_scope_granted in Hs.
  destruct (createEvents_batch_run req w events Hv Hne Hs)
    as (outcomes & w1 & Hall & _ & Hrun).
  exists outcomes. do 7 eexists. split; [|split; [exact Hall|]].
  - apply route_sent. exact Hrun.
  - assert (E : errors_list
                  (if (0 <? List.length (failed_of outcomes))%nat
                   then Some (failed_of outcomes) else None)
                = failed_of outcomes).
    { destruct (failed_of outcomes); reflexivity. }
    rewrite E. repeat split.
    rewrite outcomes_count. symmetry. eapply Forall2_length. exact Hall.
Qed.

(** The status of a batch that passes the scope check: 207 when no
    draft was created, 200 as soon as one was. *)
Lemma createEvents_batch_status
      (req : Request Body) (w : World Call) (events : list EventData) :
  validate (body req) = inr events ->
  events <> [] ->
  has_scope (user req) "calendar.write" = true ->
  exists created failed w1 r w',
    process_events svc events [] [] w = (Returned (created, failed), w1)
    /\ route (createEvents validate svc req) w = (Returned r, w')
    /\ (List.length created + List.length failed)%nat = List.length events
    /\ (created <> [] -> status r = 200)
    /\ (created = [] -> status r = 207).
Proof.
  intros Hv Hne Hs.
  destruct (createEvents_batch_run req w events Hv Hne Hs)
    as (outcomes & w1 & Hall & Hloop & Hrun).
  exists (created_of outcomes), (failed_of outcomes), w1.
  do 2 eexists. split; [exact Hloop|]. split.
  - apply route_sent. exact Hrun.
  - pose proof (outcomes_count outcomes) as Hc.
    pose proof (Forall2_length Hall) as Hl.
    split; [lia|]. simpl. split.
    + intros Hcr. destruct (created_of outcomes); [congruence|].
      simpl. now rewrite andb_false_r.
    + intros Hcr. rewrite Hcr in *. simpl in *.
      destruct (failed_of outcomes).
      * simpl in Hc. destruct events; [congruence | simpl in Hl; lia].
      * reflexivity.
Qed.

End Handler.

Lemma create_events_empty_batch_witness :
  exists ts w',
    route (createEvents Sample.accept Sample.unconfigured
             (Sample.request [] Sample.reader)) Sample.world
    = (Returned (mkResponse 200 true (Some (DataCreated [])) None ts), w')
    /\ calls w' = calls (@Sample.world Call).
Proof.
  apply (create_events_empty_batch _ Sample.accept Sample.unconfigured
           (Sample.request [] Sample.reader) Sample.world).
  reflexivity.
Defined.

Lemma create_events_empty_batch_ignores_scopes_witness :
  route (createEvents Sample.accept Sample.unconfigured
           (mkRequest [] None None Sample.writer)) Sample.world
  = route (createEvents Sample.accept Sample.unconfigured
             (mkRequest [] None None Sample.reader)) Sample.world
  /\ exists ts w',
       route (createEvents Sample.accept Sample.unconfigured
                (mkRequest [] None None Sample.writer)) Sample.world
       = (Returned (mkResponse 200 true (Some (DataCreated [])) None ts), w').
Proof.
  apply (create_events_empty_batch_ignores_scopes _ Sample.accept
           Sample.unconfigured [] None None Sample.writer Sample.reader
           Sample.world).
  reflexivity.
Defined.

Lemma create_events_insufficient_scope_witness :
  calls (snd (route (createEvents Sample.accept
                       (Sample.configured (Error "Error" "Not Found"))
                       (Sample.request [Sample.draft "standup"] Sample.reader))
                    Sample.world))
  = calls (@Sample.world Call)
  /\ exists ts,
       fst (route (createEvents Sample.accept
                     (Sample.configured (Error "Error" "Not Found"))
                     (Sample.request [Sample.draft "standup"] Sample.reader))
                  Sample.world)
       = Returned
           (mkResponse 403 false None
              (Some (mkErrorBody
                       "Insufficient permissions for calendar operations"
                       "INSUFFICIENT_SCOPE" None)) ts).
Proof.
  destruct (create_events_insufficient_scope _ Sample.accept
              (Sample.configured (Error "Error" "Not Found"))
              (Sample.request [Sample.draft "standup"] Sample.reader)
              Sample.world) as (Hcalls & Hdenied).
  - simpl. intros [H|[H|[]]]; discriminate H.
  - split; [exact Hcalls|].
    apply (Hdenied [Sample.draft "standup"]); [reflexivity | discriminate].
Defined.

Lemma create_events_accounts_for_every_draft_witness :
  exists outcomes st created totalRequested totalCreated errors ts w',
    route (createEvents Sample.accept
             (Sample.configured (Error "Error" "Not Found"))
             (Sample.request [Sample.draft "standup"; Sample.draft "retro"]
                Sample.writer))
          Sample.world
    = (Returned
         (mkResponse st true
            (Some (DataBatch created totalRequested totalCreated errors))
            None ts), w')
    /\ Forall2 outcome_of [Sample.draft "standup"; Sample.draft "retro"]
                outcomes
    /\ created = created_of outcomes
    /\ errors_list errors = failed_of outcomes
    /\ totalRequested = 2%nat
    /\ (totalCreated + List.length (errors_list errors))%nat = totalRequested.
Proof.
  apply (create_events_accounts_for_every_draft _ Sample.accept
           (Sample.configured (Error "Error" "Not Found"))
           (Sample.request [Sample.draft "standup"; Sample.draft "retro"]
              Sample.writer)
           Sample.world [Sample.draft "standup"; Sample.draft "retro"]).
  - reflexivity.
  - discriminate.
  - simpl. left. reflexivity.
Defined.

(** C1, evaluated on a batch of two drafts of which the provider
    accepts the first and refuses the second: one event is created,
    one error entry is returned, and the status is 200, not 207. *)
Theorem create_events_partial_success_status :
  exists r created failed,
    fst (route (createEvents Sample.accept
                  (Sample.configured (Error "Error" "Not Found"))
                  (Sample.request
                     [Sample.draft "standup"; Sample.draft "retro"]
                     Sample.writer))
               Sample.world)
    = Returned r
    /\ data r = Some (DataBatch created 2 1 (Some failed))
    /\ List.length created = 1%nat
    /\ List.length failed = 1%nat
    /\ map ie_error failed
       = ["Calendar authentication expired, please re-authenticate"%string]
    /\ status r = 200.
Proof.
  do 3 eexists. split; [vm_compute; reflexivity|].
  repeat split.
Qed.

End CreateEventsProps.

(** ** Agent B: reading and deleting one event *)

Module SingleEventProps.
Import AgentB Spec CreateEventsProps.

Lemma mock_mode_match {A : Type} (svc : CalendarService)
      (real : CalendarClient -> A) (mock : A) :
  mock_mode svc ->
  match calendar svc, oauth2Client svc with
  | Some client, Some _ => real client
  | _, _ => mock
  end = mock.
Proof.
  intros [H|H]; rewrite H; [reflexivity|].
  destruct (calendar svc); reflexivity.
Qed.

Section Service.
Variable svc : CalendarService.

Lemma getEvent_mock_run (eventId : string) (w : World Call) :
  mock_mode svc ->
  exists ev w',
    getEvent svc eventId w = (Returned (Some ev), w')
    /\ ev_id ev = Some eventId
    /\ ev_status ev = "confirmed"%string.
Proof.
  intros Hm. unfold getEvent.
  rewrite (mock_mode_match svc _ _ Hm).
  do 2 eexists. split; [reflexivity|]. split; reflexivity.
Qed.

Lemma deleteEvent_mock_run (eventId : string) (w : World Call) :
  mock_mode svc ->
  exists w', deleteEvent svc eventId w = (Returned true, w').
Proof.
  intros Hm. unfold deleteEvent.
  rewrite (mock_mode_match svc _ _ Hm).
  eexists. reflexivity.
Qed.

(** What the delete path does once the provider has thrown. *)
Lemma deleteEvent_provider_threw (client : CalendarClient)
      (eventId : string) (w : World Call) (e : Thrown) :
  calendar svc = Some client ->
  oauth2Client svc = Some tt ->
  events_delete client (calls w ++ [ServiceDeleteEvent eventId]) eventId
  = Threw e ->
  exists w',
    deleteEvent svc eventId w
    = (if instanceof_Error e && includes (message e) "Not Found"
       then Returned false
       else Threw (mkAppError "Failed to delete calendar event"
                     500 "CALENDAR_DELETE_FAILED"),
       w').
Proof.
  intros Hc Ho He. unfold deleteEvent. rewrite Hc, Ho.
  unfold try_catch, bind, record, call. simpl. rewrite He.
  destruct (instanceof_Error e && includes (message e) "Not Found");
    eexists; reflexivity.
Qed.

Section Controller.
Variable Body : Type.

Lemma deleteEventController_run (req : Request Body) (eventId : string)
      (w : World Call) :
  first_truthy (param_eventId req) = Some eventId ->
  has_scope (user req) "calendar.write" = true ->
  deleteEventController svc req w
  = match deleteEvent svc eventId w with
    | (Returned true, w') => send_json 200 (DataDeleted true eventId) w'
    | (Returned false, w') =>
        (Returned (Next (mkAppError "Event not found or deletion failed"
                           404 "EVENT_DELETE_FAILED")), w')
    | (Threw e, w') => (Returned (Next e), w')
    end.
Proof.
  intros Hid Hs. unfold deleteEventController, try_catch.
  rewrite Hid, Hs. cbn [negb]. unfold bind.
  destruct (deleteEvent svc eventId w) as [[[|]|e] w']; reflexivity.
Qed.

Lemma getEventController_run (req : Request Body) (eventId : string)
      (w : World Call) :
  first_truthy (param_eventId req) = Some eventId ->
  has_scope (user req) "calendar.read" = true ->
  getEventController svc req w
  = match getEvent svc eventId w with
    | (Returned (Some ev), w') => send_json 200 (DataEvent ev) w'
    | (Returned None, w') =>
        (Returned (Next (mkAppError "Event not found"
                           404 "EVENT_NOT_FOUND")), w')
    | (Threw e, w') => (Returned (Next e), w')
    end.
Proof.
  intros Hid Hs. unfold getEventController, try_catch.
  rewrite Hid, Hs. cbn [negb]. unfold bind.
  destruct (getEvent svc eventId w) as [[[ev|]|e] w']; reflexivity.
Qed.

(** C7: with a configured client, a provider error on the delete
    path whose message does not contain "Not Found" makes
    [calendarService.deleteEvent] throw the 500 error
    CALENDAR_DELETE_FAILED, which the route answers as such ([success]
    is false: no mock success); an [Error] whose message contains
    "Not Found" makes the service return [false], which the
    controller answers with 404. *)
Theorem delete_event_provider_failure
        (client : CalendarClient) (req : Request Body)
        (eventId : string) (w : World Call) (e : Thrown) :
  calendar svc = Some client ->
  oauth2Client svc = Some tt ->
  first_truthy (param_eventId req) = Some eventId ->
  In "calendar.write" (granted_scopes (user req)) ->
  events_delete client (calls w ++ [ServiceDeleteEvent eventId]) eventId
  = Threw e ->
  (includes (message e) "Not Found" = false ->
   fst (deleteEvent svc eventId w)
   = Threw (mkAppError "Failed to delete calendar event"
              500 "CALENDAR_DELETE_FAILED")
   /\ exists ts,
        fst (route (deleteEventController svc req) w)
        = Returned
            (mkResponse 500 false None
               (Some (mkErrorBody "Failed to delete calendar event"
                        "CALENDAR_DELETE_FAILED" None)) ts))
  /\ (instanceof_Error e = true ->
      includes (message e) "Not Found" = true ->
      fst (deleteEvent svc eventId w) = Returned false
      /\ exists ts,
           fst (route (deleteEventController svc req) w)
           = Returned
               (mkResponse 404 false None
                  (Some (mkErrorBody "Event not found or deletion failed"
                           "EVENT_DELETE_FAILED" None)) ts)).
Proof.
  intros Hc Ho Hid Hs He. apply has_scope_granted in Hs.
  destruct (deleteEvent_provider_threw client eventId w e Hc Ho He)
    as (w' & Hrun).
  pose proof (deleteEventController_run req eventId w Hid Hs) as Hctl.
  rewrite Hrun in Hctl. split.
  - intros Hnf. rewrite Hnf, andb_false_r in Hrun, Hctl.
    split; [rewrite Hrun; reflexivity|].
    eexists. rewrite (route_app_error Hctl). reflexivity.
  - intros Herr Hnf. rewrite Herr, Hnf in Hrun, Hctl. simpl in Hrun, Hctl.
    split; [rewrite Hrun; reflexivity|].
    eexists. rewrite (route_app_error Hctl). reflexivity.
Qed.

(** C10: without a configured client, [calendarService.getEvent]
    returns a mock event for every id and [deleteEvent] returns
    [true]; so the controllers never take their 404 branches. *)
Theorem mock_mode_has_no_404
        (req : Request Body) (eventId : string) (w : World Call) :
  mock_mode svc ->
  (exists ev w',
     getEvent svc eventId w = (Returned (Some ev), w')
     /\ ev_id ev = Some eventId)
  /\ (exists w', deleteEvent svc eventId w = (Returned true, w'))
  /\ (exists r w',
        route (getEventController svc req) w = (Returned r, w')
        /\ status r <> 404)
  /\ (exists r w',
        route (deleteEventController svc req) w = (Returned r, w')
        /\ status r <> 404).
Proof.
  intros Hm. split; [|split; [|split]].
  - destruct (getEvent_mock_run eventId w Hm) as (ev & w' & H & Hid & _).
    exists ev, w'. split; assumption.
  - apply deleteEvent_mock_run. exact Hm.
  - destruct (first_truthy (param_eventId req)) as [id|] eqn:Hid.
    + destruct (has_scope (user req) "calendar.read") eqn:Hs.
      * pose proof (getEventController_run req id w Hid Hs) as Hctl.
        destruct (getEvent_mock_run id w Hm) as (ev & w' & H & _).
        rewrite H in Hctl. do 2 eexists. split.
        -- apply route_sent. exact Hctl.
        -- simpl. discriminate.
      * do 2 eexists. split.
        -- eapply route_app_error. unfold getEventController, try_catch.
           rewrite Hid, Hs. reflexivity.
        -- simpl. discriminate.
    + do 2 eexists. split.
      * eapply route_app_error. unfold getEventController, try_catch.
        rewrite Hid. reflexivity.
      * simpl. discriminate.
  - destruct (first_truthy (param_eventId req)) as [id|] eqn:Hid.
    + destruct (has_scope (user req) "calendar.write") eqn:Hs.
      * pose proof (deleteEventController_run req id w Hid Hs) as Hctl.
        destruct (deleteEvent_mock_run id w Hm) as (w' & H).
        rewrite H in Hctl. do 2 eexists. split.
        -- apply route_sent. exact Hctl.
        -- simpl. discriminate.
      * do 2 eexists. split.
        -- eapply route_app_error. unfold deleteEventController, try_catch.
           rewrite Hid, Hs. reflexivity.
        -- simpl. discriminate.
    + do 2 eexists. split.
      * eapply route_app_error. unfold deleteEventController, try_catch.
        rewrite Hid. reflexivity.
      * simpl. discriminate.
Qed.

End Controller.
End Service.

Lemma delete_event_provider_failure_witness :
  (fst (deleteEvent (Sample.configured (Error "Error" "Rate Limit Exceeded"))
          "evt_1" Sample.world)
   = Threw (mkAppError "Failed to delete calendar event"
              500 "CALENDAR_DELETE_FAILED")
   /\ exists ts,
        fst (route (deleteEventController
                      (Sample.configured (Error "Error" "Rate Limit Exceeded"))
                      (Sample.request [] Sample.writer)) Sample.world)
        = Returned
            (mkResponse 500 false None
               (Some (mkErrorBody "Failed to delete calendar event"
                        "CALENDAR_DELETE_FAILED" None)) ts))
  /\ (fst (deleteEvent (Sample.configured (Error "Error" "Not Found"))
             "evt_1" Sample.world)
      = Returned false
      /\ exists ts,
           fst (route (deleteEventController
                         (Sample.configured (Error "Error" "Not Found"))
                         (Sample.request [] Sample.writer)) Sample.world)
           = Returned
               (mkResponse 404 false None
                  (Some (mkErrorBody "Event not found or deletion failed"
                           "EVENT_DELETE_FAILED" None)) ts)).
Proof.
  split.
  - apply (delete_event_provider_failure
             (Sample.configured (Error "Error" "Rate Limit Exceeded")) _
             (Sample.client (Error "Error" "Rate Limit Exceeded"))
             (Sample.request [] Sample.writer) "evt_1" Sample.world
             (Error "Error" "Rate Limit Exceeded")); try reflexivity.
    simpl. left. reflexivity.
  - apply (delete_event_provider_failure
             (Sample.configured (Error "Error" "Not Found")) _
             (Sample.client (Error "Error" "Not Found"))
             (Sample.request [] Sample.writer) "evt_1" Sample.world
             (Error "Error" "Not Found")); try reflexivity.
    simpl. left. reflexivity.
Defined.

Lemma mock_mode_has_no_404_witness :
  (exists ev w',
     getEvent Sample.unconfigured "evt_404" Sample.world
     = (Returned (Some ev), w')
     /\ ev_id ev = Some "evt_404"%string)
  /\ (exists w',
        deleteEvent Sample.unconfigured "evt_404" Sample.world
        = (Returned true, w'))
  /\ (exists r w',
        route (getEventController Sample.unconfigured
                 (Sample.request [] Sample.reader)) Sample.world
        = (Returned r, w')
        /\ status r <> 404)
  /\ (exists r w',
        route (deleteEventController Sample.unconfigured
                 (Sample.request [] Sample.reader)) Sample.world
        = (Returned r, w')
        /\ status r <> 404).
Proof.
  apply (mock_mode_has_no_404 Sample.unconfigured _
           (Sample.request [] Sample.reader) "evt_404" Sample.world).
  left. reflexivity.
Defined.

End SingleEventProps.

(** ** Agent A: the call log of [processInbox] *)

Module InboxTrace.
Import AgentA SpecA.

Lemma call_run {A : Type} (c : Call) (answer : list Call -> Outcome A)
      (w : World Call) :
  call c answer w
  = (answer (calls w),
     mkWorld (clock w) (readings w) (random w) (draws w) (calls w ++ [c])).
Proof. reflexivity. Qed.

Lemma quiet_ret {A : Type} (a : A) : quiet (ret a).
Proof. intros w r w' H. inversion H. reflexivity. Qed.

Lemma quiet_lift {A : Type} (o : Outcome A) : quiet (lift o).
Proof. intros w r w' H. inversion H. reflexivity. Qed.

Lemma quiet_Date_now : quiet (@Date_now Call).
Proof. intros w r w' H. inversion H. reflexivity. Qed.

Lemma quiet_bind {A B : Type} (m : M A) (k : A -> M B) :
  quiet m -> (forall a, quiet (k a)) -> quiet (bind m k).
Proof.
  intros Hm Hk w r w' H. unfold bind in H.
  destruct (m w) as [[a|e] w1] eqn:E.
  - apply Hk in H. apply Hm in E. congruence.
  - inversion H; subst. apply Hm in E. exact E.
Qed.

Lemma quiet_mapM {A B : Type} (f : A -> M B) (l : list A) :
  (forall a, quiet (f a)) -> quiet (mapM f l).
Proof.
  intros Hf. induction l as [|x rest IH]; simpl.
  - apply quiet_ret.
  - apply quiet_bind; [apply Hf|]. intros y.
    apply quiet_bind; [exact IH|]. intros ys. apply quiet_ret.
Qed.

Lemma quiet_send_json {Data : Type} (st : Z) (d : Data) :
  quiet (@send_json Call Data st d).
Proof. intros w r w' H. inversion H. reflexivity. Qed.

(** Two endings of a case analysis on a run of [processInbox]: the run
    stopped before any call; the run went through the token request,
    with [post] logged after it. *)
Ltac stopped_before_calls :=
  do 2 eexists; exists []; rewrite app_nil_r;
  split; [reflexivity|]; split; [reflexivity|]; left;
  split; [reflexivity|];
  let d := fresh "d" in
  let Hd := fresh "Hd" in
  intros d Hd; inversion Hd; reflexivity.

Ltac token_requested n v mails jwt post Hmails :=
  do 2 eexists;
  exists (GetRecentEmails n :: mails
            ++ RequestDelegatedToken jwt "agent-b-calendar"
                 ["calendar.write"%string] :: post);
  split; [reflexivity|]; split;
  [ cbn [calls];
    try match goal with
        | H : calls ?w3 = _ |- context [calls ?w3] => rewrite H
        end;
    rewrite <- !app_assoc; reflexivity
  | right; exists v; split; [reflexivity|]; right;
    exists mails, jwt, post;
    split; [reflexivity|]; split; [exact Hmails|]; fold n ].

Section Trace.
Variable Date_parse : string -> JsDate.Date.
Variable number_of_string : string -> option Q.
Variable svc : Services.

(** Step 2 returns, and calls only the mail provider and the
    language model. *)
Lemma process_messages_trace (messages : list string) :
  forall (items : list Item) (errors : list EmailError) (w : World Call),
  exists res w' new,
    process_messages svc messages items errors w = (Returned res, w')
    /\ calls w' = calls w ++ new
    /\ Forall (fun c => is_per_message c = true) new.
Proof.
  induction messages as [|m rest IH]; intros items errors w.
  - exists (items, errors), w, []. simpl. rewrite app_nil_r.
    repeat split. constructor.
  - simpl. unfold try_catch, bind. rewrite call_run.
    destruct (getEmailContent svc (calls w) m) as [email|e].
    + rewrite call_run. cbn [calls].
      destruct (summarizeEmail svc (calls w ++ [GetEmailContent m]) email)
        as [summary|e].
      * rewrite call_run. cbn [calls].
        destruct (extractActionItems svc
                    ((calls w ++ [GetEmailContent m])
                       ++ [SummarizeEmail email]) email) as [actions|e];
          cbn [ret fst snd];
          match goal with
          | |- context [process_messages svc rest ?i ?e ?w0] =>
              destruct (IH i e w0) as (res & w' & new & Hrun & Hc & Hall)
          end;
          exists res, w',
            (GetEmailContent m :: SummarizeEmail email
               :: ExtractActionItems email :: new);
          (split; [exact Hrun|]); (split; [rewrite Hc; cbn [calls];
                                           rewrite <- !app_assoc; reflexivity|]);
          repeat constructor; assumption.
      * cbn [ret fst snd].
        match goal with
        | |- context [process_messages svc rest ?i ?e ?w0] =>
            destruct (IH i e w0) as (res & w' & new & Hrun & Hc & Hall)
        end.
        exists res, w', (GetEmailContent m :: SummarizeEmail email :: new).
        split; [exact Hrun|]. split.
        -- rewrite Hc. cbn [calls]. rewrite <- !app_assoc. reflexivity.
        -- repeat constructor; assumption.
    + cbn [ret fst snd].
      match goal with
      | |- context [process_messages svc rest ?i ?e ?w0] =>
          destruct (IH i e w0) as (res & w' & new & Hrun & Hc & Hall)
      end.
      exists res, w', (GetEmailContent m :: new).
      split; [exact Hrun|]. split.
      * rewrite Hc. cbn [calls]. rewrite <- !app_assoc. reflexivity.
      * repeat constructor; assumption.
Qed.

Lemma quiet_build_event (item : Item) (action : ActionItem) :
  quiet (build_event Date_parse item action).
Proof.
  unfold build_event.
  apply quiet_bind.
  - destruct (first_truthy (a_suggestedDate action)).
    + apply quiet_ret.
    + apply quiet_bind; [apply quiet_Date_now|]. intros t. apply quiet_lift.
  - intros start_. apply quiet_bind.
    + destruct (first_truthy (a_suggestedDate action)).
      * apply quiet_lift.
      * apply quiet_bind; [apply quiet_Date_now|]. intros t.
        apply quiet_lift.
    + intros end_. apply quiet_ret.
Qed.

Lemma quiet_build_events (items : list Item) :
  quiet (build_events Date_parse items).
Proof.
  unfold build_events. apply quiet_bind.
  - apply quiet_mapM. intros item. apply quiet_mapM. intros action.
    apply quiet_build_event.
  - intros per_item. apply quiet_ret.
Qed.

(** The call log of one run of [processInbox]: nothing; or the mail
    fetch with the validated [maxResults], then the calls of the
    loop, then at most one token request, then, only if that request
    gave a usable token, at most one create-events call to Agent B
    with that token. *)
Lemma processInbox_shape (req : Request) (w : World Call) :
  exists r w' new,
    processInbox Date_parse number_of_string svc req w = (Returned r, w')
    /\ calls w' = calls w ++ new
    /\ ((new = []
         /\ forall details,
             validateProcessEmailsRequest number_of_string (body req)
             = inl details ->
             r = Next (AppError "Invalid request parameters" 400
                         "VALIDATION_ERROR" (Some details)))
        \/ exists v,
             validateProcessEmailsRequest number_of_string (body req)
             = inr v
             /\ (new = [GetRecentEmails (maxResults_of v)]
                 \/ exists mails jwt post,
                      new = GetRecentEmails (maxResults_of v) :: mails
                              ++ RequestDelegatedToken jwt "agent-b-calendar"
                                   ["calendar.write"%string] :: post
                      /\ Forall (fun c => is_per_message c = true) mails
                      /\ match requestDelegatedToken svc
                                 (calls w
                                    ++ GetRecentEmails (maxResults_of v)
                                    :: mails)
                                 jwt "agent-b-calendar"
                                 ["calendar.write"%string] with
                         | Threw e => r = Next e /\ post = []
                         | Returned tok =>
                             match first_truthy tok with
                             | None =>
                                 r = Next (mkAppError
                                             "Failed to obtain delegated token for calendar operations"
                                             403 "DELEGATION_FAILED")
                                 /\ post = []
                             | Some t =>
                                 post = []
                                 \/ exists events,
                                      post = [CallAgentBCreateEvents t events]
                             end
                         end)).
Proof.
  unfold processInbox, try_catch.
  destruct (validateProcessEmailsRequest number_of_string (body req))
    as [details|v] eqn:Hv.
  - stopped_before_calls.
  - fold (maxResults_of v). set (n := maxResults_of v).
    destruct (first_truthy
                (option_map (fun a => replace a "Bearer " "")
                   (authorization req))) as [jwt|];
      [|stopped_before_calls].
    unfold bind at 1. rewrite call_run.
    destruct (getRecentEmails svc (calls w) n) as [messages|e].
    + match goal with
      | |- context [bind (process_messages svc messages [] []) ?k ?w0] =>
          destruct (process_messages_trace messages [] [] w0)
            as (looped & w2 & mails & Hloop & Hc2 & Hmails);
          unfold bind at 1; rewrite Hloop
      end.
      cbn [calls] in Hc2.
      unfold bind at 1. rewrite call_run. rewrite Hc2.
      assert (Hlog : (calls w ++ [GetRecentEmails n]) ++ mails
                     = calls w ++ GetRecentEmails n :: mails)
        by (rewrite <- app_assoc; reflexivity).
      rewrite Hlog.
      destruct (requestDelegatedToken svc
                  (calls w ++ GetRecentEmails n :: mails) jwt
                  "agent-b-calendar" ["calendar.write"%string])
        as [tok|e] eqn:Htok.
      * destruct (first_truthy tok) as [t|] eqn:Hft.
        -- unfold bind at 1.
           match goal with
           | |- context [build_events Date_parse (fst looped) ?w0] =>
               destruct (build_events Date_parse (fst looped) w0)
                 as [[eventsToCreate|e] w3] eqn:Hbuild;
               apply quiet_build_events in Hbuild; cbn [calls] in Hbuild
           end.
           ++ destruct (0 <? List.length eventsToCreate)%nat.
              ** unfold bind at 1. unfold try_catch, bind at 1.
                 rewrite call_run.
                 destruct (callAgentBCreateEvents svc (calls w3) t
                             eventsToCreate) as [created|e];
                   token_requested n v mails jwt
                     [CallAgentBCreateEvents t eventsToCreate] Hmails;
                   rewrite Htok, Hft; right; eexists; reflexivity.
              ** token_requested n v mails jwt (@nil Call) Hmails.
                 rewrite Htok, Hft. left. reflexivity.
           ++ token_requested n v mails jwt (@nil Call) Hmails.
              rewrite Htok, Hft. left. reflexivity.
        -- token_requested n v mails jwt (@nil Call) Hmails.
           rewrite Htok, Hft. split; reflexivity.
      * token_requested n v mails jwt (@nil Call) Hmails.
        rewrite Htok. split; reflexivity.
    + do 2 eexists. exists [GetRecentEmails n].
      split; [reflexivity|]. split; [reflexivity|].
      right. exists v. split; [reflexivity|]. left. reflexivity.
Qed.

End Trace.
End InboxTrace.

(** ** Agent A: delegation and request validation *)

Module InboxProps.
Import AgentA SpecA InboxTrace.

(** An element that occurs once in a list splits it in one way. *)
Lemma split_unique {A : Type} (P : A -> bool) (pre : list A) :
  forall (x : A) (post pre' : list A) (x' : A) (post' : list A),
    pre ++ x :: post = pre' ++ x' :: post' ->
    Forall (fun c => P c = false) pre ->
    Forall (fun c => P c = false) post ->
    P x' = true ->
    pre = pre' /\ x = x' /\ post = post'.
Proof.
  induction pre as [|a pre IH]; intros x post pre' x' post' E Hpre Hpost Hx'.
  - destruct pre' as [|b pre'].
    + inversion E. repeat split.
    + inversion E; subst. rewrite Forall_forall in Hpost.
      assert (Hin : In x' (pre' ++ x' :: post'))
        by (apply in_or_app; right; left; reflexivity).
      apply Hpost in Hin. congruence.
  - destruct pre' as [|b pre'].
    + inversion E; subst. inversion Hpre; subst. congruence.
    + inversion E; subst. inversion Hpre; subst.
      destruct (IH x post pre' x' post' H1 H3 Hpost Hx') as (-> & -> & ->).
      repeat split.
Qed.

Lemma per_message_not_token (l : list Call) :
  Forall (fun c => is_per_message c = true) l ->
  Forall (fun c => is_token_request c = false) l
  /\ Forall (fun c => is_create_events c = false) l.
Proof.
  intros H. split; eapply Forall_impl; try exact H;
    intros [] Hc; simpl in *; congruence.
Qed.

(** Integral rationals. *)
Lemma integer_value (q : Q) :
  is_integer q = true -> (q == inject_Z (to_Z q))%Q.
Proof.
  unfold is_integer, to_Z, Qeq. simpl. intros H.
  apply Z.eqb_eq in H. apply Z.rem_mod_eq_0 in H; [|discriminate].
  apply Z.div_exact in H; [|discriminate]. lia.
Qed.

Lemma value_integer (q : Q) (n : Z) :
  (q == inject_Z n)%Q -> is_integer q = true /\ to_Z q = n.
Proof.
  unfold is_integer, to_Z, Qeq. simpl. intros H.
  assert (E : Qnum q = n * Zpos (Qden q)) by lia.
  rewrite E. split.
  - apply Z.eqb_eq. apply Z.rem_mul. discriminate.
  - apply Z.div_mul. discriminate.
Qed.

Section Inbox.
Variable Date_parse : string -> JsDate.Date.
Variable number_of_string : string -> option Q.
Variable svc : Services.

(** C4: in every run of [processInbox] whose call log holds a token
    request that was answered with a falsy value, the handler ends in
    the error DELEGATION_FAILED, answered with status 403, and the
    log holds no create-events call to Agent B. *)
Theorem process_emails_delegation_failed
        (req : Request) (w w' : World Call)
        (r : Outcome (Handled ProcessEmailsResponse))
        (pre post : list Call) (jwt audience : string)
        (requested : list string) (tok : option string) :
  processInbox Date_parse number_of_string svc req w = (r, w') ->
  calls w' = calls w ++ pre
               ++ RequestDelegatedToken jwt audience requested :: post ->
  requestDelegatedToken svc (calls w ++ pre) jwt audience requested
  = Returned tok ->
  first_truthy tok = None ->
  r = Returned (Next (mkAppError
                        "Failed to obtain delegated token for calendar operations"
                        403 "DELEGATION_FAILED"))
  /\ (exists ts,
        fst (route (processInbox Date_parse number_of_string svc req) w)
        = Returned
            (mkResponse 403 false None
               (Some (mkErrorBody
                        "Failed to obtain delegated token for calendar operations"
                        "DELEGATION_FAILED" None)) ts))
  /\ Forall (fun c => is_create_events c = false)
            (pre ++ RequestDelegatedToken jwt audience requested :: post).
Proof.
  intros Hrun Hlog Hans Hft.
  destruct (processInbox_shape Date_parse number_of_string svc req w)
    as (r0 & w0 & new & Hrun0 & Hlog0 & Hshape).
  rewrite Hrun in Hrun0. inversion Hrun0; subst r w0. clear Hrun0.
  rewrite Hlog in Hlog0. apply app_inv_head in Hlog0.
  destruct Hshape as [[Hnil _]|(v & Hv & [Hone|Hmore])].
  - rewrite Hnil in Hlog0. destruct pre; discriminate Hlog0.
  - rewrite Hone in Hlog0.
    destruct pre as [|c [|c' pre]]; discriminate Hlog0.
  - destruct Hmore as (mails & jwt0 & post0 & Hnew & Hmails & Hcase).
    destruct (per_message_not_token mails Hmails) as (Hnt & Hnc).
    rewrite Hnew in Hlog0.
    assert (Hpost0 : Forall (fun c => is_token_request c = false) post0
                     /\ Forall (fun c => is_create_events c = false) post0
                     \/ exists t events,
                          post0 = [CallAgentBCreateEvents t events]
                          /\ exists tok0,
                               requestDelegatedToken svc
                                 (calls w ++ GetRecentEmails (maxResults_of v)
                                    :: mails) jwt0 "agent-b-calendar"
                                 ["calendar.write"%string] = Returned tok0
                               /\ first_truthy tok0 = Some t).
    { destruct (requestDelegatedToken svc
                  (calls w ++ GetRecentEmails (maxResults_of v) :: mails)
                  jwt0 "agent-b-calendar" ["calendar.write"%string])
        as [tok0|e].
      - destruct (first_truthy tok0) as [t|] eqn:Ht.
        + destruct Hcase as [->|(events & ->)].
          * left. split; constructor.
          * right. exists t, events. split; [reflexivity|].
            exists tok0. split; [reflexivity | exact Ht].
        + destruct Hcase as (_ & ->). left. split; constructor.
      - destruct Hcase as (_ & ->). left. split; constructor. }
    assert (Hpost_nt : Forall (fun c => is_token_request c = false) post0).
    { destruct Hpost0 as [[H _]|(t & events & -> & _)];
        [exact H | repeat constructor]. }
    change (GetRecentEmails (maxResults_of v)
              :: mails ++ RequestDelegatedToken jwt0 "agent-b-calendar"
                            ["calendar.write"%string] :: post0)
      with ((GetRecentEmails (maxResults_of v) :: mails)
              ++ RequestDelegatedToken jwt0 "agent-b-calendar"
                   ["calendar.write"%string] :: post0) in Hlog0.
    symmetry in Hlog0.
    destruct (split_unique is_token_request
                (GetRecentEmails (maxResults_of v) :: mails) _ _ _ _ _
                Hlog0) as (Epre & Ecall & Epost).
    { constructor; [reflexivity | exact Hnt]. }
    { exact Hpost_nt. }
    { reflexivity. }
    inversion Ecall; subst jwt0 audience requested. subst pre post0.
    rewrite Hans, Hft in Hcase. destruct Hcase as (-> & ->).
    split; [reflexivity|]. split.
    + eexists. rewrite (CreateEventsProps.route_app_error Hrun).
      reflexivity.
    + apply Forall_app. split.
      * constructor; [reflexivity | exact Hnc].
      * repeat constructor.
Qed.

(** What the schema of [maxResults] accepts, and what it makes of
    it. *)
Lemma validate_maxResults_accepts (x : Value) (n : Z) :
  validate_maxResults number_of_string x = inr n ->
  1 <= n <= 50
  /\ (x = VUndefined /\ n = 5
      \/ exists q, numeric_value number_of_string x = Some q
                   /\ (q == inject_Z n)%Q).
Proof.
  assert (Hcheck : forall q,
             (if negb (is_integer q) then inl "number.integer"%string
              else if to_Z q <? 1 then inl "number.min"%string
              else if 50 <? to_Z q then inl "number.max"%string
              else inr (to_Z q)) = inr n ->
             1 <= n <= 50 /\ (q == inject_Z n)%Q).
  { intros q H. destruct (is_integer q) eqn:Hi; simpl in H; [|discriminate].
    destruct (to_Z q <? 1) eqn:H1; [discriminate|].
    destruct (50 <? to_Z q) eqn:H2; [discriminate|].
    inversion H; subst n. apply Z.ltb_ge in H1, H2.
    split; [lia | apply integer_value; exact Hi]. }
  unfold validate_maxResults. destruct x as [| |b|q|s0|]; intros H;
    try discriminate H.
  - inversion H; subst n. split; [lia|]. left. split; reflexivity.
  - destruct (Hcheck q H) as (Hr & Hq). split; [exact Hr|].
    right. exists q. split; [reflexivity | exact Hq].
  - simpl. destruct (number_of_string s0) as [q|] eqn:Hs; [|discriminate H].
    destruct (Hcheck q H) as (Hr & Hq). split; [exact Hr|].
    right. exists q. split; [reflexivity | exact Hq].
Qed.

Lemma validate_maxResults_rejects (x : Value) :
  x <> VUndefined ->
  ~ in_range number_of_string x ->
  exists details, validate_maxResults number_of_string x = inl details.
Proof.
  intros Hx Hout.
  destruct (validate_maxResults number_of_string x) as [d|n] eqn:E.
  - exists d. reflexivity.
  - exfalso. destruct (validate_maxResults_accepts x n E)
      as (Hr & [[Hu _]|(q & Hq & Heq)]).
    + contradiction.
    + apply Hout. exists q, n. repeat split; try assumption; lia.
Qed.

Lemma processInbox_rejected (req : Request) (w : World Call)
      (details : string) :
  validateProcessEmailsRequest number_of_string (body req) = inl details ->
  processInbox Date_parse number_of_string svc req w
  = (Returned (Next (AppError "Invalid request parameters" 400
                       "VALIDATION_ERROR" (Some details))), w).
Proof.
  intros H. unfold processInbox, try_catch. rewrite H. reflexivity.
Qed.

(** C8: the [maxResults] property is 5 when it is absent; a request
    that passes validation has an integer between 1 and 50 for it,
    the one the body stands for; a value that is not an integer
    between 1 and 50 is answered with 400 VALIDATION_ERROR and
    nothing is called; and the mail fetch, when it is called, is
    called with a number between 1 and 50. *)
Theorem process_emails_maxResults_validated
        (req : Request) (w : World Call) :
  validateProcessEmailsRequest number_of_string (ObjectBody VUndefined [])
  = inr (mkValue (Some 5))
  /\ (forall v,
         validateProcessEmailsRequest number_of_string (body req) = inr v ->
         1 <= maxResults_of v <= 50
         /\ exists x,
              body req = ObjectBody x []
              /\ (x = VUndefined /\ maxResults_of v = 5
                  \/ exists q,
                       numeric_value number_of_string x = Some q
                       /\ (q == inject_Z (maxResults_of v))%Q))
  /\ (forall x others,
         body req = ObjectBody x others ->
         x <> VUndefined ->
         ~ in_range number_of_string x ->
         exists details ts w',
           route (processInbox Date_parse number_of_string svc req) w
           = (Returned
                (mkResponse 400 false None
                   (Some (mkErrorBody "Invalid request parameters"
                            "VALIDATION_ERROR" (Some details))) ts), w')
           /\ calls w' = calls w)
  /\ (forall r w' new n,
         processInbox Date_parse number_of_string svc req w = (r, w') ->
         calls w' = calls w ++ new ->
         In (GetRecentEmails n) new ->
         1 <= n <= 50).
Proof.
  split; [reflexivity|]. split; [|split].
  - intros v Hv. unfold validateProcessEmailsRequest in Hv.
    destruct (body req) as [x others|]; [|discriminate Hv].
    destruct (validate_maxResults number_of_string x) as [d|n] eqn:E;
      [discriminate Hv|].
    destruct others; [|discriminate Hv]. inversion Hv; subst v.
    unfold maxResults_of. simpl.
    destruct (validate_maxResults_accepts x n E) as (Hr & Hx).
    split; [exact Hr|]. exists x. split; [reflexivity | exact Hx].
  - intros x others Hb Hx Hout.
    destruct (validate_maxResults_rejects x Hx Hout) as (d & Hd).
    assert (Hv : validateProcessEmailsRequest number_of_string (body req)
                 = inl d).
    { rewrite Hb. unfold validateProcessEmailsRequest. rewrite Hd.
      reflexivity. }
    exists d. do 2 eexists. split.
    + eapply CreateEventsProps.route_app_error.
      apply processInbox_rejected. exact Hv.
    + reflexivity.
  - intros r w' new n Hrun Hlog Hin.
    destruct (processInbox_shape Date_parse number_of_string svc req w)
      as (r0 & w0 & new0 & Hrun0 & Hlog0 & Hshape).
    rewrite Hrun in Hrun0. inversion Hrun0; subst r w0. clear Hrun0.
    rewrite Hlog in Hlog0. apply app_inv_head in Hlog0. rewrite <- Hlog0 in *.
    assert (Hbound : forall v,
               validateProcessEmailsRequest number_of_string (body req)
               = inr v -> 1 <= maxResults_of v <= 50).
    { intros v Hv. unfold validateProcessEmailsRequest in Hv.
      destruct (body req) as [x others|]; [|discriminate Hv].
      destruct (validate_maxResults number_of_string x) as [d|m] eqn:E;
        [discriminate Hv|].
      destruct others; [|discriminate Hv]. inversion Hv; subst v.
      unfold maxResults_of. simpl.
      apply (validate_maxResults_accepts x m E). }
    destruct Hshape as [[Hnil _]|(v & Hv & [Hone|Hmore])].
    + rewrite Hnil in Hin. contradiction.
    + rewrite Hone in Hin. destruct Hin as [Hin|[]].
      inversion Hin; subst n. apply Hbound. exact Hv.
    + destruct Hmore as (mails & jwt & post & Hnew & Hmails & Hcase).
      rewrite Hnew in Hin. destruct Hin as [Hin|Hin].
      * inversion Hin; subst n. apply Hbound. exact Hv.
      * exfalso. apply in_app_or in Hin. destruct Hin as [Hin|[Hin|Hin]].
        -- rewrite Forall_forall in Hmails. apply Hmails in Hin.
           discriminate Hin.
        -- discriminate Hin.
        -- destruct (requestDelegatedToken svc
                       (calls w ++ GetRecentEmails (maxResults_of v) :: mails)
                       jwt "agent-b-calendar" ["calendar.write"%string])
             as [tok|e].
           ++ destruct (first_truthy tok).
              ** destruct Hcase as [->|(events & ->)];
                   [contradiction|].
                 destruct Hin as [Hin|[]]. discriminate Hin.
              ** destruct Hcase as (_ & ->). contradiction.
           ++ destruct Hcase as (_ & ->). contradiction.
Qed.

End Inbox.

Lemma process_emails_delegation_failed_witness :
  let run :=
    processInbox JsDate.parse_iso SampleA.no_conversion
      (SampleA.services [SampleA.undated] None)
      (SampleA.request VUndefined) SampleA.world in
  let log :=
    [GetRecentEmails 5; GetEmailContent "m1"; SummarizeEmail SampleA.email;
     ExtractActionItems SampleA.email] in
  fst run
  = Returned (Next (mkAppError
                      "Failed to obtain delegated token for calendar operations"
                      403 "DELEGATION_FAILED"))
  /\ (exists ts,
        fst (route (processInbox JsDate.parse_iso SampleA.no_conversion
                      (SampleA.services [SampleA.undated] None)
                      (SampleA.request VUndefined)) SampleA.world)
        = Returned
            (mkResponse 403 false None
               (Some (mkErrorBody
                        "Failed to obtain delegated token for calendar operations"
                        "DELEGATION_FAILED" None)) ts))
  /\ Forall (fun c => is_create_events c = false)
            (log ++ RequestDelegatedToken "session-jwt" "agent-b-calendar"
                      ["calendar.write"%string] :: []).
Proof.
  intros run log.
  apply (process_emails_delegation_failed JsDate.parse_iso
           SampleA.no_conversion (SampleA.services [SampleA.undated] None)
           (SampleA.request VUndefined) SampleA.world (snd run) (fst run)
           log [] "session-jwt" "agent-b-calendar" ["calendar.write"%string]
           None).
  - apply surjective_pairing.
  - vm_compute. reflexivity.
  - reflexivity.
  - reflexivity.
Defined.

Lemma process_emails_maxResults_validated_witness :
  validateProcessEmailsRequest SampleA.no_conversion
    (ObjectBody VUndefined []) = inr (mkValue (Some 5))
  /\ exists details ts w',
       route (processInbox JsDate.parse_iso SampleA.no_conversion
                (SampleA.services [] None)
                (SampleA.request (VNumber (7 # 2)))) SampleA.world
       = (Returned
            (mkResponse 400 false None
               (Some (mkErrorBody "Invalid request parameters"
                        "VALIDATION_ERROR" (Some details))) ts), w')
       /\ calls w' = calls SampleA.world.
Proof.
  destruct (process_emails_maxResults_validated JsDate.parse_iso
              SampleA.no_conversion (SampleA.services [] None)
              (SampleA.request (VNumber (7 # 2))) SampleA.world)
    as (Hdefault & _ & Hreject & _).
  split; [exact Hdefault|].
  apply (Hreject (VNumber (7 # 2)) []).
  - reflexivity.
  - discriminate.
  - intros (q & n & Hq & Heq & Hn). inversion Hq; subst q.
    unfold Qeq in Heq. simpl in Heq. lia.
Defined.

End InboxProps.

(** ** Agent A: suggested dates and the drafts built from action items *)

Module DraftProps.
Import AgentA SpecA InboxTrace.

Lemma iso_truthy (t : Z) : truthy (JsDate.iso t) = true.
Proof.
  unfold JsDate.iso.
  destruct (JsDate.civil_from_days (t / JsDate.msPerDay)) as [[y m] d].
  destruct (JsDate.iso_year y); reflexivity.
Qed.

Example validateDate_keeps_future :
  fst (validateDate JsDate.parse_iso (Some "2026-12-01T10:00:00.000Z"%string)
         SampleA.world)
  = Returned (Some "2026-12-01T10:00:00.000Z"%string).
Proof. vm_compute. reflexivity. Qed.

Example validateDate_drops_past :
  fst (validateDate JsDate.parse_iso (Some "2025-12-01T10:00:00.000Z"%string)
         SampleA.world)
  = Returned None.
Proof. vm_compute. reflexivity. Qed.

Example validateDate_drops_unparseable :
  fst (validateDate JsDate.parse_iso (Some "next tuesday"%string)
         SampleA.world)
  = Returned None.
Proof. vm_compute. reflexivity. Qed.

Section Drafts.
Variable Date_parse : string -> JsDate.Date.

(** [validateDate] keeps a date exactly when it is a non-empty string
    that parses and is not before the clock, and then returns it in
    ISO form. *)
Lemma validateDate_spec (date : option string) (w : World Call) :
  exists w',
    validateDate Date_parse date w
    = (Returned
         match first_truthy date with
         | Some d =>
             match Date_parse d with
             | Some p =>
                 if p <? clock w (readings w) then None
                 else Some (JsDate.iso p)
             | None => None
             end
         | None => None
         end, w').
Proof.
  unfold validateDate. destruct (first_truthy date) as [d|].
  - unfold try_catch. destruct (Date_parse d) as [p|].
    + unfold bind. simpl.
      destruct (p <? clock w (readings w)); eexists; reflexivity.
    + eexists. reflexivity.
  - eexists. reflexivity.
Qed.

(** An action item with a suggested date: the draft starts at that
    date and ends one hour after the instant it parses to. *)
Lemma build_event_dated (item : Item) (action : ActionItem)
      (d : string) (p : Z) (w : World Call) :
  first_truthy (a_suggestedDate action) = Some d ->
  Date_parse d = Some p ->
  exists draft,
    build_event Date_parse item action w = (Returned draft, w)
    /\ startTime draft = d
    /\ endTime draft = JsDate.iso (p + hour).
Proof.
  intros Hd Hp. unfold build_event. rewrite Hd, Hp.
  eexists. split; [reflexivity|]. split; reflexivity.
Qed.

(** An action item without one: the draft starts 24 hours after one
    reading of the clock and ends 25 hours after the next reading. *)
Lemma build_event_undated (item : Item) (action : ActionItem)
      (w : World Call) :
  first_truthy (a_suggestedDate action) = None ->
  exists draft w',
    build_event Date_parse item action w = (Returned draft, w')
    /\ startTime draft = JsDate.iso (clock w (readings w) + 24 * hour)
    /\ endTime draft
       = JsDate.iso (clock w (S (readings w)) + 24 * hour + hour).
Proof.
  intros Hd. unfold build_event. rewrite Hd.
  do 2 eexists. split; [reflexivity|]. split; [reflexivity|].
  simpl. f_equal. unfold hour. lia.
Qed.

(** While the clock stands still between the two readings, the
    undated draft lasts one hour. *)
Lemma build_event_undated_still (item : Item) (action : ActionItem)
      (w : World Call) :
  first_truthy (a_suggestedDate action) = None ->
  clock w (S (readings w)) = clock w (readings w) ->
  exists draft w' t,
    build_event Date_parse item action w = (Returned draft, w')
    /\ t = clock w (readings w) + 24 * hour
    /\ startTime draft = JsDate.iso t
    /\ endTime draft = JsDate.iso (t + hour).
Proof.
  intros Hd Hstill.
  destruct (build_event_undated item action w Hd)
    as (draft & w' & Hrun & Hs & He).
  exists draft, w', (clock w (readings w) + 24 * hour).
  rewrite Hstill in He. repeat split; assumption.
Qed.

(** A date kept by [validateDate], on a platform that reads its own
    ISO strings back: the draft starts at the date and lasts one
    hour. *)
Lemma build_event_validated (item : Item) (action : ActionItem)
      (raw : option string) (s0 : string) (w0 w1 w : World Call) :
  (forall t, Date_parse (JsDate.iso t) = Some t) ->
  validateDate Date_parse raw w0 = (Returned (Some s0), w1) ->
  a_suggestedDate action = Some s0 ->
  exists draft p,
    build_event Date_parse item action w = (Returned draft, w)
    /\ clock w0 (readings w0) <= p
    /\ startTime draft = JsDate.iso p
    /\ endTime draft = JsDate.iso (p + hour).
Proof.
  intros Hround Hval Hact.
  destruct (validateDate_spec raw w0) as (w' & Hspec).
  rewrite Hval in Hspec. inversion Hspec as [[Hs Hw]]. clear Hspec.
  destruct (first_truthy raw) as [d|]; [|discriminate Hs].
  destruct (Date_parse d) as [p|]; [|discriminate Hs].
  destruct (p <? clock w0 (readings w0)) eqn:Hlt; [discriminate Hs|].
  inversion Hs; subst s0. apply Z.ltb_ge in Hlt.
  assert (Hd : first_truthy (a_suggestedDate action) = Some (JsDate.iso p)).
  { rewrite Hact. simpl. rewrite iso_truthy. reflexivity. }
  destruct (build_event_dated item action (JsDate.iso p) p w Hd (Hround p))
    as (draft & Hrun & Hst & Hen).
  exists draft, p. repeat split; assumption.
Qed.

End Drafts.

(** C5, evaluated on an action item without a suggested date while the
    clock advances by one millisecond per reading: the draft sent to
    Agent B starts 24 hours after the first reading, and ends one hour
    and one millisecond later. *)
Theorem process_emails_undated_draft_times :
  exists draft,
    calls (snd (processInbox JsDate.parse_iso SampleA.no_conversion
                  (SampleA.services [SampleA.undated] (Some "delegated"%string))
                  (SampleA.request VUndefined) SampleA.world))
    = [GetRecentEmails 5; GetEmailContent "m1";
       SummarizeEmail SampleA.email; ExtractActionItems SampleA.email;
       RequestDelegatedToken "session-jwt" "agent-b-calendar"
         ["calendar.write"%string];
       CallAgentBCreateEvents "delegated" [draft]]
    /\ startTime draft = "2026-11-04T00:00:00.000Z"%string
    /\ endTime draft = "2026-11-04T01:00:00.001Z"%string
    /\ JsDate.parse_iso (startTime draft) = Some (1793664000000 + 24 * hour)
    /\ JsDate.parse_iso (endTime draft)
       = Some (1793664000000 + 24 * hour + hour + 1).
Proof.
  eexists. split; [vm_compute; reflexivity|].
  repeat split; vm_compute; reflexivity.
Qed.

End DraftProps.

(** ** Agent B: what [calendarService.createEvent] raises and masks *)

Module CreateEventService.
Import AgentB Spec SpecB BatchLoop CreateEventsProps.

Lemma event_time_returns (edt : option EventDateTime) (w : World Call) :
  exists s w', event_time edt w = (Returned s, w') /\ calls w' = calls w.
Proof.
  unfold event_time.
  destruct edt as [x|]; [|do 2 eexists; split; reflexivity].
  destruct (first_truthy (dateTime x)); [do 2 eexists; split; reflexivity|].
  destruct (first_truthy (date x)); do 2 eexists; split; reflexivity.
Qed.

Lemma mapToCalendarEvent_returns (g : SchemaEvent) (w : World Call) :
  exists ev w',
    mapToCalendarEvent g w = (Returned ev, w')
    /\ calls w' = calls w
    /\ ev_id ev = g_id g.
Proof.
  unfold mapToCalendarEvent, bind.
  destruct (event_time_returns (g_start g) w) as (s & w1 & H1 & C1).
  rewrite H1.
  destruct (event_time_returns (g_end g) w1) as (e & w2 & H2 & C2).
  rewrite H2. do 2 eexists. split; [reflexivity|].
  split; [simpl; congruence | reflexivity].
Qed.

Lemma prefix_append (p x : string) : String.prefix p (p ++ x)%string = true.
Proof.
  induction p as [|c p IH]; simpl.
  - destruct x; reflexivity.
  - destruct (ascii_dec c c) as [_|N]; [exact IH | contradiction].
Qed.

Lemma createMockEvent_returns (eventData : CreateEventRequest) (w : World Call) :
  exists ev w',
    createMockEvent eventData w = (Returned ev, w')
    /\ calls w' = calls w
    /\ is_mock ev
    /\ ev_title ev = title eventData
    /\ ev_startTime ev = startTime eventData
    /\ ev_endTime ev = endTime eventData
    /\ ev_attendees ev = attendees eventData.
Proof.
  do 2 eexists. split; [reflexivity|]. split; [reflexivity|].
  split; [|repeat split].
  split; [reflexivity|]. eexists. split; [reflexivity|].
  apply prefix_append.
Qed.

Section Service.
Variable svc : CalendarService.

(** The run of [createEvent], by what the service is configured with and
    what the provider answers. *)
Lemma createEvent_cases (eventData : CreateEventRequest) (w : World Call) :
  let entered :=
    mkWorld (clock w) (readings w) (random w) (draws w)
      (calls w ++ [ServiceCreateEvent eventData]) in
  let asked :=
    mkWorld (clock w) (readings w) (random w) (draws w)
      ((calls w ++ [ServiceCreateEvent eventData])
         ++ [EventsInsert (insert_resource svc eventData)]) in
  match calendar svc, oauth2Client svc with
  | Some client, Some _ =>
      match events_insert client (calls w ++ [ServiceCreateEvent eventData])
              (insert_resource svc eventData) with
      | Returned response_data =>
          match first_truthy (g_id response_data) with
          | Some _ =>
              createEvent svc eventData w = mapToCalendarEvent response_data asked
          | None => createEvent svc eventData w = createMockEvent eventData asked
          end
      | Threw cause =>
          if instanceof_Error cause then
            if includes (message cause) "invalid_grant" then
              createEvent svc eventData w
              = (Threw (mkAppError
                          "Calendar authentication expired, please re-authenticate"
                          401 "CALENDAR_AUTH_EXPIRED"), asked)
            else if includes (message cause) "insufficient permissions" then
              createEvent svc eventData w
              = (Threw (mkAppError
                          "Insufficient permissions to create calendar events"
                          403 "CALENDAR_PERMISSIONS_ERROR"), asked)
            else if includes (message cause) "Invalid value" then
              createEvent svc eventData w
              = (Threw (mkAppError "Invalid event data provided"
                          400 "INVALID_EVENT_DATA"), asked)
            else createEvent svc eventData w = createMockEvent eventData asked
          else createEvent svc eventData w = createMockEvent eventData asked
      end
  | _, _ => createEvent svc eventData w = createMockEvent eventData entered
  end.
Proof.
  intros entered asked. unfold createEvent, bind, record, try_catch.
  destruct (calendar svc) as [client|]; [|reflexivity].
  destruct (oauth2Client svc) as [[]|]; [|reflexivity].
  unfold call. cbn [calls].
  destruct (events_insert client (calls w ++ [ServiceCreateEvent eventData])
              (insert_resource svc eventData)) as [d|cause].
  - destruct (first_truthy (g_id d)) eqn:Hid.
    + subst asked. cbn [clock readings random draws calls].
      match goal with
      | |- context [mapToCalendarEvent d ?w0] =>
          destruct (mapToCalendarEvent_returns d w0) as (ev & w' & H & _);
          rewrite H
      end.
      reflexivity.
    + reflexivity.
  - destruct (instanceof_Error cause); [|reflexivity].
    destruct (includes (message cause) "invalid_grant"); [reflexivity|].
    destruct (includes (message cause) "insufficient permissions");
      [reflexivity|].
    destruct (includes (message cause) "Invalid value"); reflexivity.
Qed.


(** X2: with a configured client, a provider failure that is not
    recognised by its message, and a provider answer without an id, are
    both masked: [createEvent] returns a mock event for the request. *)
Theorem createEvent_masks_unrecognised_failures
        (client : CalendarClient) (eventData : CreateEventRequest)
        (w : World Call) :
  calendar svc = Some client ->
  oauth2Client svc = Some tt ->
  match events_insert client (calls w ++ [ServiceCreateEvent eventData])
          (insert_resource svc eventData) with
  | Threw cause => recognised cause = false
  | Returned response_data => first_truthy (g_id response_data) = None
  end ->
  exists ev,
    fst (createEvent svc eventData w) = Returned ev
    /\ is_mock ev
    /\ ev_title ev = title eventData
    /\ ev_startTime ev = startTime eventData
    /\ ev_endTime ev = endTime eventData.
Proof.
  intros Hcal Hoa Hans.
  pose proof (createEvent_cases eventData w) as Hc. cbv zeta in Hc.
  rewrite Hcal, Hoa in Hc.
  assert (Hgoal : forall w0,
             createEvent svc eventData w = createMockEvent eventData w0 ->
             exists ev,
               fst (createEvent svc eventData w) = Returned ev
               /\ is_mock ev
               /\ ev_title ev = title eventData
               /\ ev_startTime ev = startTime eventData
               /\ ev_endTime ev = endTime eventData).
  { intros w0 E.
    destruct (createMockEvent_returns eventData w0)
      as (ev & w' & Hm & _ & Hmock & Ht & Hs & He & _).
    exists ev. rewrite E, Hm. split; [reflexivity|].
    split; [exact Hmock|]. repeat split; assumption. }
  destruct (events_insert client (calls w ++ [ServiceCreateEvent eventData])
              (insert_resource svc eventData)) as [d|cause].
  - rewrite Hans in Hc. exact (Hgoal _ Hc).
  - unfold recognised in Hans.
    destruct (instanceof_Error cause); [|exact (Hgoal _ Hc)].
    simpl in Hans. apply orb_false_elim in Hans. destruct Hans as (Hab & H3).
    apply orb_false_elim in Hab. destruct Hab as (H1 & H2).
    rewrite H1, H2, H3 in Hc. exact (Hgoal _ Hc).
Qed.

End Service.


Lemma createEvent_masks_unrecognised_failures_witness :
  (exists ev,
     fst (createEvent
            (SampleB.service (SampleB.failing_client (Error "Error" "ECONNRESET")))
            SampleB.retro Sample.world) = Returned ev
     /\ is_mock ev
     /\ ev_title ev = title SampleB.retro
     /\ ev_startTime ev = startTime SampleB.retro
     /\ ev_endTime ev = endTime SampleB.retro)
  /\ (exists ev,
        fst (createEvent (SampleB.service SampleB.blank_client)
               SampleB.retro Sample.world) = Returned ev
        /\ is_mock ev
        /\ ev_title ev = title SampleB.retro
        /\ ev_startTime ev = startTime SampleB.retro
        /\ ev_endTime ev = endTime SampleB.retro).
Proof.
  split.
  - apply (createEvent_masks_unrecognised_failures
             (SampleB.service (SampleB.failing_client (Error "Error" "ECONNRESET")))
             (SampleB.failing_client (Error "Error" "ECONNRESET"))
             SampleB.retro Sample.world); reflexivity.
  - apply (createEvent_masks_unrecognised_failures
             (SampleB.service SampleB.blank_client) SampleB.blank_client
             SampleB.retro Sample.world); reflexivity.
Defined.

End CreateEventService.

(** ** Agent B: what reaches the Calendar Gateway from a batch *)

Module GatewayBoundary.
Import AgentB Spec SpecB BatchLoop CreateEventsProps CreateEventService.

Lemma or_else_truthy (o : option string) (d : string) :
  truthy d = true -> truthy (or_else o d) = true.
Proof.
  intros Hd. unfold or_else. destruct o as [s|]; [|exact Hd].
  destruct (truthy s) eqn:Hs; [exact Hs | exact Hd].
Qed.

Lemma first_truthy_truthy (o : option string) (s : string) :
  first_truthy o = Some s -> truthy s = true.
Proof.
  unfold first_truthy. destruct o as [x|]; [|discriminate].
  destruct (truthy x) eqn:Hx; [|discriminate].
  intros H. inversion H; subst. exact Hx.
Qed.

Lemma enhanceEventData_returns (eventData : EventData) (w : World Call) :
  exists r w',
    enhanceEventData eventData w = (Returned r, w')
    /\ calls w' = calls w
    /\ enhanced_from eventData r.
Proof.
  unfold enhanceEventData, bind. cbn [Date_now].
  assert (Hstart : exists s,
             truthy s = true
             /\ (forall x, first_truthy (ed_startTime eventData) = Some x -> s = x)
             /\ forall w0 : World Call,
                 match first_truthy (ed_startTime eventData) with
                 | Some s0 => ret s0
                 | None =>
                     lift (JsDate.toISOString
                             (Some (clock w (readings w) + 60 * 60 * 1000)))
                 end w0 = (Returned s, w0)).
  { destruct (first_truthy (ed_startTime eventData)) as [s|] eqn:E.
    - exists s. split; [exact (first_truthy_truthy _ _ E)|].
      split; [intros x Hx; congruence | reflexivity].
    - eexists. split; [apply DraftProps.iso_truthy|].
      split; [discriminate | reflexivity]. }
  assert (Hend : exists s,
             truthy s = true
             /\ (forall x, first_truthy (ed_endTime eventData) = Some x -> s = x)
             /\ forall w0 : World Call,
                 match first_truthy (ed_endTime eventData) with
                 | Some s0 => ret s0
                 | None =>
                     lift (JsDate.toISOString
                             (Some (clock w (readings w) + 60 * 60 * 1000
                                    + 60 * 60 * 1000)))
                 end w0 = (Returned s, w0)).
  { destruct (first_truthy (ed_endTime eventData)) as [s|] eqn:E.
    - exists s. split; [exact (first_truthy_truthy _ _ E)|].
      split; [intros x Hx; congruence | reflexivity].
    - eexists. split; [apply DraftProps.iso_truthy|].
      split; [discriminate | reflexivity]. }
  destruct Hstart as (s1 & Ht1 & Hk1 & Hr1).
  destruct Hend as (s2 & Ht2 & Hk2 & Hr2).
  rewrite Hr1, Hr2. do 2 eexists. split; [reflexivity|].
  split; [reflexivity|]. unfold enhanced_from, populated. cbn.
  repeat split; try assumption; try discriminate.
  - apply or_else_truthy. reflexivity.
  - eexists. split; [reflexivity|].
    destruct (ed_attendees eventData) as [l|]; [|constructor].
    apply Forall_forall. intros a Ha. apply filter_In in Ha. apply Ha.
  - intros l Hl. rewrite Hl. reflexivity.
Qed.

Section Service.
Variable svc : CalendarService.

(** [createEvent] logs its request, then at most one provider call;
    without a configured client it returns a mock event and asks no
    provider. *)
Lemma createEvent_calls (r : CreateEventRequest) (w : World Call) :
  exists o w' rest,
    createEvent svc r w = (o, w')
    /\ calls w' = calls w ++ ServiceCreateEvent r :: rest
    /\ (rest = [] \/ rest = [EventsInsert (insert_resource svc r)])
    /\ (mock_mode svc ->
        rest = [] /\ exists ev, o = Returned ev /\ is_mock ev
                               /\ ev_title ev = title r).
Proof.
  pose proof (createEvent_cases svc r w) as Hc. cbv zeta in Hc.
  assert (Hmock : forall rest,
             createEvent svc r w
             = createMockEvent r
                 (mkWorld (clock w) (readings w) (random w) (draws w)
                    (calls w ++ ServiceCreateEvent r :: rest)) ->
             exists o w',
               createEvent svc r w = (o, w')
               /\ calls w' = calls w ++ ServiceCreateEvent r :: rest
               /\ exists ev, o = Returned ev /\ is_mock ev
                             /\ ev_title ev = title r).
  { intros rest E.
    destruct (createMockEvent_returns r
                (mkWorld (clock w) (readings w) (random w) (draws w)
                   (calls w ++ ServiceCreateEvent r :: rest)))
      as (ev & w' & Hm & Hcalls & Hmk & Ht & _).
    exists (Returned ev), w'. rewrite E, Hm. split; [reflexivity|].
    split; [exact Hcalls|]. exists ev.
    split; [reflexivity|]. split; assumption. }
  assert (Happ : (calls w ++ [ServiceCreateEvent r])
                   ++ [EventsInsert (insert_resource svc r)]
                 = calls w ++ ServiceCreateEvent r
                     :: [EventsInsert (insert_resource svc r)])
    by (rewrite <- app_assoc; reflexivity).
  destruct (calendar svc) as [client|] eqn:Hcal.
  - destruct (oauth2Client svc) as [u|] eqn:Hoa.
    + assert (Hnomock : ~ mock_mode svc)
        by (intros [H|H]; congruence).
      rewrite Happ in Hc.
      assert (Hvia : forall o w',
                 createEvent svc r w = (o, w') ->
                 calls w' = calls w ++ ServiceCreateEvent r
                              :: [EventsInsert (insert_resource svc r)] ->
                 exists o0 w0 rest,
                   createEvent svc r w = (o0, w0)
                   /\ calls w0 = calls w ++ ServiceCreateEvent r :: rest
                   /\ (rest = [] \/ rest = [EventsInsert (insert_resource svc r)])
                   /\ (mock_mode svc ->
                       rest = [] /\ exists ev, o0 = Returned ev /\ is_mock ev
                                              /\ ev_title ev = title r)).
      { intros o w' E Hcalls. exists o, w', [EventsInsert (insert_resource svc r)].
        split; [exact E|]. split; [exact Hcalls|].
        split; [right; reflexivity | intros Hm; contradiction]. }
      assert (Hviamock :
                createEvent svc r w
                = createMockEvent r
                    (mkWorld (clock w) (readings w) (random w) (draws w)
                       (calls w ++ ServiceCreateEvent r
                          :: [EventsInsert (insert_resource svc r)])) ->
                exists o0 w0 rest,
                  createEvent svc r w = (o0, w0)
                  /\ calls w0 = calls w ++ ServiceCreateEvent r :: rest
                  /\ (rest = [] \/ rest = [EventsInsert (insert_resource svc r)])
                  /\ (mock_mode svc ->
                      rest = [] /\ exists ev, o0 = Returned ev /\ is_mock ev
                                             /\ ev_title ev = title r)).
      { intros E. destruct (Hmock _ E) as (o & w' & E' & Hcalls & _).
        exact (Hvia o w' E' Hcalls). }
      destruct (events_insert client (calls w ++ [ServiceCreateEvent r])
                  (insert_resource svc r)) as [d|cause].
      * destruct (first_truthy (g_id d)); [|exact (Hviamock Hc)].
        match type of Hc with
        | _ = mapToCalendarEvent d ?w0 =>
            destruct (mapToCalendarEvent_returns d w0) as (ev & w' & Hm & Hcalls & _);
            rewrite Hm in Hc
        end.
        exact (Hvia _ _ Hc Hcalls).
      * destruct (instanceof_Error cause); [|exact (Hviamock Hc)].
        destruct (includes (message cause) "invalid_grant");
          [exact (Hvia _ _ Hc eq_refl)|].
        destruct (includes (message cause) "insufficient permissions");
          [exact (Hvia _ _ Hc eq_refl)|].
        destruct (includes (message cause) "Invalid value");
          [exact (Hvia _ _ Hc eq_refl) | exact (Hviamock Hc)].
    + destruct (Hmock [] Hc) as (o & w' & E & Hcalls & Hev).
      exists o, w', []. split; [exact E|]. split; [exact Hcalls|].
      split; [left; reflexivity | intros _; split; [reflexivity | exact Hev]].
  - destruct (Hmock [] Hc) as (o & w' & E & Hcalls & Hev).
    exists o, w', []. split; [exact E|]. split; [exact Hcalls|].
    split; [left; reflexivity | intros _; split; [reflexivity | exact Hev]].
Qed.

Lemma draft_outcome_calls (eventData : EventData) (w : World Call) :
  exists o w' r rest,
    draft_outcome svc eventData w = (Returned o, w')
    /\ calls w' = calls w ++ ServiceCreateEvent r :: rest
    /\ enhanced_from eventData r
    /\ (rest = [] \/ rest = [EventsInsert (insert_resource svc r)])
    /\ (mock_mode svc ->
        rest = [] /\ exists ev, o = inl ev /\ is_mock ev
                               /\ ev_title ev = title r).
Proof.
  unfold draft_outcome, try_catch, bind.
  destruct (enhanceEventData_returns eventData w) as (r & w1 & He & Hc1 & Hr).
  rewrite He.
  destruct (createEvent_calls r w1) as (o & w2 & rest & Hce & Hc2 & Hrest & Hm).
  rewrite Hce. rewrite Hc1 in Hc2.
  destruct o as [ev|e].
  - exists (inl ev), w2, r, rest. split; [reflexivity|].
    split; [exact Hc2|]. split; [exact Hr|]. split; [exact Hrest|].
    intros Hmm. destruct (Hm Hmm) as (Hnil & ev0 & E & Hmk & Ht).
    split; [exact Hnil|]. exists ev0. inversion E; subst ev0.
    split; [reflexivity|]. split; assumption.
  - eexists (inr _), w2, r, rest. split; [reflexivity|].
    split; [exact Hc2|]. split; [exact Hr|]. split; [exact Hrest|].
    intros Hmm. destruct (Hm Hmm) as (_ & ev0 & E & _). discriminate E.
Qed.

Lemma gateway_requests_step (r : CreateEventRequest) (rest new : list Call) :
  rest = [] \/ rest = [EventsInsert (insert_resource svc r)] ->
  gateway_requests ((ServiceCreateEvent r :: rest) ++ new)
  = r :: gateway_requests new
  /\ (List.length (provider_calls ((ServiceCreateEvent r :: rest) ++ new))
      <= S (List.length (provider_calls new)))%nat
  /\ (rest = [] ->
      provider_calls ((ServiceCreateEvent r :: rest) ++ new)
      = provider_calls new).
Proof.
  intros [->| ->]; simpl; repeat split; try lia; try reflexivity.
  discriminate.
Qed.

(** The loop hands every draft to the gateway once, in order and filled
    in; each draft costs at most one provider call, and none when the
    service runs on mock data, where every draft is created. *)
Lemma process_events_gateway (events : list EventData) :
  forall (cr : list CalendarEvent) (er : list ItemError) (w : World Call),
  exists outcomes w' new,
    process_events svc events cr er w
    = (Returned (cr ++ created_of outcomes, er ++ failed_of outcomes), w')
    /\ calls w' = calls w ++ new
    /\ Forall2 enhanced_from events (gateway_requests new)
    /\ (List.length (provider_calls new) <= List.length events)%nat
    /\ (mock_mode svc ->
        provider_calls new = []
        /\ failed_of outcomes = []
        /\ Forall2 (fun ed ev =>
                      is_mock ev
                      /\ ev_title ev = or_else (ed_title ed) "Untitled Event")
                   events (created_of outcomes)).
Proof.
  induction events as [|eventData rest IH]; intros cr er w.
  - exists [], w, []. simpl. rewrite !app_nil_r.
    repeat split; try constructor.
  - rewrite process_events_step.
    destruct (draft_outcome_calls eventData w)
      as (o & w1 & r & tail & Ho & Hc1 & Hr & Htail & Hm).
    rewrite Ho.
    destruct o as [c|e].
    + destruct (IH (cr ++ [c]) er w1)
        as (os & w2 & new & Hrun & Hc2 & Hall & Hlen & Hmock).
      exists (inl c :: os), w2, ((ServiceCreateEvent r :: tail) ++ new).
      destruct (gateway_requests_step r tail new Htail) as (Hg1 & Hp1 & Hp2).
      split; [rewrite Hrun; simpl; now rewrite <- app_assoc|].
      split; [rewrite Hc2, Hc1, <- app_assoc; reflexivity|].
      split; [rewrite Hg1; constructor; assumption|].
      split; [etransitivity; [exact Hp1|]; simpl; lia|].
      intros Hmm. destruct (Hm Hmm) as (Hnil & ev & E & Hmk & Ht).
      destruct (Hmock Hmm) as (Hp & Hf & Hcr).
      inversion E; subst ev.
      split; [rewrite (Hp2 Hnil); exact Hp|].
      split; [exact Hf|].
      simpl. constructor; [|exact Hcr].
      split; [exact Hmk|]. rewrite Ht. apply Hr.
    + destruct (IH cr (er ++ [e]) w1)
        as (os & w2 & new & Hrun & Hc2 & Hall & Hlen & Hmock).
      exists (inr e :: os), w2, ((ServiceCreateEvent r :: tail) ++ new).
      destruct (gateway_requests_step r tail new Htail) as (Hg1 & Hp1 & Hp2).
      split; [rewrite Hrun; simpl; now rewrite <- app_assoc|].
      split; [rewrite Hc2, Hc1, <- app_assoc; reflexivity|].
      split; [rewrite Hg1; constructor; assumption|].
      split; [etransitivity; [exact Hp1|]; simpl; lia|].
      intros Hmm. destruct (Hm Hmm) as (_ & ev & E & _). discriminate E.
Qed.

Section Handler.
Variable Body : Type.
Variable validate : Body -> string + list EventData.

Lemma createEvents_via_loop (req : Request Body) (w : World Call)
      (events : list EventData) :
  validate (body req) = inr events ->
  events <> [] ->
  In "calendar.write" (granted_scopes (user req)) ->
  exists outcomes new st errors ts w',
    route (createEvents validate svc req) w
    = (Returned (mkResponse st true
                   (Some (DataBatch (created_of outcomes) (List.length events)
                            (List.length (created_of outcomes)) errors))
                   None ts), w')
    /\ calls w' = calls w ++ new
    /\ Forall2 enhanced_from events (gateway_requests new)
    /\ (List.length (provider_calls new) <= List.length events)%nat
    /\ (mock_mode svc ->
        st = 200 /\ errors = None
        /\ provider_calls new = []
        /\ List.length (created_of outcomes) = List.length events
        /\ Forall2 (fun ed ev =>
                      is_mock ev
                      /\ ev_title ev = or_else (ed_title ed) "Untitled Event")
                   events (created_of outcomes)).
Proof.
  intros Hv Hne Hs. apply has_scope_granted in Hs.
  destruct (process_events_gateway events [] [] w)
    as (outcomes & w1 & new & Hloop & Hc & Hall & Hlen & Hmock).
  simpl in Hloop.
  destruct (createEvents_batch_run Body validate svc req w events Hv Hne Hs)
    as (outcomes' & w1' & _ & Hloop' & Hrun).
  rewrite Hloop in Hloop'. inversion Hloop' as [[Hcre Hfail Hw]].
  rewrite <- Hcre, <- Hfail, <- Hw in Hrun.
  exists outcomes, new. do 4 eexists.
  split; [apply route_sent; exact Hrun|].
  split; [exact Hc|]. split; [exact Hall|]. split; [exact Hlen|].
  intros Hmm. destruct (Hmock Hmm) as (Hp & Hf & Hcr).
  rewrite Hf. simpl. repeat split; try assumption.
  symmetry. eapply Forall2_length. exact Hcr.
Qed.

(** X3: without a configured calendar client, a batch that passes the
    scope check is answered 200 with every draft created, in order, as a
    mock event (id starting with "mock_", status confirmed, the draft's
    title or "Untitled Event"), with no [errors] member, and without a
    call to the provider. *)
Theorem create_events_mock_mode_creates_all
        (req : Request Body) (w : World Call) (events : list EventData) :
  mock_mode svc ->
  validate (body req) = inr events ->
  events <> [] ->
  In "calendar.write" (granted_scopes (user req)) ->
  exists created ts w',
    route (createEvents validate svc req) w
    = (Returned (mkResponse 200 true
                   (Some (DataBatch created (List.length events)
                            (List.length events) None))
                   None ts), w')
    /\ Forall2 (fun ed ev =>
                  is_mock ev
                  /\ ev_title ev = or_else (ed_title ed) "Untitled Event")
               events created
    /\ provider_calls (calls w') = provider_calls (calls w).
Proof.
  intros Hmm Hv Hne Hs.
  destruct (createEvents_via_loop req w events Hv Hne Hs)
    as (outcomes & new & st & errors & ts & w' & Hrun & Hc & _ & _ & Hmock).
  destruct (Hmock Hmm) as (-> & -> & Hp & Hlen & Hcr).
  rewrite Hlen in Hrun. exists (created_of outcomes), ts, w'.
  split; [exact Hrun|]. split; [exact Hcr|].
  rewrite Hc. unfold provider_calls. rewrite filter_app.
  fold (provider_calls new). rewrite Hp. apply app_nil_r.
Qed.


End Handler.
End Service.

Lemma create_events_mock_mode_creates_all_witness :
  exists created ts w',
    route (createEvents Sample.accept Sample.unconfigured
             (Sample.request [SampleB.bare_draft; Sample.draft "retro"]
                Sample.writer)) Sample.world
    = (Returned (mkResponse 200 true
                   (Some (DataBatch created 2 2 None)) None ts), w')
    /\ Forall2 (fun ed ev =>
                  is_mock ev
                  /\ ev_title ev = or_else (ed_title ed) "Untitled Event")
               [SampleB.bare_draft; Sample.draft "retro"] created
    /\ provider_calls (calls w') = provider_calls (calls (@Sample.world Call)).
Proof.
  apply (create_events_mock_mode_creates_all Sample.unconfigured _ Sample.accept
           (Sample.request [SampleB.bare_draft; Sample.draft "retro"]
              Sample.writer)
           Sample.world [SampleB.bare_draft; Sample.draft "retro"]).
  - left. reflexivity.
  - reflexivity.
  - discriminate.
  - simpl. left. reflexivity.
Defined.


End GatewayBoundary.

(** ** The mapping from the provider's events *)

Module MappingProps.
Import AgentB Spec SpecB GatewayBoundary.

Lemma mapToCalendarEvent_any {Call : Type} (g : SchemaEvent) (w : World Call) :
  exists ev w',
    CalendarMapping.mapToCalendarEvent g w = (Returned ev, w')
    /\ calls w' = calls w
    /\ ev_id ev = g_id g
    /\ truthy (ev_title ev) = true
    /\ truthy (ev_status ev) = true
    /\ truthy (ev_startTime ev) = true
    /\ truthy (ev_endTime ev) = true
    /\ (forall l, ev_attendees ev = Some l -> Forall (fun a => truthy a = true) l)
    /\ (forall s, first_truthy (g_summary g) = Some s -> ev_title ev = s)
    /\ (forall x s, g_start g = Some x ->
                    first_truthy (dateTime x) = Some s -> ev_startTime ev = s)
    /\ (forall x s, g_start g = Some x ->
                    first_truthy (dateTime x) = None ->
                    first_truthy (date x) = Some s -> ev_startTime ev = s).
Proof.
  assert (Htime : forall edt (w0 : World Call),
             exists s w1,
               CalendarMapping.event_time edt w0 = (Returned s, w1)
               /\ calls w1 = calls w0
               /\ truthy s = true
               /\ (forall x v, edt = Some x ->
                               first_truthy (dateTime x) = Some v -> s = v)
               /\ (forall x v, edt = Some x ->
                               first_truthy (dateTime x) = None ->
                               first_truthy (date x) = Some v -> s = v)).
  { intros edt w0. unfold CalendarMapping.event_time. destruct edt as [x|].
    - destruct (first_truthy (dateTime x)) as [a|] eqn:Ha.
      + exists a, w0. split; [reflexivity|]. split; [reflexivity|].
        split; [exact (first_truthy_truthy _ _ Ha)|].
        split; intros y v Hy; inversion Hy; subst y; congruence.
      + destruct (first_truthy (date x)) as [b|] eqn:Hb.
        * exists b, w0. split; [reflexivity|]. split; [reflexivity|].
          split; [exact (first_truthy_truthy _ _ Hb)|].
          split; intros y v Hy; inversion Hy; subst y; congruence.
        * do 2 eexists. split; [reflexivity|]. split; [reflexivity|].
          split; [apply DraftProps.iso_truthy|].
          split; intros y v Hy; inversion Hy; subst y; congruence.
    - do 2 eexists. split; [reflexivity|]. split; [reflexivity|].
      split; [apply DraftProps.iso_truthy|]. split; discriminate. }
  unfold CalendarMapping.mapToCalendarEvent, bind.
  destruct (Htime (g_start g) w) as (s & w1 & Hs & Hc1 & Hst & Hs1 & Hs2).
  rewrite Hs.
  destruct (Htime (g_end g) w1) as (e & w2 & He & Hc2 & Het & _). rewrite He.
  do 2 eexists. split; [reflexivity|]. cbn.
  split; [congruence|]. split; [reflexivity|]. split; [apply or_else_truthy; reflexivity|].
  split; [apply or_else_truthy; reflexivity|].
  split; [exact Hst|]. split; [exact Het|]. split; [|split; [|split]].
  - intros l Hl. destruct (g_attendees g) as [as_|]; [|discriminate Hl].
    inversion Hl; subst l. clear Hl. induction as_ as [|a rest IH]; simpl.
    + constructor.
    + apply Forall_app. split; [|exact IH].
      destruct (first_truthy a) as [v|] eqn:Hv; [|constructor].
      constructor; [exact (first_truthy_truthy _ _ Hv) | constructor].
  - intros v Hv. unfold first_truthy in Hv. unfold or_else.
    destruct (g_summary g) as [x|]; [|discriminate Hv].
    destruct (truthy x); [congruence | discriminate Hv].
  - exact Hs1.
  - exact Hs2.
Qed.


(** X5: an event mapped from the provider's form always has a title, a
    status, a start and an end that are not empty, and only attendees
    that are not empty; the title is the summary when there is one, and
    the start is [dateTime] when there is one, else [date] when there is
    one. *)
Theorem mapToCalendarEvent_fills_in (g : SchemaEvent) (w : World Call) :
  exists ev w',
    mapToCalendarEvent g w = (Returned ev, w')
    /\ ev_id ev = g_id g
    /\ truthy (ev_title ev) = true
    /\ truthy (ev_status ev) = true
    /\ truthy (ev_startTime ev) = true
    /\ truthy (ev_endTime ev) = true
    /\ (forall l, ev_attendees ev = Some l -> Forall (fun a => truthy a = true) l)
    /\ (forall s, first_truthy (g_summary g) = Some s -> ev_title ev = s)
    /\ (forall x s, g_start g = Some x ->
                    first_truthy (dateTime x) = Some s -> ev_startTime ev = s)
    /\ (forall x s, g_start g = Some x ->
                    first_truthy (dateTime x) = None ->
                    first_truthy (date x) = Some s -> ev_startTime ev = s).
Proof.
  destruct (mapToCalendarEvent_any g w) as (ev & w' & Hrun & _ & Hrest).
  exists ev, w'. split; [exact Hrun | exact Hrest].
Qed.

Lemma getMockEvent_any {Call : Type} (eventId : string) (w : World Call) :
  exists ev w',
    CalendarMapping.getMockEvent eventId w = (Returned ev, w')
    /\ calls w' = calls w
    /\ ev_id ev = Some eventId
    /\ ev_title ev = ("Mock Event: " ++ eventId)%string
    /\ ev_status ev = "confirmed"%string
    /\ ev_startTime ev
       = JsDate.iso (clock w (readings w) + 24 * 60 * 60 * 1000)
    /\ ev_endTime ev
       = JsDate.iso (clock w (readings w) + 24 * 60 * 60 * 1000
                    + 60 * 60 * 1000)
    /\ ev_attendees ev = None
    /\ ev_location ev = None.
Proof.
  do 2 eexists. split; [reflexivity|]. repeat split.
Qed.

End MappingProps.

(** ** Agent B: reading and deleting one event, the remaining paths *)

Module SingleEventPaths.
Import AgentB Spec SpecB CreateEventsProps CreateEventService GatewayBoundary
       SingleEventProps.

Section Service.
Variable svc : CalendarService.

(** The run of [getEvent] with a configured client, by what the provider
    answers. *)
Lemma getEvent_cases (client : CalendarClient) (eventId : string)
      (w : World Call) :
  calendar svc = Some client ->
  oauth2Client svc = Some tt ->
  let asked :=
    mkWorld (clock w) (readings w) (random w) (draws w)
      ((calls w ++ [ServiceGetEvent eventId]) ++ [EventsGet eventId]) in
  getEvent svc eventId w
  = match events_get client (calls w ++ [ServiceGetEvent eventId]) eventId with
    | Returned None => (Returned None, asked)
    | Returned (Some d) =>
        match mapToCalendarEvent d asked with
        | (Returned ev, w') => (Returned (Some ev), w')
        | (Threw e, w') => (Threw e, w')
        end
    | Threw cause =>
        if instanceof_Error cause && includes (message cause) "Not Found"
        then (Returned None, asked)
        else match getMockEvent eventId asked with
             | (Returned ev, w') => (Returned (Some ev), w')
             | (Threw e, w') => (Threw e, w')
             end
    end.
Proof.
  intros Hcal Hoa asked. unfold getEvent, bind, record, try_catch, call.
  rewrite Hcal, Hoa. cbn [calls clock readings random draws].
  destruct (events_get client (calls w ++ [ServiceGetEvent eventId]) eventId)
    as [[d|]|cause].
  - fold asked.
    destruct (mapToCalendarEvent_returns d asked) as (ev & w' & H & _).
    rewrite H. reflexivity.
  - reflexivity.
  - destruct (instanceof_Error cause && includes (message cause) "Not Found");
      reflexivity.
Qed.

Section Controller.
Variable Body : Type.

(** X6: with a configured client, [getEvent] answers a provider error
    whose message contains "Not Found", and an empty provider answer,
    with [null], which the controller turns into 404 EVENT_NOT_FOUND;
    any other provider error is masked by the mock event for the
    requested id, answered 200. *)
Theorem get_event_provider_paths
        (client : CalendarClient) (req : Request Body)
        (eventId : string) (w : World Call) :
  calendar svc = Some client ->
  oauth2Client svc = Some tt ->
  first_truthy (param_eventId req) = Some eventId ->
  In "calendar.read" (granted_scopes (user req)) ->
  match events_get client (calls w ++ [ServiceGetEvent eventId]) eventId with
  | Returned (Some d) =>
      exists ev ts,
        fst (route (getEventController svc req) w)
        = Returned (mkResponse 200 true (Some (DataEvent ev)) None ts)
        /\ ev_id ev = g_id d
  | Returned None =>
      exists ts,
        fst (route (getEventController svc req) w)
        = Returned
            (mkResponse 404 false None
               (Some (mkErrorBody "Event not found" "EVENT_NOT_FOUND" None)) ts)
  | Threw cause =>
      if instanceof_Error cause && includes (message cause) "Not Found"
      then
        exists ts,
          fst (route (getEventController svc req) w)
          = Returned
              (mkResponse 404 false None
                 (Some (mkErrorBody "Event not found" "EVENT_NOT_FOUND" None))
                 ts)
      else
        exists ev ts,
          fst (route (getEventController svc req) w)
          = Returned (mkResponse 200 true (Some (DataEvent ev)) None ts)
          /\ ev_id ev = Some eventId
          /\ ev_title ev = ("Mock Event: " ++ eventId)%string
  end.
Proof.
  intros Hcal Hoa Hid Hs. apply has_scope_granted in Hs.
  pose proof (getEventController_run svc Body req eventId w Hid Hs) as Hctl.
  pose proof (getEvent_cases client eventId w Hcal Hoa) as Hget.
  cbv zeta in Hget. rewrite Hget in Hctl. clear Hget.
  destruct (events_get client (calls w ++ [ServiceGetEvent eventId]) eventId)
    as [[d|]|cause].
  - match type of Hctl with
    | context [mapToCalendarEvent d ?w0] =>
        destruct (mapToCalendarEvent_returns d w0) as (ev & w' & H & _ & Hev);
        rewrite H in Hctl
    end.
    exists ev. eexists. rewrite (route_sent Hctl). split; [reflexivity | exact Hev].
  - eexists. rewrite (route_app_error Hctl). reflexivity.
  - destruct (instanceof_Error cause && includes (message cause) "Not Found").
    + eexists. rewrite (route_app_error Hctl). reflexivity.
    + do 2 eexists. rewrite (route_sent Hctl).
      split; [reflexivity|]. split; reflexivity.
Qed.

(** X7: with a configured client whose deletion succeeds, [deleteEvent]
    returns [true] after exactly one provider call, for that id, and the
    controller answers 200 with [{ deleted: true, eventId }]. *)
Theorem delete_event_success
        (client : CalendarClient) (req : Request Body)
        (eventId : string) (w : World Call) :
  calendar svc = Some client ->
  oauth2Client svc = Some tt ->
  first_truthy (param_eventId req) = Some eventId ->
  In "calendar.write" (granted_scopes (user req)) ->
  events_delete client (calls w ++ [ServiceDeleteEvent eventId]) eventId
  = Returned tt ->
  exists ts w',
    route (deleteEventController svc req) w
    = (Returned (mkResponse 200 true (Some (DataDeleted true eventId)) None ts),
       w')
    /\ calls w' = calls w ++ [ServiceDeleteEvent eventId; EventsDelete eventId].
Proof.
  intros Hcal Hoa Hid Hs Hdel. apply has_scope_granted in Hs.
  pose proof (deleteEventController_run svc Body req eventId w Hid Hs) as Hctl.
  unfold deleteEvent, bind, record, try_catch, call in Hctl.
  rewrite Hcal, Hoa in Hctl. cbn [calls clock readings random draws] in Hctl.
  rewrite Hdel in Hctl. cbn [ret] in Hctl.
  do 2 eexists. split; [apply route_sent; exact Hctl|].
  cbn [calls]. rewrite <- app_assoc. reflexivity.
Qed.


End Controller.
End Service.

Lemma get_event_provider_paths_witness :
  (exists ts,
     fst (route (getEventController
                   (SampleB.service (SampleB.failing_client
                                       (Error "Error" "404 Not Found")))
                   (Sample.request [] Sample.reader)) Sample.world)
     = Returned
         (mkResponse 404 false None
            (Some (mkErrorBody "Event not found" "EVENT_NOT_FOUND" None)) ts))
  /\ (exists ev ts,
        fst (route (getEventController
                      (SampleB.service (SampleB.failing_client
                                          (Error "Error" "ETIMEDOUT")))
                      (Sample.request [] Sample.reader)) Sample.world)
        = Returned (mkResponse 200 true (Some (DataEvent ev)) None ts)
        /\ ev_id ev = Some "evt_1"%string
        /\ ev_title ev = "Mock Event: evt_1"%string)
  /\ (exists ev ts,
        fst (route (getEventController (SampleB.service SampleB.full_client)
                      (Sample.request [] Sample.reader)) Sample.world)
        = Returned (mkResponse 200 true (Some (DataEvent ev)) None ts)
        /\ ev_id ev = g_id (SampleB.stored "evt_1")).
Proof.
  split; [|split].
  - apply (get_event_provider_paths
             (SampleB.service (SampleB.failing_client
                                 (Error "Error" "404 Not Found"))) _
             (SampleB.failing_client (Error "Error" "404 Not Found"))
             (Sample.request [] Sample.reader) "evt_1" Sample.world);
      try reflexivity.
    simpl. left. reflexivity.
  - apply (get_event_provider_paths
             (SampleB.service (SampleB.failing_client
                                 (Error "Error" "ETIMEDOUT"))) _
             (SampleB.failing_client (Error "Error" "ETIMEDOUT"))
             (Sample.request [] Sample.reader) "evt_1" Sample.world);
      try reflexivity.
    simpl. left. reflexivity.
  - apply (get_event_provider_paths (SampleB.service SampleB.full_client) _
             SampleB.full_client (Sample.request [] Sample.reader) "evt_1"
             Sample.world); try reflexivity.
    simpl. left. reflexivity.
Defined.

Lemma delete_event_success_witness :
  exists ts w',
    route (deleteEventController (SampleB.service SampleB.full_client)
             (Sample.request [] Sample.writer)) Sample.world
    = (Returned (mkResponse 200 true (Some (DataDeleted true "evt_1")) None ts),
       w')
    /\ calls w' = calls (@Sample.world Call)
                    ++ [ServiceDeleteEvent "evt_1"; EventsDelete "evt_1"].
Proof.
  apply (delete_event_success (SampleB.service SampleB.full_client) _
           SampleB.full_client (Sample.request [] Sample.writer) "evt_1"
           Sample.world); try reflexivity.
  simpl. left. reflexivity.
Defined.


End SingleEventPaths.

(** ** Agent B: listing events *)

Module ListProps.
Import AgentB AgentBRest SpecRest MappingProps GatewayBoundary CreateEventsProps.

(** [mapM] over a function that always returns and calls nothing. *)
Lemma mapM_returns {A B : Type} (f : A -> M B) (P : A -> B -> Prop) :
  (forall x w, exists y w', f x w = (Returned y, w')
                            /\ calls w' = calls w /\ P x y) ->
  forall l w, exists ys w',
    mapM f l w = (Returned ys, w') /\ calls w' = calls w /\ Forall2 P l ys.
Proof.
  intros Hf l. induction l as [|x rest IH]; intros w.
  - exists [], w. repeat split. constructor.
  - destruct (Hf x w) as (y & w1 & Hy & Hc1 & Hp).
    destruct (IH w1) as (ys & w2 & Hys & Hc2 & Hall).
    exists (y :: ys), w2. simpl. unfold bind. rewrite Hy, Hys.
    split; [reflexivity|]. split; [congruence | constructor; assumption].
Qed.

Lemma mock_event_at_returns (now : Z) (i : nat) (w : World Call) :
  exists ev w',
    mock_event_at now i w = (Returned ev, w')
    /\ calls w' = calls w
    /\ (mock_listed now i ev /\ listable ev).
Proof.
  do 2 eexists. split; [reflexivity|]. split; [reflexivity|].
  split.
  - unfold mock_listed, day. repeat split; try reflexivity;
      cbn [ev_startTime ev_endTime]; f_equal; lia.
  - split; [reflexivity|]. eexists. split; reflexivity.
Qed.

(** X9: [getMockEvents] returns [min(maxResults, 5)] events, none for a
    bound that is not positive; the [i]-th has the id [mock_event_<i+1>],
    starts [i+1] days after the one reading of the clock and ends one
    hour after it starts. *)
Theorem getMockEvents_lists (maxResults : Z) (w : World Call) :
  exists events w',
    getMockEvents maxResults w = (Returned events, w')
    /\ calls w' = calls w
    /\ List.length events = Z.to_nat (Z.min maxResults 5)
    /\ Forall2 (mock_listed (clock w (readings w)))
               (seq 0 (Z.to_nat (Z.min maxResults 5))) events
    /\ Forall listable events.
Proof.
  unfold getMockEvents, bind. cbn [Date_now].
  match goal with
  | |- context [mapM ?f ?l ?w0] =>
      destruct (mapM_returns f
                  (fun i ev => mock_listed (clock w (readings w)) i ev
                               /\ listable ev)
                  (mock_event_at_returns (clock w (readings w))) l w0)
        as (events & w' & Hrun & Hc & Hall)
  end.
  rewrite Hrun. exists events, w'. split; [reflexivity|].
  split; [exact Hc|]. split.
  - rewrite <- (Forall2_length Hall). apply length_seq.
  - split.
    + eapply Forall2_impl; [|exact Hall]. intros i ev H. apply H.
    + clear Hrun. induction Hall; constructor; [apply H | assumption].
Qed.

Section Service.
Variable svc : CalendarService.

(** X10: [listUpcomingEvents] never throws: whatever the provider does,
    it returns a list, and every event of the list has an id and a title
    that are not empty; without a configured client, and when the
    provider throws, the list is the mock list. *)
Theorem listUpcomingEvents_always_lists
        (maxResults : Z) (timeMin : option string) (w : World Call) :
  exists events w',
    listUpcomingEvents svc maxResults timeMin w = (Returned events, w')
    /\ Forall listable events
    /\ (mock_mode svc ->
        List.length events = Z.to_nat (Z.min maxResults 5)
        /\ provider_calls (calls w') = provider_calls (calls w))
    /\ (forall client from,
          calendar svc = Some client ->
          oauth2Client svc = Some tt ->
          from = match first_truthy timeMin with
                 | Some t => t
                 | None => JsDate.iso (clock w (readings w))
                 end ->
          (forall cause,
              events_list client
                (calls w ++ [ServiceListUpcomingEvents maxResults timeMin])
                from maxResults = Threw cause ->
              List.length events = Z.to_nat (Z.min maxResults 5))
          /\ (forall items,
                 events_list client
                   (calls w ++ [ServiceListUpcomingEvents maxResults timeMin])
                   from maxResults = Returned items ->
                 (List.length events
                  <= List.length match items with Some l => l | None => [] end)%nat)).
Proof.
  unfold listUpcomingEvents, bind, record, try_catch.
  set (entered := mkWorld (clock w) (readings w) (random w) (draws w)
                    (calls w ++ [ServiceListUpcomingEvents maxResults timeMin])).
  assert (Hmock : forall w0 : World Call,
             exists events w',
               getMockEvents maxResults w0 = (Returned events, w')
               /\ calls w' = calls w0
               /\ Forall listable events
               /\ List.length events = Z.to_nat (Z.min maxResults 5)).
  { intros w0. destruct (getMockEvents_lists maxResults w0)
      as (events & w' & H & Hc & Hl & _ & Hf).
    exists events, w'. repeat split; assumption. }
  assert (Hlog : provider_calls (calls entered) = provider_calls (calls w)).
  { unfold entered, provider_calls. cbn [calls]. rewrite filter_app.
    simpl. apply app_nil_r. }
  destruct (calendar svc) as [client|] eqn:Hcal.
  - destruct (oauth2Client svc) as [[]|] eqn:Hoa.
    + assert (Hnm : ~ mock_mode svc) by (intros [H|H]; congruence).
      set (from := match first_truthy timeMin with
                   | Some t => t
                   | None => JsDate.iso (clock w (readings w))
                   end).
      assert (Hfrom : exists w1 : World Call,
                 match first_truthy timeMin with
                 | Some t => ret t
                 | None => now_iso
                 end entered = (Returned from, w1)
                 /\ calls w1 = calls entered).
      { unfold from. destruct (first_truthy timeMin);
          eexists; split; reflexivity. }
      destruct Hfrom as (w1 & Hf & Hc1). rewrite Hf.
      unfold call. rewrite Hc1. cbn [calls entered].
      destruct (events_list client
                  (calls w ++ [ServiceListUpcomingEvents maxResults timeMin])
                  from maxResults) as [items|cause] eqn:Hlist.
      * match goal with
        | |- context [mapM CalendarMapping.mapToCalendarEvent ?l ?w0] =>
            destruct (mapM_returns CalendarMapping.mapToCalendarEvent
                        (fun g ev =>
                           ev_id ev = g_id g
                           /\ truthy (ev_title ev) = true)
                        (fun g w2 =>
                           match mapToCalendarEvent_any g w2 with
                           | ex_intro _ ev (ex_intro _ w3 (conj H1 (conj H2 (conj H3 (conj H4 _))))) =>
                               ex_intro _ ev (ex_intro _ w3
                                 (conj H1 (conj H2 (conj H3 H4))))
                           end) l w0)
              as (events & w' & Hrun & Hc & Hall)
        end.
        rewrite Hrun. exists events, w'. split; [reflexivity|]. split.
        -- clear Hrun.
           match type of Hall with
           | Forall2 _ ?l _ =>
               assert (Hfil : Forall (fun g => exists id,
                                         g_id g = Some id /\ truthy id = true) l)
           end.
           { apply Forall_forall. intros g Hg. apply filter_In in Hg.
             destruct Hg as (_ & Hg).
             destruct (first_truthy (g_id g)) as [id|] eqn:Hid;
               [|discriminate Hg].
             exists id. split; [|exact (first_truthy_truthy _ _ Hid)].
             unfold first_truthy in Hid. destruct (g_id g) as [x|];
               [|discriminate Hid].
             destruct (truthy x); [congruence | discriminate Hid]. }
           induction Hall as [|g ev gs evs Hge Hrest IH]; [constructor|].
           inversion Hfil; subst. constructor; [|apply IH; assumption].
           destruct Hge as (Hid & Ht). destruct H1 as (id & Hg & Hti).
           split; [exact Ht|]. exists id. split; [congruence | exact Hti].
        -- split; [intros Hm; contradiction|].
           intros client0 from0 Hc0 _ Hfrom0. inversion Hc0; subst client0.
           fold from in Hfrom0. subst from0. rewrite Hlist. split.
           ++ intros cause Hcause. discriminate Hcause.
           ++ intros items0 Hitems. inversion Hitems; subst items0.
              rewrite <- (Forall2_length Hall). apply filter_length_le.
      * match goal with
        | |- context [getMockEvents maxResults ?w0] =>
            destruct (Hmock w0) as (events & w' & Hrun & Hc & Hf' & Hl)
        end.
        rewrite Hrun. exists events, w'. split; [reflexivity|].
        split; [exact Hf'|]. split; [intros Hm; contradiction|].
        intros client0 from0 Hc0 _ Hfrom0. inversion Hc0; subst client0.
        fold from in Hfrom0. subst from0. rewrite Hlist. split.
        -- intros _ _. exact Hl.
        -- intros items0 Hitems. discriminate Hitems.
    + destruct (Hmock entered) as (events & w' & Hrun & Hc & Hf & Hl).
      rewrite Hrun. exists events, w'. split; [reflexivity|].
      split; [exact Hf|]. split.
      * intros _. split; [exact Hl|]. rewrite Hc. exact Hlog.
      * intros client0 from0 _ Hoa0. discriminate Hoa0.
  - destruct (Hmock entered) as (events & w' & Hrun & Hc & Hf & Hl).
    rewrite Hrun. exists events, w'. split; [reflexivity|].
    split; [exact Hf|]. split.
    + intros _. split; [exact Hl|]. rewrite Hc. exact Hlog.
    + intros client0 from0 Hc0. discriminate Hc0.
Qed.

Section Controller.
Variable parseInt : string -> option Z.

Lemma requested_maxResults_bound (req : Request) :
  requested_maxResults parseInt req <= 50
  /\ requested_maxResults parseInt req <> 0
  /\ (match q_maxResults req with
      | Some s => parseInt s = None \/ parseInt s = Some 0
      | None => True
      end -> requested_maxResults parseInt req = 10)
  /\ (forall s n, q_maxResults req = Some s -> parseInt s = Some n ->
                  n <> 0 -> requested_maxResults parseInt req = Z.min n 50).
Proof.
  unfold requested_maxResults. split; [apply Z.le_min_r|]. split; [|split].
  - destruct (q_maxResults req) as [s|]; [|discriminate].
    destruct (parseInt s) as [n|]; [|discriminate].
    destruct (n =? 0) eqn:E; [discriminate|]. apply Z.eqb_neq in E. lia.
  - destruct (q_maxResults req) as [s|]; [|reflexivity].
    intros [H|H]; rewrite H; reflexivity.
  - intros s n Hq Hp Hn. rewrite Hq, Hp.
    apply Z.eqb_neq in Hn. rewrite Hn. reflexivity.
Qed.

(** X11: [listEvents] without the scope "calendar.read" is answered 403
    INSUFFICIENT_SCOPE and calls nothing; with it the answer is always
    200, [count] is the number of events returned, every event has an id
    and a title, and [maxResults] is at most 50, is 10 when the query
    has no number or has 0, and is the number capped at 50 otherwise. *)
Theorem list_events_answers (req : Request) (w : World Call) :
  (~ In "calendar.read" (granted_scopes (user req)) ->
   exists ts w',
     route (listEvents parseInt svc req) w
     = (Returned
          (mkResponse 403 false None
             (Some (mkErrorBody
                      "Insufficient permissions for calendar read operations"
                      "INSUFFICIENT_SCOPE" None)) ts), w')
     /\ calls w' = calls w)
  /\ (In "calendar.read" (granted_scopes (user req)) ->
      exists events ts w',
        route (listEvents parseInt svc req) w
        = (Returned
             (mkResponse 200 true
                (Some (DataEvents events (List.length events)
                         (requested_maxResults parseInt req))) None ts), w')
        /\ Forall listable events
        /\ requested_maxResults parseInt req <= 50
        /\ (match q_maxResults req with
            | Some s => parseInt s = None \/ parseInt s = Some 0
            | None => True
            end -> requested_maxResults parseInt req = 10)
        /\ (forall s n, q_maxResults req = Some s -> parseInt s = Some n ->
                        n <> 0 ->
                        requested_maxResults parseInt req = Z.min n 50)
        /\ (mock_mode svc ->
            List.length events
            = Z.to_nat (Z.min (requested_maxResults parseInt req) 5))).
Proof.
  split.
  - intros Hs. apply has_scope_missing in Hs. do 2 eexists. split.
    + eapply route_app_error. unfold listEvents, try_catch. rewrite Hs.
      reflexivity.
    + reflexivity.
  - intros Hs. apply has_scope_granted in Hs.
    destruct (listUpcomingEvents_always_lists
                (requested_maxResults parseInt req) (q_timeMin req) w)
      as (events & w1 & Hrun & Hall & Hmock & _).
    destruct (requested_maxResults_bound req) as (Hb & _ & Hd & Hn).
    exists events. do 2 eexists. split.
    + apply route_sent. unfold listEvents, try_catch, bind. rewrite Hs.
      cbn [negb]. rewrite Hrun. reflexivity.
    + split; [exact Hall|]. split; [exact Hb|]. split; [exact Hd|].
      split; [exact Hn|]. intros Hm. apply (Hmock Hm).
Qed.

End Controller.
End Service.

Lemma list_events_answers_witness :
  (exists ts w',
     route (listEvents SampleRest.parseInt SampleRest.unconfigured
              (SampleRest.request (Some "3"%string) Sample.writer))
           SampleRest.world
     = (Returned
          (mkResponse 403 false None
             (Some (mkErrorBody
                      "Insufficient permissions for calendar read operations"
                      "INSUFFICIENT_SCOPE" None)) ts), w')
     /\ calls w' = calls SampleRest.world)
  /\ (exists events ts w',
        route (listEvents SampleRest.parseInt SampleRest.unconfigured
                 (SampleRest.request (Some "500"%string) Sample.reader))
              SampleRest.world
        = (Returned
             (mkResponse 200 true
                (Some (DataEvents events (List.length events) 50)) None ts), w')
        /\ List.length events = 5%nat).
Proof.
  split.
  - destruct (list_events_answers SampleRest.unconfigured SampleRest.parseInt
                (SampleRest.request (Some "3"%string) Sample.writer)
                SampleRest.world) as (Hdenied & _).
    apply Hdenied. simpl. intros [H|[]]; discriminate H.
  - destruct (list_events_answers SampleRest.unconfigured SampleRest.parseInt
                (SampleRest.request (Some "500"%string) Sample.reader)
                SampleRest.world) as (_ & Hlisted).
    destruct Hlisted as (events & ts & w' & Hrun & _ & _ & _ & _ & Hmock).
    { simpl. left. reflexivity. }
    exists events, ts, w'. split; [exact Hrun|].
    apply Hmock. left. reflexivity.
Defined.

Lemma listUpcomingEvents_always_lists_witness :
  exists events w',
    listUpcomingEvents
      (SampleRest.service
         (SampleRest.full_client
            [SampleB.stored "evt_1"; Sample.inserted (SampleB.stored "")]))
      10 None SampleRest.world = (Returned events, w')
    /\ Forall listable events.
Proof.
  destruct (listUpcomingEvents_always_lists
              (SampleRest.service
                 (SampleRest.full_client
                    [SampleB.stored "evt_1"; Sample.inserted (SampleB.stored "")]))
              10 None SampleRest.world) as (events & w' & Hrun & Hall & _).
  exists events, w'. split; assumption.
Defined.

End ListProps.

(** ** Agent B: updating one event *)

Module UpdateProps.
Import AgentB AgentBRest SpecRest MappingProps GatewayBoundary CreateEventsProps.

Lemma updateMockEvent_returns (eventId : string) (updateData : EventData)
      (w : World Call) :
  exists ev w',
    updateMockEvent eventId updateData w = (Returned ev, w')
    /\ calls w' = calls w
    /\ ev_id ev = Some eventId
    /\ ev_status ev = "confirmed"%string
    /\ ev_title ev
       = or_else (ed_title updateData) ("Mock Event: " ++ eventId)%string
    /\ ev_startTime ev
       = or_else (ed_startTime updateData)
           (JsDate.iso (clock w (readings w) + 24 * 60 * 60 * 1000))
    /\ ev_endTime ev
       = or_else (ed_endTime updateData)
           (JsDate.iso (clock w (readings w) + 24 * 60 * 60 * 1000
                        + 60 * 60 * 1000))
    /\ ev_attendees ev = ed_attendees updateData
    /\ ev_location ev = first_truthy (ed_location updateData).
Proof.
  do 2 eexists. split; [reflexivity|]. cbn. repeat split.
  - destruct (ed_attendees updateData); reflexivity.
  - destruct (first_truthy (ed_location updateData)); reflexivity.
Qed.

(** X12: the resource [updateEvent] sends to the provider keeps the id,
    link, status, reminders and source of the stored event; an update
    without any property sends the stored event back unchanged, and
    applying the same update twice changes nothing more. *)
Theorem update_resource_merges (existing : SchemaEvent) (updateData : EventData) :
  g_id (update_resource existing updateData) = g_id existing
  /\ g_htmlLink (update_resource existing updateData) = g_htmlLink existing
  /\ g_status (update_resource existing updateData) = g_status existing
  /\ g_reminders (update_resource existing updateData) = g_reminders existing
  /\ g_source (update_resource existing updateData) = g_source existing
  /\ update_resource existing no_change = existing
  /\ update_resource (update_resource existing updateData) updateData
     = update_resource existing updateData.
Proof.
  repeat split.
  - destruct existing; reflexivity.
  - unfold update_resource. cbn.
    destruct (ed_title updateData), (ed_description updateData),
      (ed_location updateData), (first_truthy (ed_startTime updateData)),
      (first_truthy (ed_endTime updateData)), (ed_attendees updateData);
      reflexivity.
Qed.

Section Service.
Variable svc : CalendarService.

(** What the [catch] of [updateEvent] makes of an error. *)
Lemma update_catch (eventId : string) (updateData : EventData)
      (cause : Thrown) (w0 : World Call) :
  exists o w',
    (if instanceof_Error cause && includes (message cause) "Not Found"
     then ret None
     else bind (updateMockEvent eventId updateData) (fun event => ret (Some event)))
      w0 = (Returned o, w')
    /\ calls w' = calls w0
    /\ if instanceof_Error cause && includes (message cause) "Not Found"
       then o = None
       else exists ev, o = Some ev
                       /\ ev_id ev = Some eventId
                       /\ ev_title ev
                          = or_else (ed_title updateData)
                              ("Mock Event: " ++ eventId)%string.
Proof.
  destruct (instanceof_Error cause && includes (message cause) "Not Found").
  - exists None, w0. repeat split.
  - destruct (updateMockEvent_returns eventId updateData w0)
      as (ev & w' & Hrun & Hc & Hid & _ & Ht & _).
    exists (Some ev), w'. unfold bind. rewrite Hrun.
    split; [reflexivity|]. split; [exact Hc|]. exists ev. repeat split; assumption.
Qed.

(** The run of [updateEvent], by what the provider answers. *)
Lemma updateEvent_run (eventId : string) (updateData : EventData)
      (w : World Call) :
  let entered := calls w ++ [ServiceUpdateEvent eventId updateData] in
  exists o w' asked,
    updateEvent svc eventId updateData w = (Returned o, w')
    /\ calls w' = entered ++ asked
    /\ match calendar svc, oauth2Client svc with
       | Some client, Some _ =>
           match events_get client entered eventId with
           | Threw cause =>
               asked = [EventsGet eventId]
               /\ if instanceof_Error cause
                     && includes (message cause) "Not Found"
                  then o = None
                  else exists ev, o = Some ev /\ ev_id ev = Some eventId
                                  /\ ev_title ev
                                     = or_else (ed_title updateData)
                                         ("Mock Event: " ++ eventId)%string
           | Returned None => asked = [EventsGet eventId] /\ o = None
           | Returned (Some existing) =>
               asked = [EventsGet eventId;
                        EventsUpdate eventId
                          (update_resource existing updateData)]
               /\ match events_update client (entered ++ [EventsGet eventId])
                          eventId (update_resource existing updateData) with
                  | Threw cause =>
                      if instanceof_Error cause
                         && includes (message cause) "Not Found"
                      then o = None
                      else exists ev, o = Some ev /\ ev_id ev = Some eventId
                                      /\ ev_title ev
                                         = or_else (ed_title updateData)
                                             ("Mock Event: " ++ eventId)%string
                  | Returned None => o = None
                  | Returned (Some d) =>
                      exists ev, o = Some ev /\ ev_id ev = g_id d
                                 /\ truthy (ev_title ev) = true
                  end
           end
       | _, _ =>
           asked = []
           /\ exists ev, o = Some ev /\ ev_id ev = Some eventId
                         /\ ev_title ev
                            = or_else (ed_title updateData)
                                ("Mock Event: " ++ eventId)%string
       end.
Proof.
  intros entered. unfold updateEvent, bind, record, try_catch.
  set (w0 := mkWorld (clock w) (readings w) (random w) (draws w)
               (calls w ++ [ServiceUpdateEvent eventId updateData])).
  assert (Hmock : exists o w' asked,
             bind (updateMockEvent eventId updateData)
               (fun event => ret (Some event)) w0 = (Returned o, w')
             /\ calls w' = entered ++ asked
             /\ asked = []
             /\ exists ev, o = Some ev /\ ev_id ev = Some eventId
                           /\ ev_title ev
                              = or_else (ed_title updateData)
                                  ("Mock Event: " ++ eventId)%string).
  { destruct (updateMockEvent_returns eventId updateData w0)
      as (ev & w' & Hrun & Hc & Hid & _ & Ht & _).
    exists (Some ev), w', []. unfold bind. rewrite Hrun.
    split; [reflexivity|]. split; [rewrite Hc, app_nil_r; reflexivity|].
    split; [reflexivity|]. exists ev. repeat split; assumption. }
  destruct (calendar svc) as [client|].
  - destruct (oauth2Client svc) as [u|].
    + unfold call. cbn [calls w0]. fold entered.
      destruct (events_get client entered eventId) as [[existing|]|cause].
      * cbn [calls]. fold entered.
        destruct (events_update client (entered ++ [EventsGet eventId]) eventId
                    (update_resource existing updateData)) as [[d|]|cause].
        -- match goal with
           | |- context [CalendarMapping.mapToCalendarEvent d ?w1] =>
               destruct (mapToCalendarEvent_any d w1)
                 as (ev & w' & Hrun & Hc & Hid & Ht & _);
               rewrite Hrun
           end.
           exists (Some ev), w'. eexists. split; [reflexivity|].
           split; [rewrite Hc; cbn [calls]; rewrite <- app_assoc; reflexivity|].
           split; [reflexivity|]. exists ev. repeat split; assumption.
        -- do 3 eexists. split; [reflexivity|].
           split; [cbn [calls]; rewrite <- app_assoc; reflexivity|].
           split; reflexivity.
        -- cbv beta iota. cbn [clock readings random draws calls].
           match goal with
           | |- context [(if _ then _ else _) ?w1] =>
               destruct (update_catch eventId updateData cause w1)
                 as (o & w' & Hrun & Hc & Ho)
           end.
           unfold bind in Hrun. rewrite Hrun. exists o, w'. eexists. split; [reflexivity|].
           split; [rewrite Hc; cbn [calls]; rewrite <- app_assoc; reflexivity|].
           split; [reflexivity | exact Ho].
      * do 3 eexists. split; [reflexivity|]. split; [reflexivity|].
        split; reflexivity.
      * cbv beta iota. cbn [clock readings random draws calls].
        match goal with
        | |- context [(if _ then _ else _) ?w1] =>
            destruct (update_catch eventId updateData cause w1)
              as (o & w' & Hrun & Hc & Ho)
        end.
        unfold bind in Hrun. rewrite Hrun. exists o, w'. eexists. split; [reflexivity|].
        split; [rewrite Hc; reflexivity|]. split; [reflexivity | exact Ho].
    + destruct Hmock as (o & w' & asked & Hrun & Hc & Ha & Hev).
      unfold bind in Hrun. rewrite Hrun. exists o, w', asked.
      split; [reflexivity|]. split; [exact Hc|]. split; assumption.
  - destruct Hmock as (o & w' & asked & Hrun & Hc & Ha & Hev).
    unfold bind in Hrun. rewrite Hrun. exists o, w', asked.
    split; [reflexivity|]. split; [exact Hc|]. split; assumption.
Qed.

Lemma updateEventController_run (req : Request) (eventId : string)
      (w : World Call) :
  first_truthy (param_eventId req) = Some eventId ->
  has_scope (user req) "calendar.write" = true ->
  updateEventController svc req w
  = match updateEvent svc eventId (body req) w with
    | (Returned (Some ev), w') => send_json 200 (DataEvent ev) w'
    | (Returned None, w') =>
        (Returned (Next (mkAppError "Event not found or update failed"
                           404 "EVENT_UPDATE_FAILED")), w')
    | (Threw e, w') => (Returned (Next e), w')
    end.
Proof.
  intros Hid Hs. unfold updateEventController, try_catch.
  rewrite Hid, Hs. cbn [negb]. unfold bind.
  destruct (updateEvent svc eventId (body req) w) as [[[ev|]|e] w'];
    reflexivity.
Qed.


(** X14: with a configured client, [updateEvent] first reads the stored
    event and then sends the merged resource for the same id.  A missing
    event, an empty answer and an error whose message contains
    "Not Found" are answered 404 EVENT_UPDATE_FAILED; any other provider
    error, on the read or on the write, is masked: the answer is 200
    with the mock event of that id carrying the requested title. *)
Theorem update_event_provider_paths
        (client : CalendarClient) (req : Request) (eventId : string)
        (w : World Call) :
  calendar svc = Some client ->
  oauth2Client svc = Some tt ->
  first_truthy (param_eventId req) = Some eventId ->
  In "calendar.write" (granted_scopes (user req)) ->
  let entered := calls w ++ [ServiceUpdateEvent eventId (body req)] in
  let not_found r :=
    status r = 404
    /\ error r = Some (mkErrorBody "Event not found or update failed"
                         "EVENT_UPDATE_FAILED" None) in
  let masked r :=
    status r = 200
    /\ exists ev, data r = Some (DataEvent ev)
                  /\ ev_id ev = Some eventId
                  /\ ev_title ev
                     = or_else (ed_title (body req))
                         ("Mock Event: " ++ eventId)%string in
  exists r w',
    route (updateEventController svc req) w = (Returned r, w')
    /\ match events_get client entered eventId with
       | Threw cause =>
           calls w' = entered ++ [EventsGet eventId]
           /\ if instanceof_Error cause && includes (message cause) "Not Found"
              then not_found r else masked r
       | Returned None =>
           calls w' = entered ++ [EventsGet eventId] /\ not_found r
       | Returned (Some existing) =>
           calls w' = entered
                        ++ [EventsGet eventId;
                            EventsUpdate eventId
                              (update_resource existing (body req))]
           /\ match events_update client (entered ++ [EventsGet eventId])
                      eventId (update_resource existing (body req)) with
              | Threw cause =>
                  if instanceof_Error cause
                     && includes (message cause) "Not Found"
                  then not_found r else masked r
              | Returned None => not_found r
              | Returned (Some d) =>
                  status r = 200
                  /\ exists ev, data r = Some (DataEvent ev)
                                /\ ev_id ev = g_id d
              end
       end.
Proof.
  intros Hcal Hoa Hid Hs entered not_found masked.
  apply has_scope_granted in Hs.
  pose proof (updateEventController_run req eventId w Hid Hs) as Hctl.
  destruct (updateEvent_run eventId (body req) w)
    as (o & w1 & asked & Hrun & Hc & Hcase).
  rewrite Hcal, Hoa in Hcase. fold entered in Hc, Hcase.
  rewrite Hrun in Hctl.
  assert (Hnf : o = None ->
                exists r w',
                  route (updateEventController svc req) w = (Returned r, w')
                  /\ calls w' = entered ++ asked /\ not_found r).
  { intros ->. do 2 eexists. split; [apply (route_app_error Hctl)|].
    split; [exact Hc | split; reflexivity]. }
  assert (Hok : forall ev, o = Some ev ->
                exists r w',
                  route (updateEventController svc req) w = (Returned r, w')
                  /\ calls w' = entered ++ asked
                  /\ status r = 200 /\ data r = Some (DataEvent ev)).
  { intros ev ->. do 2 eexists. split; [apply route_sent; exact Hctl|].
    split; [exact Hc | split; reflexivity]. }
  destruct (events_get client entered eventId) as [[existing|]|cause].
  - destruct Hcase as (Ha & Hcase). rewrite Ha in *.
    destruct (events_update client (entered ++ [EventsGet eventId]) eventId
                (update_resource existing (body req))) as [[d|]|cause].
    + destruct Hcase as (ev & E & Hi & _).
      destruct (Hok ev E) as (r & w' & Hr & Hcalls & Hst & Hd).
      exists r, w'. split; [exact Hr|]. split; [exact Hcalls|].
      split; [exact Hst|]. exists ev. split; assumption.
    + destruct (Hnf Hcase) as (r & w' & Hr & Hcalls & Hn).
      exists r, w'. split; [exact Hr|]. split; [exact Hcalls | exact Hn].
    + destruct (instanceof_Error cause && includes (message cause) "Not Found").
      * destruct (Hnf Hcase) as (r & w' & Hr & Hcalls & Hn).
        exists r, w'. split; [exact Hr|]. split; [exact Hcalls | exact Hn].
      * destruct Hcase as (ev & E & Hi & Ht).
        destruct (Hok ev E) as (r & w' & Hr & Hcalls & Hst & Hd).
        exists r, w'. split; [exact Hr|]. split; [exact Hcalls|].
        split; [exact Hst|]. exists ev. repeat split; assumption.
  - destruct Hcase as (Ha & Hcase). rewrite Ha in *.
    destruct (Hnf Hcase) as (r & w' & Hr & Hcalls & Hn).
    exists r, w'. split; [exact Hr|]. split; [exact Hcalls | exact Hn].
  - destruct Hcase as (Ha & Hcase). rewrite Ha in *.
    destruct (instanceof_Error cause && includes (message cause) "Not Found").
    + destruct (Hnf Hcase) as (r & w' & Hr & Hcalls & Hn).
      exists r, w'. split; [exact Hr|]. split; [exact Hcalls | exact Hn].
    + destruct Hcase as (ev & E & Hi & Ht).
      destruct (Hok ev E) as (r & w' & Hr & Hcalls & Hst & Hd).
      exists r, w'. split; [exact Hr|]. split; [exact Hcalls|].
      split; [exact Hst|]. exists ev. repeat split; assumption.
Qed.

End Service.


Lemma update_event_provider_paths_witness :
  exists r w',
    route (updateEventController
             (SampleRest.service
                (SampleRest.failing_client (Error "Error" "quota exceeded")))
             (SampleRest.request None Sample.writer)) SampleRest.world
    = (Returned r, w')
    /\ calls w' = [ServiceUpdateEvent "evt_1" (SampleRest.rename "Retro");
                   EventsGet "evt_1"]
    /\ status r = 200
    /\ exists ev, data r = Some (DataEvent ev)
                  /\ ev_id ev = Some "evt_1"%string
                  /\ ev_title ev = "Retro"%string.
Proof.
  destruct (update_event_provider_paths
              (SampleRest.service
                 (SampleRest.failing_client (Error "Error" "quota exceeded")))
              (SampleRest.failing_client (Error "Error" "quota exceeded"))
              (SampleRest.request None Sample.writer) "evt_1"%string
              SampleRest.world eq_refl eq_refl eq_refl)
    as (r & w' & Hrun & Hcalls & Hst & ev & Hd & Hi & Ht).
  { simpl. left. reflexivity. }
  exists r, w'. split; [exact Hrun|]. split; [exact Hcalls|].
  split; [exact Hst|]. exists ev. repeat split; assumption.
Defined.

End UpdateProps.

(** ** Agent A: the run of [processInbox] *)

Module InboxRun.
Import AgentA SpecA SpecInbox InboxTrace.

Lemma kept_app (a b : list (Item + EmailError)) :
  kept (a ++ b) = kept a ++ kept b.
Proof. unfold kept. apply flat_map_app. Qed.

Lemma failed_app (a b : list (Item + EmailError)) :
  failed (a ++ b) = failed a ++ failed b.
Proof. unfold failed. apply flat_map_app. Qed.

Lemma kept_failed_length (outcomes : list (Item + EmailError)) :
  (List.length (kept outcomes) + List.length (failed outcomes)
   = List.length outcomes)%nat.
Proof.
  induction outcomes as [|[i|e] rest IH]; simpl; lia.
Qed.


Section Run.
Variable Date_parse : string -> JsDate.Date.
Variable number_of_string : string -> option Q.
Variable svc : Services.

(** Step 2, with what it returns. *)
Lemma process_messages_full (messages : list string) :
  forall (items : list Item) (errors : list EmailError) (w : World Call),
  exists outcomes w' new,
    process_messages svc messages items errors w
    = (Returned (items ++ kept outcomes, errors ++ failed outcomes), w')
    /\ Forall2 (outcome_of svc) messages outcomes
    /\ calls w' = calls w ++ new
    /\ Forall (fun c => is_per_message c = true) new
    /\ clock w' = clock w
    /\ readings w' = readings w.
Proof.
  induction messages as [|m rest IH]; intros items errors w.
  - exists [], w, []. simpl. rewrite !app_nil_r.
    repeat split; constructor.
  - simpl. unfold try_catch, bind. rewrite call_run.
    destruct (getEmailContent svc (calls w) m) as [email|e] eqn:Hget.
    + rewrite call_run. cbn [calls].
      destruct (summarizeEmail svc (calls w ++ [GetEmailContent m]) email)
        as [summary|e] eqn:Hsum.
      * rewrite call_run. cbn [calls].
        destruct (extractActionItems svc
                    ((calls w ++ [GetEmailContent m])
                       ++ [SummarizeEmail email]) email)
          as [actions|e] eqn:Hext;
          cbn [ret fst snd];
          match goal with
          | |- context [process_messages svc rest ?i ?e ?w0] =>
              destruct (IH i e w0)
                as (os & w' & new & Hrun & Hall2 & Hc & Hall & Hclk & Hrd)
          end.
        -- exists (inl (mkItem email summary actions) :: os), w',
             (GetEmailContent m :: SummarizeEmail email
                :: ExtractActionItems email :: new).
           split; [rewrite Hrun; simpl; rewrite <- !app_assoc; reflexivity|].
           split.
           { constructor; [|exact Hall2]. simpl.
             split; [eexists; exact Hget|].
             split; eexists; eassumption. }
           split; [rewrite Hc; cbn [calls]; rewrite <- !app_assoc;
                   reflexivity|].
           split; [repeat constructor; assumption|].
           split; assumption.
        -- exists (inr (mkEmailError m (error_text e)) :: os), w',
             (GetEmailContent m :: SummarizeEmail email
                :: ExtractActionItems email :: new).
           split; [rewrite Hrun; simpl; rewrite <- !app_assoc; reflexivity|].
           split.
           { constructor; [|exact Hall2]. simpl.
             split; [reflexivity|]. exists e. split; [reflexivity|].
             right. right. do 2 eexists. exact Hext. }
           split; [rewrite Hc; cbn [calls]; rewrite <- !app_assoc;
                   reflexivity|].
           split; [repeat constructor; assumption|].
           split; assumption.
      * cbn [ret fst snd].
        match goal with
        | |- context [process_messages svc rest ?i ?e ?w0] =>
            destruct (IH i e w0)
              as (os & w' & new & Hrun & Hall2 & Hc & Hall & Hclk & Hrd)
        end.
        exists (inr (mkEmailError m (error_text e)) :: os), w',
          (GetEmailContent m :: SummarizeEmail email :: new).
        split; [rewrite Hrun; simpl; rewrite <- !app_assoc; reflexivity|].
        split.
        { constructor; [|exact Hall2]. simpl.
          split; [reflexivity|]. exists e. split; [reflexivity|].
          right. left. do 2 eexists. exact Hsum. }
        split; [rewrite Hc; cbn [calls]; rewrite <- !app_assoc;
                reflexivity|].
        split; [repeat constructor; assumption|].
        split; assumption.
    + cbn [ret fst snd].
      match goal with
      | |- context [process_messages svc rest ?i ?e ?w0] =>
          destruct (IH i e w0)
            as (os & w' & new & Hrun & Hall2 & Hc & Hall & Hclk & Hrd)
      end.
      exists (inr (mkEmailError m (error_text e)) :: os), w',
        (GetEmailContent m :: new).
      split; [rewrite Hrun; simpl; rewrite <- !app_assoc; reflexivity|].
      split.
      { constructor; [|exact Hall2]. simpl.
        split; [reflexivity|]. exists e. split; [reflexivity|].
        left. eexists. exact Hget. }
      split; [rewrite Hc; cbn [calls]; rewrite <- !app_assoc; reflexivity|].
      split; [repeat constructor; assumption|].
      split; assumption.
Qed.

(** X15: the loop over the fetched messages never throws and accounts
    for every message, in order: each one gives either an item holding
    what the mail provider and the language model returned for it, or
    an error entry with the id of the message and the text of what one
    of them threw; what was collected before is kept. *)
Theorem process_messages_accounts
        (messages : list string) (items : list Item)
        (errors : list EmailError) (w : World Call) :
  exists outcomes w',
    process_messages svc messages items errors w
    = (Returned (items ++ kept outcomes, errors ++ failed outcomes), w')
    /\ Forall2 (outcome_of svc) messages outcomes
    /\ (List.length (kept outcomes) + List.length (failed outcomes)
        = List.length messages)%nat.
Proof.
  destruct (process_messages_full messages items errors w)
    as (outcomes & w' & new & Hrun & Hall2 & _).
  exists outcomes, w'. split; [exact Hrun|]. split; [exact Hall2|].
  rewrite kept_failed_length. symmetry.
  apply (Forall2_length Hall2).
Qed.

(** Step 4 *)

Lemma draft_of_later (clock : nat -> Z) (from from' : nat)
      (ia : Item * ActionItem) (draft : CreateEventRequest) :
  (from' <= from)%nat ->
  draft_of Date_parse clock from ia draft ->
  draft_of Date_parse clock from' ia draft.
Proof.
  intros Hle (Ht & Hd & Ha & Hl & Hr & Htimes).
  repeat (split; [assumption|]).
  destruct (first_truthy (a_suggestedDate (snd ia))); [exact Htimes|].
  destruct Htimes as (n & Hn & Hs & He).
  exists n. split; [lia|]. split; assumption.
Qed.

Lemma build_event_run (item : Item) (action : ActionItem) (w : World Call) :
  exists o w',
    build_event Date_parse item action w = (o, w')
    /\ calls w' = calls w
    /\ clock w' = clock w
    /\ (readings w <= readings w')%nat
    /\ if datable Date_parse action
       then exists draft,
              o = Returned draft
              /\ draft_of Date_parse (clock w) (readings w)
                   (item, action) draft
       else o = Threw invalid_time.
Proof.
  unfold build_event, datable.
  destruct (first_truthy (a_suggestedDate action)) as [d|] eqn:Hd.
  - destruct (Date_parse d) as [p|] eqn:Hp.
    + do 2 eexists. split; [reflexivity|].
      split; [reflexivity|]. split; [reflexivity|]. split; [lia|].
      eexists. split; [reflexivity|].
      unfold draft_of. cbn [fst snd title description attendees location
                              reminders startTime endTime].
      repeat (split; [reflexivity|]). rewrite Hd.
      split; [reflexivity|]. exists p. split; [exact Hp | reflexivity].
    + do 2 eexists. split; [reflexivity|].
      split; [reflexivity|]. split; [reflexivity|]. split; [lia|].
      reflexivity.
  - do 2 eexists. split; [reflexivity|].
    split; [reflexivity|]. split; [reflexivity|].
    split; [cbn [readings]; lia|].
    eexists. split; [reflexivity|].
    unfold draft_of. cbn [fst snd title description attendees location
                            reminders startTime endTime].
    repeat (split; [reflexivity|]). rewrite Hd.
    exists (readings w). split; [lia|]. split; [reflexivity|].
    cbn [clock readings]. f_equal. unfold hour. lia.
Qed.

Lemma build_actions_run (item : Item) (actions : list ActionItem) :
  forall w : World Call,
  exists o w',
    mapM (build_event Date_parse item) actions w = (o, w')
    /\ calls w' = calls w
    /\ clock w' = clock w
    /\ (readings w <= readings w')%nat
    /\ if forallb (datable Date_parse) actions
       then exists drafts,
              o = Returned drafts
              /\ Forall2 (draft_of Date_parse (clock w) (readings w))
                   (map (pair item) actions) drafts
       else o = Threw invalid_time.
Proof.
  induction actions as [|a rest IH]; intros w.
  - do 2 eexists. split; [reflexivity|].
    split; [reflexivity|]. split; [reflexivity|]. split; [lia|].
    exists []. split; [reflexivity | constructor].
  - cbn [mapM forallb map]. unfold bind at 1.
    destruct (build_event_run item a w)
      as (o & w1 & Hrun & Hc & Hclk & Hrd & Hcase).
    rewrite Hrun. destruct (datable Date_parse a).
    + destruct Hcase as (draft & -> & Hdraft). cbn [andb].
      unfold bind at 1.
      destruct (IH w1) as (o2 & w2 & Hrun2 & Hc2 & Hclk2 & Hrd2 & Hcase2).
      rewrite Hrun2. exists (match o2 with
                             | Returned ys => Returned (draft :: ys)
                             | Threw e => Threw e
                             end), w2.
      split; [destruct o2; reflexivity|].
      split; [congruence|]. split; [congruence|]. split; [lia|].
      destruct (forallb (datable Date_parse) rest).
      * destruct Hcase2 as (drafts & -> & Hall).
        exists (draft :: drafts). split; [reflexivity|].
        constructor; [exact Hdraft|].
        rewrite Hclk in Hall.
        eapply Forall2_impl; [|exact Hall].
        intros ia d. apply draft_of_later. exact Hrd.
      * rewrite Hcase2. reflexivity.
    + subst o. cbn [andb]. exists (Threw invalid_time), w1.
      repeat split; assumption.
Qed.

Lemma pairs_actions (item : Item) (actions : list ActionItem) :
  map snd (map (pair item) actions) = actions.
Proof. rewrite map_map. simpl. apply map_id. Qed.

Lemma build_items_run (items : list Item) :
  forall w : World Call,
  exists o w',
    mapM (fun item => mapM (build_event Date_parse item) (it_actions item))
         items w = (o, w')
    /\ calls w' = calls w
    /\ clock w' = clock w
    /\ (readings w <= readings w')%nat
    /\ if forallb (datable Date_parse) (map snd (pairs items))
       then exists per_item,
              o = Returned per_item
              /\ Forall2 (draft_of Date_parse (clock w) (readings w))
                   (pairs items) (List.concat per_item)
       else o = Threw invalid_time.
Proof.
  induction items as [|item rest IH]; intros w.
  - do 2 eexists. split; [reflexivity|].
    split; [reflexivity|]. split; [reflexivity|]. split; [lia|].
    exists []. split; [reflexivity | constructor].
  - cbn [mapM]. unfold pairs. cbn [flat_map]. fold (pairs rest).
    rewrite map_app, forallb_app, pairs_actions.
    unfold bind at 1.
    destruct (build_actions_run item (it_actions item) w)
      as (o & w1 & Hrun & Hc & Hclk & Hrd & Hcase).
    rewrite Hrun.
    destruct (forallb (datable Date_parse) (it_actions item)).
    + destruct Hcase as (drafts & -> & Hdrafts). cbn [andb].
      unfold bind at 1.
      destruct (IH w1) as (o2 & w2 & Hrun2 & Hc2 & Hclk2 & Hrd2 & Hcase2).
      rewrite Hrun2. exists (match o2 with
                             | Returned ys => Returned (drafts :: ys)
                             | Threw e => Threw e
                             end), w2.
      split; [destruct o2; reflexivity|].
      split; [congruence|]. split; [congruence|]. split; [lia|].
      destruct (forallb (datable Date_parse) (map snd (pairs rest))).
      * destruct Hcase2 as (per_item & -> & Hall).
        exists (drafts :: per_item). split; [reflexivity|].
        cbn [List.concat]. apply Forall2_app; [exact Hdrafts|].
        rewrite Hclk in Hall.
        eapply Forall2_impl; [|exact Hall].
        intros ia d. apply draft_of_later. exact Hrd.
      * rewrite Hcase2. reflexivity.
    + subst o. cbn [andb]. exists (Threw invalid_time), w1.
      repeat split; assumption.
Qed.


Lemma build_events_run (items : list Item) (w : World Call) :
  exists o w',
    build_events Date_parse items w = (o, w')
    /\ calls w' = calls w
    /\ clock w' = clock w
    /\ if forallb (datable Date_parse) (map snd (pairs items))
       then exists events,
              o = Returned events
              /\ Forall2 (draft_of Date_parse (clock w) (readings w))
                   (pairs items) events
       else o = Threw invalid_time.
Proof.
  unfold build_events, bind.
  destruct (build_items_run items w)
    as (o & w1 & Hrun & Hc & Hclk & _ & Hcase).
  rewrite Hrun.
  destruct (forallb (datable Date_parse) (map snd (pairs items))).
  - destruct Hcase as (per_item & -> & Hall).
    do 2 eexists. split; [reflexivity|]. split; [exact Hc|].
    split; [exact Hclk|].
    eexists. split; [reflexivity | exact Hall].
  - subst o. do 2 eexists. split; [reflexivity|]. split; [exact Hc|].
    split; [exact Hclk | reflexivity].
Qed.

(** The whole run of [processInbox] on a request that passes the
    validation and carries a session token, by what the collaborators
    answer. *)
Lemma processInbox_run (req : Request) (w : World Call)
      (v : ProcessEmailsValue) (jwt : string) :
  validateProcessEmailsRequest number_of_string (body req) = inr v ->
  first_truthy (option_map (fun a => replace a "Bearer " "")
                  (authorization req)) = Some jwt ->
  let n := maxResults_of v in
  exists r w',
    processInbox Date_parse number_of_string svc req w = (Returned r, w')
    /\ match getRecentEmails svc (calls w) n with
       | Threw e => r = Next e /\ calls w' = calls w ++ [GetRecentEmails n]
       | Returned messages =>
           exists outcomes mails,
             Forall2 (outcome_of svc) messages outcomes
             /\ Forall (fun c => is_per_message c = true) mails
             /\ let log := calls w ++ GetRecentEmails n :: mails in
                match requestDelegatedToken svc log jwt "agent-b-calendar"
                        ["calendar.write"%string] with
                | Threw e =>
                    r = Next e /\ calls w' = log ++ [token_request jwt]
                | Returned tok =>
                    match first_truthy tok with
                    | None =>
                        r = Next delegation_failed
                        /\ calls w' = log ++ [token_request jwt]
                    | Some t =>
                        if forallb (datable Date_parse)
                             (map snd (pairs (kept outcomes)))
                        then
                          exists events ts,
                            Forall2 (draft_of Date_parse (clock w)
                                       (readings w))
                                    (pairs (kept outcomes)) events
                            /\ match events with
                               | [] =>
                                   r = Sent (mkResponse 200 true
                                               (Some (answer outcomes [] []))
                                               None ts)
                                   /\ calls w' = log ++ [token_request jwt]
                               | _ :: _ =>
                                   calls w'
                                   = log ++ [token_request jwt;
                                             CallAgentBCreateEvents t events]
                                   /\ match callAgentBCreateEvents svc
                                              (log ++ [token_request jwt])
                                              t events with
                                      | Returned created =>
                                          r = Sent (mkResponse 200 true
                                                      (Some (answer outcomes
                                                               created []))
                                                      None ts)
                                      | Threw e =>
                                          r = Sent (mkResponse 200 true
                                                      (Some (answer outcomes []
                                                               [creation_error e]))
                                                      None ts)
                                      end
                               end
                        else
                          r = Next invalid_time
                          /\ calls w' = log ++ [token_request jwt]
                    end
                end
       end.
Proof.
  intros Hv Hjwt n.
  unfold processInbox, try_catch. rewrite Hv.
  fold (maxResults_of v). fold n. rewrite Hjwt.
  unfold bind at 1. rewrite call_run.
  destruct (getRecentEmails svc (calls w) n) as [messages|e];
    [|do 2 eexists; split; [reflexivity|]; split; reflexivity].
  match goal with
  | |- context [bind (process_messages svc messages [] []) ?k ?w0] =>
      destruct (process_messages_full messages [] [] w0)
        as (outcomes & w2 & mails & Hloop & Hout & Hc2 & Hmails & Hclk2 & Hrd2);
      unfold bind at 1; rewrite Hloop
  end.
  cbn [calls clock readings app fst snd] in *.
  unfold bind at 1. rewrite call_run. rewrite Hc2.
  assert (Hlog : (calls w ++ [GetRecentEmails n]) ++ mails
                 = calls w ++ GetRecentEmails n :: mails)
    by (rewrite <- app_assoc; reflexivity).
  rewrite Hlog. set (log := calls w ++ GetRecentEmails n :: mails).
  fold (token_request jwt).
  destruct (requestDelegatedToken svc log jwt "agent-b-calendar"
              ["calendar.write"%string]) as [tok|e] eqn:Htok.
  - destruct (first_truthy tok) as [t|] eqn:Hft.
    + unfold bind at 1.
      match goal with
      | |- context [build_events Date_parse (kept outcomes) ?w0] =>
          destruct (build_events_run (kept outcomes) w0)
            as (o & w3 & Hbuild & Hc3 & Hclk3 & Hcase);
          rewrite Hbuild
      end.
      cbn [calls clock readings] in *.
      rewrite Hclk2, Hrd2 in Hcase.
      destruct (forallb (datable Date_parse)
                  (map snd (pairs (kept outcomes)))) eqn:Hall.
      * destruct Hcase as (events & -> & Hdrafts).
        destruct events as [|ev rest].
        -- cbn [List.length Nat.ltb Nat.leb]. unfold bind at 1. cbn [ret fst snd].
           do 2 eexists. split; [reflexivity|].
           exists outcomes, mails. split; [exact Hout|].
           split; [exact Hmails|]. cbv zeta. fold log.
           rewrite Htok, Hft, Hall.
           exists [], (JsDate.iso (clock w3 (readings w3))).
           split; [exact Hdrafts|]. split.
           ++ unfold answer. rewrite app_nil_r. reflexivity.
           ++ cbn [calls]. exact Hc3.
        -- cbn [List.length Nat.ltb Nat.leb]. unfold bind at 1.
           unfold try_catch, bind at 1. rewrite call_run. rewrite Hc3.
           destruct (callAgentBCreateEvents svc (log ++ [token_request jwt])
                       t (ev :: rest)) as [created|e] eqn:Hb;
             cbn [ret fst snd];
             do 2 eexists; (split; [reflexivity|]);
             exists outcomes, mails; (split; [exact Hout|]);
             (split; [exact Hmails|]); cbv zeta; fold log;
             rewrite Htok, Hft, Hall;
             exists (ev :: rest); eexists;
             (split; [exact Hdrafts|]);
             (split; [cbn [calls]; rewrite <- app_assoc; reflexivity|]);
             rewrite Hb; unfold answer; rewrite ?app_nil_r; reflexivity.
      * subst o. do 2 eexists. split; [reflexivity|].
        exists outcomes, mails. split; [exact Hout|].
        split; [exact Hmails|]. cbv zeta. fold log.
        rewrite Htok, Hft, Hall. split; [reflexivity | exact Hc3].
    + do 2 eexists. split; [reflexivity|].
      exists outcomes, mails. split; [exact Hout|].
      split; [exact Hmails|]. cbv zeta. fold log.
      rewrite Htok, Hft. split; reflexivity.
  - do 2 eexists. split; [reflexivity|].
    exists outcomes, mails. split; [exact Hout|].
    split; [exact Hmails|]. cbv zeta. fold log.
    rewrite Htok. split; reflexivity.
Qed.


Lemma create_events_after (n : Z) (mails post : list Call) (jwt : string) :
  Forall (fun c => is_per_message c = true) mails ->
  filter is_create_events
    (GetRecentEmails n :: mails ++ token_request jwt :: post)
  = filter is_create_events post.
Proof.
  intros Hmails. cbn [filter is_create_events].
  rewrite filter_app. cbn [filter token_request is_create_events].
  replace (filter is_create_events mails) with (@nil Call); [reflexivity|].
  symmetry. induction Hmails as [|c l Hc _ IH]; [reflexivity|].
  simpl. destruct c; try discriminate Hc; exact IH.
Qed.

Lemma pairs_empty (items : list Item) :
  pairs items = [] -> Forall (fun i => it_actions i = []) items.
Proof.
  induction items as [|i rest IH]; intros H; [constructor|].
  unfold pairs in H. cbn [flat_map] in H.
  apply app_eq_nil in H. destruct H as (Hi & Hrest).
  constructor; [|apply IH; exact Hrest].
  destruct (it_actions i); [reflexivity | discriminate Hi].
Qed.

(** X18: Agent B is called at most once.  When it is called, it is
    called with the token that the delegation returned and with at least
    one draft, one per action item of the summaries in the answer, in
    their order, and the request is answered 200 whatever Agent B does:
    [eventsCreated] is what Agent B returned, or empty when it threw.
    When it is not called and the request is answered, no summary has
    an action item and [eventsCreated] is empty. *)
Theorem process_emails_agent_b_call
        (req : Request) (w : World Call) (v : ProcessEmailsValue)
        (jwt : string) :
  validateProcessEmailsRequest number_of_string (body req) = inr v ->
  first_truthy (option_map (fun a => replace a "Bearer " "")
                  (authorization req)) = Some jwt ->
  exists h w' new,
    processInbox Date_parse number_of_string svc req w = (Returned h, w')
    /\ calls w' = calls w ++ new
    /\ match filter is_create_events new with
       | [] =>
           forall r, h = Sent r ->
           exists d, data r = Some d
                     /\ eventsCreated d = []
                     /\ Forall (fun s => su_actionItems s = []) (summaries d)
       | [c] =>
           exists t events r d outcomes,
             c = CallAgentBCreateEvents t events
             /\ events <> []
             /\ (exists log tok,
                   requestDelegatedToken svc log jwt "agent-b-calendar"
                     ["calendar.write"%string] = Returned tok
                   /\ first_truthy tok = Some t)
             /\ h = Sent r
             /\ status r = 200
             /\ data r = Some d
             /\ summaries d = map summary_of (kept outcomes)
             /\ Forall2 (draft_of Date_parse (clock w) (readings w))
                        (pairs (kept outcomes)) events
             /\ exists log,
                  match callAgentBCreateEvents svc log t events with
                  | Returned created => eventsCreated d = created
                  | Threw e =>
                      eventsCreated d = []
                      /\ exists before,
                           errors d = before ++ [creation_error e]
                  end
       | _ :: _ :: _ => False
       end.
Proof.
  intros Hv Hjwt.
  destruct (processInbox_run req w v jwt Hv Hjwt)
    as (h & w' & Hrun & Hcase).
  cbv zeta in Hcase.
  destruct (getRecentEmails svc (calls w) (maxResults_of v))
    as [messages|e].
  - destruct Hcase as (outcomes & mails & Hout & Hmails & Hcase).
    assert (Hquiet : forall r0,
               h = Next r0 ->
               calls w'
               = (calls w ++ GetRecentEmails (maxResults_of v) :: mails)
                   ++ [token_request jwt] ->
               exists new,
                 calls w' = calls w ++ new
                 /\ filter is_create_events new = []
                 /\ forall r, h = Sent r ->
                    exists d, data r = Some d
                              /\ eventsCreated d = []
                              /\ Forall (fun s => su_actionItems s = [])
                                        (summaries d)).
    { intros r0 -> Hc.
      exists (GetRecentEmails (maxResults_of v)
                :: mails ++ token_request jwt :: []).
      split; [rewrite Hc, <- app_assoc; reflexivity|].
      split; [rewrite (create_events_after _ _ _ _ Hmails); reflexivity|].
      intros r Hr. discriminate Hr. }
    destruct (requestDelegatedToken svc _ jwt "agent-b-calendar"
                ["calendar.write"%string]) as [tok|e] eqn:Htok.
    + destruct (first_truthy tok) as [t|] eqn:Hft.
      * destruct (forallb (datable Date_parse)
                    (map snd (pairs (kept outcomes)))).
        -- destruct Hcase as (events & ts & Hdrafts & Hcase).
           destruct events as [|ev rest].
           ++ destruct Hcase as (-> & Hc).
              exists (Sent (mkResponse 200 true
                              (Some (answer outcomes [] [])) None ts)), w',
                (GetRecentEmails (maxResults_of v)
                   :: mails ++ token_request jwt :: []).
              split; [exact Hrun|].
              split; [rewrite Hc, <- app_assoc; reflexivity|].
              rewrite (create_events_after _ _ _ _ Hmails). cbn [filter].
              intros r Hr. inversion Hr; subst r. eexists.
              split; [reflexivity|]. split; [reflexivity|].
              unfold answer. cbn [summaries].
              inversion Hdrafts as [Hp|]. symmetry in Hp.
              apply pairs_empty in Hp. rewrite Forall_map.
              eapply Forall_impl; [|exact Hp]. intros i Hi. exact Hi.
           ++ destruct Hcase as (Hc & Hcase).
              exists h, w',
                (GetRecentEmails (maxResults_of v)
                   :: mails ++ token_request jwt
                   :: [CallAgentBCreateEvents t (ev :: rest)]).
              split; [exact Hrun|].
              split; [rewrite Hc, <- app_assoc; reflexivity|].
              rewrite (create_events_after _ _ _ _ Hmails).
              cbn [filter is_create_events].
              destruct (callAgentBCreateEvents svc _ t (ev :: rest))
                as [created|e] eqn:Hb.
              ** exists t, (ev :: rest). do 2 eexists. exists outcomes.
                 split; [reflexivity|]. split; [discriminate|].
                 split; [do 2 eexists; split; [exact Htok | exact Hft]|].
                 split; [exact Hcase|]. split; [reflexivity|].
                 split; [reflexivity|]. split; [reflexivity|].
                 split; [exact Hdrafts|].
                 eexists. rewrite Hb. reflexivity.
              ** exists t, (ev :: rest). do 2 eexists. exists outcomes.
                 split; [reflexivity|]. split; [discriminate|].
                 split; [do 2 eexists; split; [exact Htok | exact Hft]|].
                 split; [exact Hcase|]. split; [reflexivity|].
                 split; [reflexivity|]. split; [reflexivity|].
                 split; [exact Hdrafts|].
                 eexists. rewrite Hb. split; [reflexivity|].
                 eexists. reflexivity.
        -- destruct Hcase as (Hr & Hc).
           destruct (Hquiet _ Hr Hc) as (new & Hnew & Hf & Hs).
           exists h, w', new. split; [exact Hrun|]. split; [exact Hnew|].
           rewrite Hf. exact Hs.
      * destruct Hcase as (Hr & Hc).
        destruct (Hquiet _ Hr Hc) as (new & Hnew & Hf & Hs).
        exists h, w', new. split; [exact Hrun|]. split; [exact Hnew|].
        rewrite Hf. exact Hs.
    + destruct Hcase as (Hr & Hc).
      destruct (Hquiet _ Hr Hc) as (new & Hnew & Hf & Hs).
      exists h, w', new. split; [exact Hrun|]. split; [exact Hnew|].
      rewrite Hf. exact Hs.
  - destruct Hcase as (-> & Hc).
    exists (Next e), w', [GetRecentEmails (maxResults_of v)].
    split; [exact Hrun|]. split; [exact Hc|]. cbn [filter is_create_events].
    intros r Hr. discriminate Hr.
Qed.

Lemma replace_prefix (p t : string) :
  replace (p ++ t)%string p "" = t.
Proof.
  assert (Hdrop : forall q u, drop (String.length q) (q ++ u)%string = u).
  { induction q as [|c q IH]; intros u; simpl; [destruct u; reflexivity|].
    apply IH. }
  assert (Hunfold : forall s pat by_,
             replace s pat by_
             = if String.prefix pat s
               then (by_ ++ drop (String.length pat) s)%string
               else match s with
                    | EmptyString => EmptyString
                    | String c rest => String c (replace rest pat by_)
                    end).
  { intros s pat by_. destruct s; reflexivity. }
  rewrite Hunfold, CreateEventService.prefix_append, Hdrop. reflexivity.
Qed.

Lemma replace_absent (s p by_ : string) :
  includes s p = false -> replace s p by_ = s.
Proof.
  induction s as [|c s IH]; simpl; intros H;
    apply orb_false_iff in H; destruct H as (Hp & Hrest).
  - rewrite Hp. reflexivity.
  - rewrite Hp. f_equal. apply IH. exact Hrest.
Qed.

Lemma token_requests_of (req : Request) (w : World Call)
      (v : ProcessEmailsValue) (jwt : string) :
  validateProcessEmailsRequest number_of_string (body req) = inr v ->
  first_truthy (option_map (fun a => replace a "Bearer " "")
                  (authorization req)) = Some jwt ->
  exists h w' rest,
    processInbox Date_parse number_of_string svc req w = (Returned h, w')
    /\ calls w' = calls w ++ GetRecentEmails (maxResults_of v) :: rest
    /\ forall c, In c rest -> is_token_request c = true ->
                 c = token_request jwt.
Proof.
  intros Hv Hjwt.
  destruct (processInbox_run req w v jwt Hv Hjwt)
    as (h & w' & Hrun & Hcase).
  cbv zeta in Hcase.
  assert (Hin : forall mails post c,
             Forall (fun c => is_per_message c = true) mails ->
             Forall (fun c => is_token_request c = false) post ->
             In c (mails ++ token_request jwt :: post) ->
             is_token_request c = true -> c = token_request jwt).
  { intros mails post c Hmails Hpost Hc Ht.
    apply in_app_or in Hc. destruct Hc as [Hc|[Hc|Hc]].
    - rewrite Forall_forall in Hmails. apply Hmails in Hc.
      destruct c; discriminate.
    - symmetry. exact Hc.
    - rewrite Forall_forall in Hpost. apply Hpost in Hc. congruence. }
  destruct (getRecentEmails svc (calls w) (maxResults_of v))
    as [messages|e].
  - destruct Hcase as (outcomes & mails & _ & Hmails & Hcase).
    assert (Hend : forall post,
               Forall (fun c => is_token_request c = false) post ->
               calls w'
               = (calls w ++ GetRecentEmails (maxResults_of v) :: mails)
                   ++ token_request jwt :: post ->
               exists h w' rest,
                 processInbox Date_parse number_of_string svc req w
                 = (Returned h, w')
                 /\ calls w'
                    = calls w ++ GetRecentEmails (maxResults_of v) :: rest
                 /\ forall c, In c rest -> is_token_request c = true ->
                              c = token_request jwt).
    { intros post Hpost Hc. exists h, w', (mails ++ token_request jwt :: post).
      split; [exact Hrun|].
      split; [rewrite Hc, <- app_assoc; reflexivity|].
      intros c. apply Hin; assumption. }
    destruct (requestDelegatedToken svc _ jwt "agent-b-calendar"
                ["calendar.write"%string]) as [tok|e].
    + destruct (first_truthy tok) as [t|].
      * destruct (forallb (datable Date_parse)
                    (map snd (pairs (kept outcomes)))).
        -- destruct Hcase as (events & ts & _ & Hcase).
           destruct events as [|ev rest].
           ++ destruct Hcase as (_ & Hc). apply (Hend []); [constructor|].
              exact Hc.
           ++ destruct Hcase as (Hc & _).
              apply (Hend [CallAgentBCreateEvents t (ev :: rest)]);
                [repeat constructor | exact Hc].
        -- destruct Hcase as (_ & Hc). apply (Hend []); [constructor|].
           exact Hc.
      * destruct Hcase as (_ & Hc). apply (Hend []); [constructor|].
        exact Hc.
    + destruct Hcase as (_ & Hc). apply (Hend []); [constructor|]. exact Hc.
  - destruct Hcase as (_ & Hc). exists h, w', [].
    split; [exact Hrun|]. split; [exact Hc|]. intros c [].
Qed.

(** X19: a valid request without a usable Authorization header (none,
    an empty one, or "Bearer " alone) is answered 401 MISSING_TOKEN
    before anything is called.  With the header "Bearer <token>", the
    mail fetch comes first and every token request of the run asks, for
    <token>, the audience "agent-b-calendar" and the one scope
    "calendar.write"; a header that does not contain "Bearer " is used
    whole as the session token. *)
Theorem process_emails_bearer_token
        (req : Request) (w : World Call) (v : ProcessEmailsValue) :
  validateProcessEmailsRequest number_of_string (body req) = inr v ->
  ((authorization req = None
    \/ authorization req = Some ""%string
    \/ authorization req = Some "Bearer "%string) ->
   exists ts w',
     route (processInbox Date_parse number_of_string svc req) w
     = (Returned
          (mkResponse 401 false None
             (Some (mkErrorBody "Authorization header required"
                      "MISSING_TOKEN" None)) ts), w')
     /\ calls w' = calls w)
  /\ (forall header t,
        authorization req = Some header ->
        t <> ""%string ->
        header = ("Bearer " ++ t)%string
        \/ (header = t /\ includes header "Bearer " = false) ->
        exists h w' rest,
          processInbox Date_parse number_of_string svc req w
          = (Returned h, w')
          /\ calls w' = calls w ++ GetRecentEmails (maxResults_of v) :: rest
          /\ forall c, In c rest -> is_token_request c = true ->
                       c = RequestDelegatedToken t "agent-b-calendar"
                             ["calendar.write"%string]).
Proof.
  intros Hv. split.
  - intros Hnone.
    assert (Hjwt : first_truthy
                     (option_map (fun a => replace a "Bearer " "")
                        (authorization req)) = None).
    { destruct Hnone as [->|[->| ->]]; reflexivity. }
    do 2 eexists. split.
    + eapply CreateEventsProps.route_app_error.
      unfold processInbox, try_catch. rewrite Hv, Hjwt. reflexivity.
    + reflexivity.
  - intros header t Hh Ht Hshape.
    apply (token_requests_of req w v t Hv).
    rewrite Hh. cbn [option_map first_truthy].
    assert (Hrep : replace header "Bearer " "" = t).
    { destruct Hshape as [->|(-> & Habs)].
      - apply replace_prefix.
      - apply replace_absent. exact Habs. }
    rewrite Hrep. unfold truthy.
    destruct (String.eqb_spec t ""); [contradiction | reflexivity].
Qed.

End Run.


Lemma process_emails_agent_b_call_witness :
  exists h w' new,
    processInbox JsDate.parse_iso SampleA.no_conversion
      (SampleA.services [SampleA.undated; SampleA.dated]
         (Some "delegated"%string))
      (SampleA.request VUndefined) SampleA.world = (Returned h, w')
    /\ calls w' = calls SampleA.world ++ new
    /\ List.length (filter is_create_events new) = 1%nat.
Proof.
  destruct (process_emails_agent_b_call
              JsDate.parse_iso SampleA.no_conversion
              (SampleA.services [SampleA.undated; SampleA.dated]
                 (Some "delegated"%string))
              (SampleA.request VUndefined) SampleA.world
              (mkValue (Some 5)) "session-jwt" eq_refl eq_refl)
    as (h & w' & new & Hrun & Hc & Hcase).
  exists h, w', new. split; [exact Hrun|]. split; [exact Hc|].
  destruct (filter is_create_events new) as [|c [|c' l]].
  - exfalso.
    assert (Hcalls : calls (snd (processInbox JsDate.parse_iso
                                   SampleA.no_conversion
                                   (SampleA.services
                                      [SampleA.undated; SampleA.dated]
                                      (Some "delegated"%string))
                                   (SampleA.request VUndefined)
                                   SampleA.world))
                     = calls w') by (rewrite Hrun; reflexivity).
    assert (Hfst : fst (processInbox JsDate.parse_iso
                          SampleA.no_conversion
                          (SampleA.services
                             [SampleA.undated; SampleA.dated]
                             (Some "delegated"%string))
                          (SampleA.request VUndefined) SampleA.world)
                   = Returned h) by (rewrite Hrun; reflexivity).
    vm_compute in Hfst. inversion Hfst as [Hh]. symmetry in Hh.
    destruct (Hcase _ Hh) as (d & Hd & _ & Hnone).
    cbn [data] in Hd. inversion Hd; subst d.
    cbn [summaries] in Hnone. inversion Hnone as [|s l Hs _].
    discriminate Hs.
  - reflexivity.
  - contradiction.
Defined.

Lemma process_emails_bearer_token_witness :
  exists h w' rest,
    processInbox JsDate.parse_iso SampleA.no_conversion
      (SampleA.services [SampleA.undated] (Some "delegated"%string))
      (SampleA.request VUndefined) SampleA.world = (Returned h, w')
    /\ calls w' = calls SampleA.world ++ GetRecentEmails 5 :: rest
    /\ forall c, In c rest -> is_token_request c = true ->
                 c = RequestDelegatedToken "session-jwt" "agent-b-calendar"
                       ["calendar.write"%string].
Proof.
  destruct (process_emails_bearer_token
              JsDate.parse_iso SampleA.no_conversion
              (SampleA.services [SampleA.undated] (Some "delegated"%string))
              (SampleA.request VUndefined) SampleA.world
              (mkValue (Some 5)) eq_refl) as (_ & Hround).
  apply (Hround "Bearer session-jwt"%string "session-jwt"%string eq_refl).
  - discriminate.
  - left. reflexivity.
Defined.

End InboxRun.

(** ** Agent A: the language-model service *)

Module AiProps.
Import Shared AiService SpecAi.








Section Service.
Variable Date_parse : string -> JsDate.Date.
Variable Date_toString : Z -> string.
Variable trim : string -> string.
Variable toLowerCase : string -> string.
Variable JSON_parse : string -> Outcome Json.
Variable match_gi : string -> string -> option (list string).
Variable openai : OpenAI.














End Service.
End AiProps.

(** ** Agent A: the mail service *)

Module GmailProps.
Import GmailService SpecGmail.


Lemma own_In {A : Type} (table : list (string * A)) (key : string) (v : A) :
  own table key = Some v -> In (key, v) table.
Proof.
  induction table as [|[k x] rest IH]; simpl; [discriminate|].
  destruct (String.eqb_spec k key) as [->|_].
  - intros H. inversion H. left. reflexivity.
  - intros H. right. apply IH. exact H.
Qed.

(** X23: the lookup in the mock table never throws and calls nothing.
    For a message id that is not the name of a property every object
    inherits, it gives an email with that id, unread, labelled INBOX and
    UNREAD, and received at or before a reading of the clock; for such
    a name it gives the inherited property instead of an email. *)
Theorem getMockEmailContent_answers (messageId : string) (w : World Call) :
  exists c w',
    getMockEmailContent messageId w = (Returned c, w')
    /\ calls w' = calls w
    /\ clock w' = clock w
    /\ (array_includes inherited messageId = false ->
        mock_for (clock w) (readings w) messageId c)
    /\ (array_includes inherited messageId = true ->
        c = Inherited messageId).
Proof.
  unfold getMockEmailContent, bind, Date_now.
  cbn [clock readings random draws calls].
  match goal with
  | |- context [own ?t messageId] => set (table := t)
  end.
  destruct (own table messageId) as [email|] eqn:Hown.
  - do 2 eexists. split; [reflexivity|]. split; [reflexivity|].
    split; [reflexivity|].
    apply own_In in Hown. unfold table in Hown.
    assert (Hnot : array_includes inherited messageId = false).
    { simpl in Hown.
      destruct Hown as [H|[H|[H|[H|[H|[]]]]]]; inversion H; reflexivity. }
    split; [|congruence]. intros _.
    exists email. split; [reflexivity|].
    simpl in Hown.
    destruct Hown as [H|[H|[H|[H|[H|[]]]]]]; inversion H; subst;
      cbn [e_id e_isRead e_labels e_receivedAt];
      (split; [reflexivity|]); (split; [reflexivity|]);
      (split; [simpl; tauto|]); (split; [simpl; tauto|]).
    + exists (readings w). eexists. split; [lia|]. split; [reflexivity|]. lia.
    + exists (S (readings w)). eexists. split; [lia|].
      split; [reflexivity|]. lia.
    + exists (S (S (readings w))). eexists. split; [lia|].
      split; [reflexivity|]. lia.
    + exists (S (S (S (readings w)))). eexists. split; [lia|].
      split; [reflexivity|]. lia.
    + exists (S (S (S (S (readings w))))). eexists. split; [lia|].
      split; [reflexivity|]. lia.
  - destruct (array_includes inherited messageId) eqn:Hin.
    + do 2 eexists. split; [reflexivity|]. split; [reflexivity|].
      split; [reflexivity|]. split; [discriminate | reflexivity].
    + do 2 eexists. split; [reflexivity|]. split; [reflexivity|].
      split; [reflexivity|]. split; [|discriminate]. intros _.
      eexists. split; [reflexivity|].
      cbn [e_id e_isRead e_labels e_receivedAt].
      split; [reflexivity|]. split; [reflexivity|].
      split; [simpl; tauto|]. split; [simpl; tauto|].
      exists (S (S (S (S (S (readings w)))))). eexists.
      split; [lia|]. split; [reflexivity|]. cbn [clock readings]. lia.
Qed.

Section Service.
Variable Date_parse : string -> JsDate.Date.
Variable toLowerCase : string -> string.
Variable Buffer_base64_utf8 : string -> Outcome string.
Variable stripHtmlTags : string -> string.
Variable svc : GmailService.


Lemma carries_has_data (type : string) (part : MessagePart) :
  carries type part = true -> has_data part = true.
Proof.
  unfold carries. destruct part as [m d ps hs]. cbn [part_data part_mimeType].
  intros H. apply andb_true_iff in H. destruct H as (_ & Hd).
  cbn [has_data]. destruct (first_truthy d); [reflexivity | discriminate Hd].
Qed.

Lemma find_without_data (type : string) (l : list MessagePart) :
  existsb has_data l = false -> find (carries type) l = None.
Proof.
  induction l as [|x l IH]; simpl; [reflexivity|]. intros H.
  apply orb_false_iff in H. destruct H as (Hx & Hl).
  destruct (carries type x) eqn:Hc; [|apply IH; exact Hl].
  apply carries_has_data in Hc. congruence.
Qed.

Lemma extractEmailBody_without_data :
  forall payload : MessagePart,
    has_data payload = false ->
    extractEmailBody Buffer_base64_utf8 stripHtmlTags payload = ""%string.
Proof.
  fix IH 1. intros [m d ps hs] H. cbn [has_data] in H.
  apply orb_false_iff in H. destruct H as (Hd & Hps).
  cbn [extractEmailBody].
  destruct (first_truthy d) eqn:Ed; [discriminate Hd|].
  destruct ps as [l|]; [|reflexivity].
  destruct l as [|p ps]; [reflexivity|].
  rewrite (find_without_data "text/plain" (p :: ps) Hps).
  rewrite (find_without_data "text/html" (p :: ps) Hps).
  cbn [existsb] in Hps. apply orb_false_iff in Hps.
  destruct Hps as (Hp & Hps).
  rewrite (IH p Hp). cbn [truthy String.eqb negb].
  revert Hps. clear Hp p.
  induction ps as [|x l IHl]; [reflexivity|].
  cbn [existsb]. intros H. apply orb_false_iff in H.
  destruct H as (Hx & Hl).
  rewrite (IH x Hx). cbn [truthy String.eqb negb]. apply IHl. exact Hl.
Qed.

(** X29: the body of a message is looked for in the parts first: the
    first direct part of type text/plain that has data gives the body,
    whatever the other parts and the payload itself hold, and without
    such a part the first direct text/html part that has data gives it,
    with its tags stripped.  A message in which no part has data has an
    empty body. *)
Theorem extractEmailBody_prefers_plain
        (mimeType data : option string) (p : MessagePart)
        (ps : list MessagePart) (headers : option (list Header)) :
  let payload := mkPart mimeType data (Some (p :: ps)) headers in
  match find (carries "text/plain") (p :: ps) with
  | Some part =>
      extractEmailBody Buffer_base64_utf8 stripHtmlTags payload
      = decodeBase64 Buffer_base64_utf8 (data_of part)
  | None =>
      match find (carries "text/html") (p :: ps) with
      | Some part =>
          extractEmailBody Buffer_base64_utf8 stripHtmlTags payload
          = stripHtmlTags (decodeBase64 Buffer_base64_utf8 (data_of part))
      | None =>
          has_data payload = false ->
          extractEmailBody Buffer_base64_utf8 stripHtmlTags payload
          = ""%string
      end
  end.
Proof.
  intros payload.
  destruct (find (carries "text/plain") (p :: ps)) as [part|] eqn:Hplain.
  - unfold payload. cbn [extractEmailBody]. rewrite Hplain. reflexivity.
  - destruct (find (carries "text/html") (p :: ps)) as [part|] eqn:Hhtml.
    + unfold payload. cbn [extractEmailBody]. rewrite Hplain, Hhtml.
      reflexivity.
    + apply extractEmailBody_without_data.
Qed.

Lemma parseGmailMessage_run (message : Message) (w : World Call) :
  exists e w',
    parseGmailMessage Date_parse toLowerCase Buffer_base64_utf8
      stripHtmlTags message w = (Returned e, w')
    /\ calls w' = calls w
    /\ clock w' = clock w
    /\ (readings w <= readings w')%nat
    /\ e_id e = m_id message
    /\ e_threadId e = m_threadId message
    /\ e_labels e = match m_labelIds message with Some l => l | None => [] end
    /\ e_isRead e = negb (array_includes (e_labels e) "UNREAD").
Proof.
  unfold parseGmailMessage, bind. cbv zeta.
  match goal with
  | |- context [if truthy ?d then _ else _] => destruct (truthy d)
  end.
  - do 2 eexists. split; [reflexivity|]. repeat split. lia.
  - do 2 eexists. split; [reflexivity|]. repeat split. cbn [readings]. lia.
Qed.

(** X25: [getEmailContent] throws one error only, 404 EMAIL_NOT_FOUND,
    and only after the provider threw an error whose message contains
    "Not Found".  Any other provider failure is masked: the answer is
    then, as without credentials, the mock email for the requested id.
    A message the provider returned is answered with its own id, thread
    and labels, and is read exactly when it has no label UNREAD. *)
Theorem getEmailContent_answers (messageId : string) (w : World Call) :
  exists o w',
    getEmailContent Date_parse toLowerCase Buffer_base64_utf8 stripHtmlTags
      svc messageId w = (o, w')
    /\ (mock_mode svc -> calls w' = calls w)
    /\ match o with
       | Threw e =>
           e = email_not_found
           /\ exists client cause,
                gmail svc = Some client
                /\ messages_get client (calls w) messageId = Threw cause
                /\ instanceof_Error cause = true
                /\ includes (message cause) "Not Found" = true
       | Returned c =>
           (exists client m e,
              gmail svc = Some client
              /\ messages_get client (calls w) messageId = Returned m
              /\ c = Parsed e
              /\ e_id e = m_id m
              /\ e_threadId e = m_threadId m
              /\ e_labels e
                 = match m_labelIds m with Some l => l | None => [] end
              /\ e_isRead e = negb (array_includes (e_labels e) "UNREAD"))
           \/ ((mock_mode svc
                \/ exists client cause,
                     gmail svc = Some client
                     /\ messages_get client (calls w) messageId = Threw cause)
               /\ (array_includes inherited messageId = false ->
                   mock_for (clock w) (readings w) messageId c))
       end.
Proof.
  unfold getEmailContent, try_catch, mock_mode.
  assert (Hmock : forall w0 : World Call,
             clock w0 = clock w -> readings w0 = readings w ->
             exists c w',
               getMockEmailContent messageId w0 = (Returned c, w')
               /\ calls w' = calls w0
               /\ (array_includes inherited messageId = false ->
                   mock_for (clock w) (readings w) messageId c)).
  { intros w0 Hclk Hrd.
    destruct (getMockEmailContent_answers messageId w0)
      as (c & w' & Hrun & Hc & _ & Hfor & _).
    exists c, w'. split; [exact Hrun|]. split; [exact Hc|].
    rewrite Hclk, Hrd in Hfor. exact Hfor. }
  destruct (gmail svc) as [client|] eqn:Hg.
  - destruct (oauth2Client svc) as [[]|] eqn:Ho.
    + unfold bind at 1. unfold call at 1.
      destruct (messages_get client (calls w) messageId) as [m|cause] eqn:Hm.
      * unfold bind.
        match goal with
        | |- context [parseGmailMessage _ _ _ _ m ?w0] =>
            destruct (parseGmailMessage_run m w0)
              as (e & w1 & Hrun & _ & _ & _ & Hid & Hth & Hl & Hr);
            rewrite Hrun
        end.
        do 2 eexists. split; [reflexivity|]. split.
        -- intros [H|H]; discriminate H.
        -- left. exists client, m, e. repeat split; assumption.
      * destruct (instanceof_Error cause) eqn:Hi; cbn [andb].
        -- destruct (includes (message cause) "Not Found") eqn:Hn.
           ++ do 2 eexists. split; [reflexivity|]. split.
              ** intros [H|H]; discriminate H.
              ** split; [reflexivity|]. exists client, cause.
                 repeat split; assumption.
           ++ match goal with
              | |- context [getMockEmailContent messageId ?w0] =>
                  destruct (Hmock w0) as (c & w1 & Hrun & _ & Hfor);
                  [reflexivity | reflexivity |];
                  rewrite Hrun
              end.
              do 2 eexists. split; [reflexivity|]. split.
              ** intros [H|H]; discriminate H.
              ** right. split; [|exact Hfor]. right.
                 exists client, cause. split; [reflexivity | exact Hm].
        -- match goal with
           | |- context [getMockEmailContent messageId ?w0] =>
               destruct (Hmock w0) as (c & w1 & Hrun & _ & Hfor);
               [reflexivity | reflexivity |];
               rewrite Hrun
           end.
           do 2 eexists. split; [reflexivity|]. split.
           ++ intros [H|H]; discriminate H.
           ++ right. split; [|exact Hfor]. right.
              exists client, cause. split; [reflexivity | exact Hm].
    + destruct (Hmock w) as (c & w1 & Hrun & Hc & Hfor);
        [reflexivity | reflexivity |].
      rewrite Hrun. do 2 eexists. split; [reflexivity|].
      split; [intros _; exact Hc|].
      right. split; [|exact Hfor]. left. right. reflexivity.
  - destruct (Hmock w) as (c & w1 & Hrun & Hc & Hfor);
      [reflexivity | reflexivity |].
    rewrite Hrun. do 2 eexists. split; [reflexivity|].
    split; [intros _; exact Hc|].
    right. split; [|exact Hfor]. left. left. reflexivity.
Qed.

End Service.

Lemma extractEmailBody_prefers_plain_witness :
  extractEmailBody SampleGmail.Buffer_base64_utf8 SampleGmail.stripHtmlTags
    (mkPart (Some "multipart/alternative"%string) None
       (Some [mkPart (Some "text/html"%string) (Some "PGI-aGk_"%string)
                None None;
              mkPart (Some "text/plain"%string) (Some "aGk-_w"%string)
                None None])
       None)
  = "aGk+/w"%string.
Proof.
  exact (extractEmailBody_prefers_plain
           SampleGmail.Buffer_base64_utf8 SampleGmail.stripHtmlTags
           (Some "multipart/alternative"%string) None
           (mkPart (Some "text/html"%string) (Some "PGI-aGk_"%string)
              None None)
           [mkPart (Some "text/plain"%string) (Some "aGk-_w"%string)
              None None]
           None).
Defined.

Lemma getMockEmailContent_answers_witness :
  exists c w',
    getMockEmailContent "mock_email_2" SampleGmail.world = (Returned c, w')
    /\ mock_for (clock SampleGmail.world) 0 "mock_email_2" c.
Proof.
  destruct (getMockEmailContent_answers "mock_email_2" SampleGmail.world)
    as (c & w' & Hrun & _ & _ & Hfor & _).
  exists c, w'. split; [exact Hrun|]. apply Hfor. reflexivity.
Defined.


Lemma getEmailContent_answers_witness :
  exists c w',
    getEmailContent JsDate.parse_iso SampleGmail.toLowerCase
      SampleGmail.Buffer_base64_utf8 SampleGmail.stripHtmlTags
      (SampleGmail.service
         (SampleGmail.failing_client (Error "Error" "Backend Error")))
      "m42" SampleGmail.world = (Returned c, w')
    /\ mock_for (clock SampleGmail.world) 0 "m42" c.
Proof.
  destruct (getEmailContent_answers JsDate.parse_iso SampleGmail.toLowerCase
              SampleGmail.Buffer_base64_utf8 SampleGmail.stripHtmlTags
              (SampleGmail.service
                 (SampleGmail.failing_client (Error "Error" "Backend Error")))
              "m42"%string SampleGmail.world) as (o & w' & Hrun & _ & Hcase).
  destruct o as [c|e].
  - exists c, w'. split; [exact Hrun|].
    destruct Hcase as [(client & m & e & Hg & Hget & _)|(_ & Hfor)].
    + inversion Hg; subst client. discriminate Hget.
    + apply Hfor. reflexivity.
  - exfalso. destruct Hcase as (_ & client & cause & Hg & Hget & _ & Hn).
    inversion Hg; subst client. inversion Hget; subst cause.
    discriminate Hn.
Defined.

End GmailProps.

(** ** Agent A: the endpoints for one email *)

Module EndpointProps.
Import Shared AgentA EmailEndpoints SpecEndpoints InboxTrace.

Lemma route_next {Data : Type} (c : M (Handled Data)) (e : Thrown)
      (w w1 : World Call) :
  c w = (Returned (Next e), w1) ->
  exists r w',
    route c w = (Returned r, w')
    /\ calls w' = calls w1
    /\ answers_error e r.
Proof.
  intros H. unfold route, bind. rewrite H. unfold errorHandler.
  destruct e as [n m|m st code details|shown].
  - destruct (Js.name (Error n m) =? "ValidationError")%string;
      do 2 eexists; (split; [reflexivity|]); (split; [reflexivity|]);
      repeat split; simpl; tauto.
  - do 2 eexists. split; [reflexivity|]. split; [reflexivity|].
    repeat split.
  - do 2 eexists. split; [reflexivity|]. split; [reflexivity|].
    repeat split. simpl. tauto.
Qed.

Lemma summary_error_status {Data : Type} (e : Thrown) (r : Response Data) :
  SpecAi.summary_error e -> answers_error e r ->
  status r = 429 \/ status r = 500.
Proof.
  intros [->|[->| ->]] (_ & _ & Hst & _); rewrite Hst; tauto.
Qed.

Lemma extraction_error_status {Data : Type} (e : Thrown) (r : Response Data) :
  SpecAi.extraction_error e -> answers_error e r ->
  status r = 429 \/ status r = 500.
Proof.
  intros [->| ->] (_ & _ & Hst & _); rewrite Hst; tauto.
Qed.

Section Endpoints.
Variable svc : Services.

(** X26: [extractTasks] answers 400 MISSING_EMAIL, and calls nothing,
    when the body has no email object.  Otherwise the email is
    summarised first and its action items are extracted only if that
    succeeded; the first failure is handed to the error handler as it
    is, and success is answered 200 with [actionCount] the number of
    action items.  With collaborators that throw only the errors of the
    language-model service, the status is 200, 400, 429 or 500. *)
Theorem extract_tasks_answers (req : TasksRequest) (w : World Call) :
  exists r w' new,
    route (extractTasks svc req) w = (Returned r, w')
    /\ calls w' = calls w ++ new
    /\ match body_email req with
       | EmailObject email =>
           match summarizeEmail svc (calls w) email with
           | Threw e => new = [SummarizeEmail email] /\ answers_error e r
           | Returned summary =>
               new = [SummarizeEmail email; ExtractActionItems email]
               /\ match extractActionItems svc
                          (calls w ++ [SummarizeEmail email]) email with
                  | Threw e => answers_error e r
                  | Returned actions =>
                      status r = 200
                      /\ success r = true
                      /\ data r
                         = Some (mkTasksResponse summary actions
                                   (mkMetadata (em_id email) true
                                      (List.length actions)))
                  end
           end
       | Missing | NotAnObject =>
           new = []
           /\ status r = 400
           /\ error r
              = Some (mkErrorBody "Email object is required in request body"
                        "MISSING_EMAIL" None)
       end
    /\ (typed_failures svc ->
        status r = 200 \/ status r = 400 \/ status r = 429 \/ status r = 500).
Proof.
  assert (Hguard : body_email req = Missing \/ body_email req = NotAnObject ->
            exists r w' new,
              route (extractTasks svc req) w = (Returned r, w')
              /\ calls w' = calls w ++ new
              /\ (new = []
                  /\ status r = 400
                  /\ error r
                     = Some (mkErrorBody
                               "Email object is required in request body"
                               "MISSING_EMAIL" None))
              /\ (typed_failures svc ->
                  status r = 200 \/ status r = 400 \/ status r = 429
                  \/ status r = 500)).
  { intros Hb. do 2 eexists. exists []. split.
    - eapply CreateEventsProps.route_app_error.
      unfold extractTasks, try_catch.
      destruct Hb as [-> | ->]; reflexivity.
    - rewrite app_nil_r. split; [reflexivity|].
      split; [repeat split|]. intros _. right. left. reflexivity. }
  destruct (body_email req) as [| |email] eqn:Hbody;
    [apply Hguard; left; reflexivity | apply Hguard; right; reflexivity|].
  clear Hguard.
  destruct (summarizeEmail svc (calls w) email) as [summary|e] eqn:Hsum.
  - destruct (extractActionItems svc (calls w ++ [SummarizeEmail email]) email)
      as [actions|e] eqn:Hext.
    + do 2 eexists. exists [SummarizeEmail email; ExtractActionItems email].
      split.
      * apply CreateEventsProps.route_sent.
        unfold extractTasks, try_catch. rewrite Hbody.
        unfold bind at 1. rewrite call_run, Hsum.
        unfold bind at 1. rewrite call_run. cbn [calls]. rewrite Hext.
        reflexivity.
      * split; [cbn [calls]; rewrite <- app_assoc; reflexivity|].
        split; [repeat split|]. intros _. left. reflexivity.
    + destruct (route_next (extractTasks svc req) e w
                  (mkWorld (clock w) (readings w) (random w) (draws w)
                     ((calls w ++ [SummarizeEmail email])
                        ++ [ExtractActionItems email])))
        as (r & w' & Hrun & Hc & Hans).
      { unfold extractTasks, try_catch. rewrite Hbody.
        unfold bind at 1. rewrite call_run, Hsum.
        unfold bind at 1. rewrite call_run. cbn [calls]. rewrite Hext.
        reflexivity. }
      exists r, w', [SummarizeEmail email; ExtractActionItems email].
      split; [exact Hrun|].
      split; [rewrite Hc; cbn [calls]; rewrite <- app_assoc; reflexivity|].
      split; [split; [reflexivity | exact Hans]|].
      intros (_ & _ & Hx). right. right.
      apply (extraction_error_status e r); [|exact Hans].
      eapply Hx. exact Hext.
  - destruct (route_next (extractTasks svc req) e w
                (mkWorld (clock w) (readings w) (random w) (draws w)
                   (calls w ++ [SummarizeEmail email])))
      as (r & w' & Hrun & Hc & Hans).
    { unfold extractTasks, try_catch. rewrite Hbody.
      unfold bind at 1. rewrite call_run, Hsum. reflexivity. }
    exists r, w', [SummarizeEmail email].
    split; [exact Hrun|]. split; [rewrite Hc; reflexivity|].
    split; [split; [reflexivity | exact Hans]|].
    intros (_ & Hs & _). right. right.
    apply (summary_error_status e r); [|exact Hans].
    eapply Hs. exact Hsum.
Qed.

(** X27: [getEmailSummary] reads the email, summarises it and extracts
    its action items, in this order, and stops at the first failure,
    which is handed to the error handler as it is: unlike in the inbox
    run, a failure on the email fails the request.  With collaborators
    that throw only the errors of the mail and language-model services,
    the status is 200, 400, 404, 429 or 500, and 404 only when the mail
    service did not find the email. *)
Theorem email_summary_answers (req : SummaryRequest) (w : World Call) :
  exists r w' new,
    route (getEmailSummary svc req) w = (Returned r, w')
    /\ calls w' = calls w ++ new
    /\ match first_truthy (param_emailId req) with
       | None =>
           new = []
           /\ status r = 400
           /\ error r
              = Some (mkErrorBody "Email ID is required" "MISSING_EMAIL_ID"
                        None)
       | Some emailId =>
           match getEmailContent svc (calls w) emailId with
           | Threw e => new = [GetEmailContent emailId] /\ answers_error e r
           | Returned email =>
               match summarizeEmail svc (calls w ++ [GetEmailContent emailId])
                       email with
               | Threw e =>
                   new = [GetEmailContent emailId; SummarizeEmail email]
                   /\ answers_error e r
               | Returned summary =>
                   new = [GetEmailContent emailId; SummarizeEmail email;
                          ExtractActionItems email]
                   /\ match extractActionItems svc
                              (calls w ++ [GetEmailContent emailId;
                                           SummarizeEmail email]) email with
                      | Threw e => answers_error e r
                      | Returned actions =>
                          status r = 200
                          /\ success r = true
                          /\ data r
                             = Some (mkSummaryResponse email summary actions)
                      end
               end
           end
       end
    /\ (typed_failures svc ->
        (status r = 200 \/ status r = 400 \/ status r = 404
         \/ status r = 429 \/ status r = 500)
        /\ (status r = 404 ->
            exists emailId e,
              getEmailContent svc (calls w) emailId = Threw e)).
Proof.
  destruct (first_truthy (param_emailId req)) as [emailId|] eqn:Hid.
  - destruct (getEmailContent svc (calls w) emailId) as [email|e] eqn:Hget.
    + destruct (summarizeEmail svc (calls w ++ [GetEmailContent emailId])
                  email) as [summary|e] eqn:Hsum.
      * destruct (extractActionItems svc
                    (calls w ++ [GetEmailContent emailId;
                                 SummarizeEmail email]) email)
          as [actions|e] eqn:Hext.
        -- do 2 eexists.
           exists [GetEmailContent emailId; SummarizeEmail email;
                   ExtractActionItems email].
           split.
           ++ apply CreateEventsProps.route_sent.
              unfold getEmailSummary, try_catch. rewrite Hid.
              unfold bind at 1. rewrite call_run, Hget.
              unfold bind at 1. rewrite call_run. cbn [calls]. rewrite Hsum.
              unfold bind at 1. rewrite call_run. cbn [calls].
              rewrite <- app_assoc. cbn [app]. rewrite Hext. reflexivity.
           ++ split; [cbn [calls]; rewrite <- !app_assoc; reflexivity|].
              split; [repeat split|]. intros _.
              split; [left; reflexivity | discriminate].
        -- destruct (route_next (getEmailSummary svc req) e w
                       (mkWorld (clock w) (readings w) (random w) (draws w)
                          (((calls w ++ [GetEmailContent emailId])
                              ++ [SummarizeEmail email])
                             ++ [ExtractActionItems email])))
             as (r & w' & Hrun & Hc & Hans).
           { unfold getEmailSummary, try_catch. rewrite Hid.
             unfold bind at 1. rewrite call_run, Hget.
             unfold bind at 1. rewrite call_run. cbn [calls]. rewrite Hsum.
             unfold bind at 1. rewrite call_run. cbn [calls].
             rewrite <- (app_assoc (calls w)). cbn [app]. rewrite Hext.
             reflexivity. }
           exists r, w', [GetEmailContent emailId; SummarizeEmail email;
                          ExtractActionItems email].
           split; [exact Hrun|].
           split; [rewrite Hc; cbn [calls]; rewrite <- !app_assoc;
                   reflexivity|].
           split; [split; [reflexivity | exact Hans]|].
           intros (_ & _ & Hx).
           assert (Hst : status r = 429 \/ status r = 500).
           { apply (extraction_error_status e r); [|exact Hans].
             eapply Hx. exact Hext. }
           split; [tauto|]. intros H404. destruct Hst; congruence.
      * destruct (route_next (getEmailSummary svc req) e w
                    (mkWorld (clock w) (readings w) (random w) (draws w)
                       ((calls w ++ [GetEmailContent emailId])
                          ++ [SummarizeEmail email])))
          as (r & w' & Hrun & Hc & Hans).
        { unfold getEmailSummary, try_catch. rewrite Hid.
          unfold bind at 1. rewrite call_run, Hget.
          unfold bind at 1. rewrite call_run. cbn [calls]. rewrite Hsum.
          reflexivity. }
        exists r, w', [GetEmailContent emailId; SummarizeEmail email].
        split; [exact Hrun|].
        split; [rewrite Hc; cbn [calls]; rewrite <- !app_assoc;
                reflexivity|].
        split; [split; [reflexivity | exact Hans]|].
        intros (_ & Hs & _).
        assert (Hst : status r = 429 \/ status r = 500).
        { apply (summary_error_status e r); [|exact Hans].
          eapply Hs. exact Hsum. }
        split; [tauto|]. intros H404. destruct Hst; congruence.
    + destruct (route_next (getEmailSummary svc req) e w
                  (mkWorld (clock w) (readings w) (random w) (draws w)
                     (calls w ++ [GetEmailContent emailId])))
        as (r & w' & Hrun & Hc & Hans).
      { unfold getEmailSummary, try_catch. rewrite Hid.
        unfold bind at 1. rewrite call_run, Hget. reflexivity. }
      exists r, w', [GetEmailContent emailId].
      split; [exact Hrun|]. split; [rewrite Hc; reflexivity|].
      split; [split; [reflexivity | exact Hans]|].
      intros (Hg & _ & _).
      split.
      * apply Hg in Hget. subst e. destruct Hans as (_ & _ & Hst & _).
        rewrite Hst. tauto.
      * intros _. exists emailId, e. exact Hget.
  - do 2 eexists. exists []. split.
    + eapply CreateEventsProps.route_app_error.
      unfold getEmailSummary, try_catch. rewrite Hid. reflexivity.
    + rewrite app_nil_r. split; [reflexivity|]. split; [repeat split|].
      intros _. split; [tauto | discriminate].
Qed.

End Endpoints.

Lemma extract_tasks_answers_witness :
  exists r w',
    route (extractTasks
             (SampleA.services [SampleA.undated] None)
             (mkTasksRequest (EmailObject SampleA.email))) SampleA.world
    = (Returned r, w')
    /\ (status r = 200 \/ status r = 400 \/ status r = 429 \/ status r = 500).
Proof.
  destruct (extract_tasks_answers
              (SampleA.services [SampleA.undated] None)
              (mkTasksRequest (EmailObject SampleA.email)) SampleA.world)
    as (r & w' & new & Hrun & _ & _ & Hst).
  exists r, w'. split; [exact Hrun|]. apply Hst.
  split; [|split]; intros; discriminate.
Defined.

Lemma email_summary_answers_witness :
  exists r w',
    route (getEmailSummary SampleEndpoints.lost
             (mkSummaryRequest (Some "m1"%string))) SampleA.world
    = (Returned r, w')
    /\ status r = 404
    /\ error r = Some (mkErrorBody "Email not found" "EMAIL_NOT_FOUND" None).
Proof.
  destruct (email_summary_answers SampleEndpoints.lost
              (mkSummaryRequest (Some "m1"%string)) SampleA.world)
    as (r & w' & new & Hrun & _ & Hcase & _).
  exists r, w'. split; [exact Hrun|].
  cbn in Hcase. destruct Hcase as (_ & _ & _ & Hst & Herr).
  split; assumption.
Defined.

End EndpointProps.

(** ** The frontend: protected pages *)

Module FrontendProps.
Import Frontend.

(** X28: a protected page never shows "Access Denied": whatever
    permission the route requires, what is rendered depends only on
    whether the provider is loading and whether a user and a non-empty
    session token are held.  After the provider followed an
    authenticated Descope session the page is shown, and after a logout
    the visitor is sent to the login page. *)
Theorem protected_route_ignores_permission
        (s : AuthState) (requiredPermission : option string) :
  ProtectedRoute (AuthProvider s) requiredPermission
  = (if isLoading s then CheckingAuthentication
     else if c_isAuthenticated (AuthProvider s) then Children
     else NavigateToLogin)
  /\ ProtectedRoute (AuthProvider s) requiredPermission <> AccessDenied
  /\ (forall descope token u,
        d_isAuthenticated descope = true ->
        first_truthy (d_sessionToken descope) = Some token ->
        d_user descope = Some u ->
        ProtectedRoute (AuthProvider (sync descope s)) requiredPermission
        = Children)
  /\ (isLoading s = false ->
      ProtectedRoute (AuthProvider (logout s)) requiredPermission
      = NavigateToLogin).
Proof.
  assert (Hshape : ProtectedRoute (AuthProvider s) requiredPermission
                   = (if isLoading s then CheckingAuthentication
                      else if c_isAuthenticated (AuthProvider s) then Children
                      else NavigateToLogin)).
  { unfold ProtectedRoute, AuthProvider.
    cbn [c_isLoading c_isAuthenticated hasPermission].
    destruct (isLoading s); [reflexivity|].
    destruct (user s); [|reflexivity].
    destruct (sessionToken s) as [t|]; [|reflexivity].
    cbn [first_truthy andb]. destruct (truthy t); [|reflexivity].
    cbn [negb]. destruct (first_truthy requiredPermission); reflexivity. }
  split; [exact Hshape|]. split; [|split].
  - rewrite Hshape. destruct (isLoading s); [discriminate|].
    destruct (c_isAuthenticated (AuthProvider s)); discriminate.
  - intros descope token u Ha Ht Hu.
    unfold sync. rewrite Ha, Ht, Hu.
    unfold ProtectedRoute, AuthProvider.
    cbn [c_isLoading c_isAuthenticated hasPermission user sessionToken
         isLoading].
    assert (Htruthy : first_truthy (Some token) = Some token).
    { destruct (d_sessionToken descope) as [t|]; [|discriminate Ht].
      simpl in Ht. destruct (truthy t) eqn:E; [|discriminate Ht].
      inversion Ht; subst t. simpl. rewrite E. reflexivity. }
    rewrite Htruthy. cbn [andb negb].
    destruct (first_truthy requiredPermission); reflexivity.
  - intros Hl. unfold ProtectedRoute, AuthProvider, logout.
    cbn [c_isLoading c_isAuthenticated user sessionToken isLoading].
    rewrite Hl. reflexivity.
Qed.

Lemma protected_route_ignores_permission_witness :
  ProtectedRoute
    (AuthProvider
       (sync (mkDescope true (Some "session-jwt"%string)
                (Some (mkDescopeUser "u1" (Some "ada@example.com"%string)
                         None None)))
             (mkAuthState None None true)))
    (Some "calendar.write"%string)
  = Children.
Proof.
  destruct (protected_route_ignores_permission
              (mkAuthState None None true) (Some "calendar.write"%string))
    as (_ & _ & Hsync & _).
  apply (Hsync _ "session-jwt"%string
               (mkDescopeUser "u1" (Some "ada@example.com"%string) None None));
    reflexivity.
Defined.

End FrontendProps.
